(** * Sistema Bravus (crud.py): inventory ledger, sales recorder, reports

    A shallow embedding of the database back end of [crud.py] and of the
    presentation-layer methods that decide what reaches it.

    - Python [float] and SQLite [REAL] are IEEE-754 binary64: the primitive
      floats of the kernel, whose operations are specified by the Standard
      Library in [FloatAxioms].
    - The arithmetic is also read over the rationals, where no operation
      rounds.  The code is written once, over the interface [PyFloat], and
      has the two instances [binary64] (what runs) and [exato].
    - A table is the list of its rows in rowid order; a NULL-able column is
      an [option]; a statement is a function on the database; a connection
      that is closed before its commit leaves the database as it was.
    - Python text is held as its UTF-8 bytes, so that [encode("utf-8")] and
      the BINARY collation of SQLite are the identity and byte equality. *)

From Stdlib Require Import ZArith QArith Qminmax List String Ascii Bool.
From Stdlib Require Import Floats Lia Lqa Permutation Sorted.
Import ListNotations.

Close Scope Q_scope.
Open Scope Z_scope.

Set Warnings "-inexact-float".

(** ** Python outcomes *)

(** The exceptions that the modelled code can meet. *)
Inductive exn : Set :=
| ZeroDivisionError
| OverflowError
| InvalidOperation
| IntegrityError
| OperationalError.

Inductive result (A : Type) : Type :=
| Ok (a : A)
| Raise (e : exn).

Arguments Ok {A} a.
Arguments Raise {A} e.

(** What a [messagebox] call puts on the screen. *)
Inductive dialog : Set :=
| showinfo (title message : string)
| showwarning (title message : string).

(** ** The numbers of the program *)

(** [fdiv] is the quotient of the format; Python's [/] is [truediv] below,
    which first refuses a zero divisor.  [float_of_int] is [float(n)] for an
    [int], which raises [OverflowError] when [n] is out of range.  [sql_sum]
    is the engine's [SUM] over the REAL values of at least one row.
    [sql_real] is what the engine keeps of a float that it is given, for a
    column or as the value of a [SUM]: [None] is NULL. *)
Class PyFloat (F : Type) : Type := {
  fzero : F;
  fadd : F -> F -> F;
  fsub : F -> F -> F;
  fmul : F -> F -> F;
  fdiv : F -> F -> F;
  feqb : F -> F -> bool;
  fltb : F -> F -> bool;
  fleb : F -> F -> bool;
  float_of_int : Z -> result F;
  sql_sum : list F -> F;
  sql_real : F -> option F
}.

(** What the guard of the ledger relies on: a number above zero is not zero;
    and the engine keeps a number above zero as it is. *)
Class PyFloatOrder (F : Type) `{PyFloat F} : Prop := {
  fltb_feqb : forall x : F, fltb fzero x = true -> feqb x fzero = false;
  sql_real_pos : forall x : F, fltb fzero x = true -> sql_real x = Some x
}.

Declare Scope py_scope.
Delimit Scope py_scope with py.
Notation "x + y" := (fadd x y) : py_scope.
Notation "x - y" := (fsub x y) : py_scope.
Notation "x * y" := (fmul x y) : py_scope.
Notation "x >? y" := (fltb y x) (at level 70, no associativity) : py_scope.
Notation "x <=? y" := (fleb x y) (at level 70, no associativity) : py_scope.

(** *** binary64 *)

(** [float(n)]: the integer rounded to nearest, ties to even.  Python raises
    when the rounding would leave the finite range, that is from
    [2^1024 - 2^970] on in absolute value. *)
Definition binary64_of_Z (n : Z) : float :=
  SF2Prim (binary_normalize prec emax n 0 false).

Definition binary64_overflow : Z := 2 ^ 1024 - 2 ^ 970.

Definition binary64_of_int (n : Z) : result float :=
  if Z.abs n <? binary64_overflow then Ok (binary64_of_Z n)
  else Raise OverflowError.

(** A float that the [sqlite3] module binds, or that the engine returns
    from a function: [sqlite3_bind_double] and [sqlite3_result_double] turn a
    NaN into NULL; a REAL without fraction is written to the file as an
    integer and read back as a float, which turns [-0.0] into [0.0]. *)
Definition binary64_sql_real (x : float) : option float :=
  if PrimFloat.is_nan x then None
  else if (x =? 0)%float then Some 0%float
  else Some x.

#[export] Instance binary64 : PyFloat float := {|
  fzero := 0%float;
  fadd := PrimFloat.add;
  fsub := PrimFloat.sub;
  fmul := PrimFloat.mul;
  fdiv := PrimFloat.div;
  feqb := PrimFloat.eqb;
  fltb := PrimFloat.ltb;
  fleb := PrimFloat.leb;
  float_of_int := binary64_of_int;
  sql_sum := fun l => fold_left PrimFloat.add l 0%float;
  sql_real := binary64_sql_real
|}.

(** *** exact rationals *)

Definition Qltb (x y : Q) : bool := negb (Qle_bool y x).

#[export] Instance exato : PyFloat Q := {|
  fzero := 0%Q;
  fadd := Qplus;
  fsub := Qminus;
  fmul := Qmult;
  fdiv := Qdiv;
  feqb := Qeq_bool;
  fltb := Qltb;
  fleb := Qle_bool;
  float_of_int := fun n => Ok (inject_Z n);
  sql_sum := fun l => fold_left Qplus l 0%Q;
  sql_real := fun x => Some x
|}.

(** ** Decimal *)

(** A [decimal.Decimal]: a sign, a coefficient and a power of ten, or one of
    the special values. *)
Inductive Decimal : Set :=
| Dec (sign : bool) (coef : N) (exp : Z)
| DecInf (sign : bool)
| DecNaN.

(** [d <= 0]; an ordering that involves a NaN signals [InvalidOperation]. *)
Definition Decimal_le_0 (d : Decimal) : result bool :=
  match d with
  | Dec s m _ => Ok (s || (m =? 0)%N)
  | DecInf s => Ok s
  | DecNaN => Raise InvalidOperation
  end.

(** [float(d)]: the binary64 nearest to the decimal, ties to even. *)
Definition float_of_Decimal (d : Decimal) : float :=
  match d with
  | Dec s m e =>
      match m with
      | N0 => SF2Prim (S754_zero s)
      | Npos p =>
          if 0 <=? e
          then SF2Prim (binary_normalize prec emax
                          (cond_Zopp s (Zpos p * 10 ^ e)) 0 s)
          else SF2Prim (SFdiv prec emax
                          (S754_finite s p 0)
                          (S754_finite false (Z.to_pos (10 ^ (- e))) 0))
      end
  | DecInf s => SF2Prim (S754_infinity s)
  | DecNaN => SF2Prim S754_nan
  end.

(** ** Time *)

(** A [data] column holds the text ["%Y-%m-%d %H:%M:%S"] of a naive local
    date and time.  On such texts [datetime(_)] of SQLite is the identity and
    their order is the order of the moments, so a moment is held as its count
    of seconds from a midnight taken as origin. *)
Definition timestamp : Set := Z.

Definition um_dia : Z := 86400.

(** [strftime("%Y-%m-%d 00:00:00")]: the midnight that begins the day. *)
Definition inicio_do_dia (t : timestamp) : timestamp := um_dia * (t / um_dia).

(** ** SHA-256 *)

(** [hashlib.sha256(_).hexdigest()], after FIPS 180-4, on 32-bit words held
    in [Z]. *)
Module SHA256.

Definition mask32 : Z := 0xffffffff.
Definition add32 (a b : Z) : Z := Z.land (a + b) mask32.
Definition rotr (n x : Z) : Z :=
  Z.lor (Z.shiftr x n) (Z.land (Z.shiftl x (32 - n)) mask32).
Definition not32 (x : Z) : Z := Z.lxor x mask32.

Definition Ch (x y z : Z) : Z := Z.lxor (Z.land x y) (Z.land (not32 x) z).
Definition Maj (x y z : Z) : Z :=
  Z.lxor (Z.lxor (Z.land x y) (Z.land x z)) (Z.land y z).
Definition Sigma0 (x : Z) : Z := Z.lxor (Z.lxor (rotr 2 x) (rotr 13 x)) (rotr 22 x).
Definition Sigma1 (x : Z) : Z := Z.lxor (Z.lxor (rotr 6 x) (rotr 11 x)) (rotr 25 x).
Definition sigma0 (x : Z) : Z := Z.lxor (Z.lxor (rotr 7 x) (rotr 18 x)) (Z.shiftr x 3).
Definition sigma1 (x : Z) : Z := Z.lxor (Z.lxor (rotr 17 x) (rotr 19 x)) (Z.shiftr x 10).

(** The first primes. *)
Definition prime (n : Z) : bool :=
  (1 <? n) &&
  forallb (fun d => negb (n mod d =? 0))
          (map Z.of_nat (seq 2 (Z.to_nat n - 2))).

Definition primes (k : nat) : list Z :=
  firstn k (filter prime (map Z.of_nat (seq 2 310))).

(** The integer part of a cube root, bit by bit from the top. *)
Definition cbrt (n : Z) : Z :=
  fold_left (fun r b => if (r + 2 ^ b) ^ 3 <=? n then r + 2 ^ b else r)
            (map Z.of_nat (rev (seq 0 40))) 0.

(** The round constants: the first 32 bits of the fractional parts of the
    cube roots of the first 64 primes.  The initial hash value: the same of
    the square roots of the first 8 primes. *)
Definition K : list Z :=
  map (fun p => Z.land (cbrt (p * 2 ^ 96)) mask32) (primes 64).

Definition H0 : list Z :=
  map (fun p => Z.land (Z.sqrt (p * 2 ^ 64)) mask32) (primes 8).

(** The message followed by the bit 1, zeros up to 56 modulo 64 bytes, and
    the length in bits on 8 bytes, most significant first. *)
Definition be_bytes (n : nat) (x : Z) : list Z :=
  map (fun i => Z.land (Z.shiftr x (8 * Z.of_nat i)) 0xff) (rev (seq 0 n)).

Definition pad (msg : list Z) : list Z :=
  let len := Z.of_nat (List.length msg) in
  let zeros := Z.to_nat ((55 - len) mod 64) in
  msg ++ [0x80] ++ repeat 0 zeros ++ be_bytes 8 (8 * len).

Fixpoint words (fuel : nat) (bytes : list Z) : list Z :=
  match fuel, bytes with
  | S fuel, a :: b :: c :: d :: rest =>
      (Z.shiftl a 24 + Z.shiftl b 16 + Z.shiftl c 8 + d) :: words fuel rest
  | _, _ => []
  end.

(** The message schedule, held most recent word first. *)
Fixpoint schedule (n : nat) (w : list Z) : list Z :=
  match n with
  | O => w
  | S n =>
      let w' := schedule n w in
      add32 (add32 (sigma1 (nth 1 w' 0)) (nth 6 w' 0))
            (add32 (sigma0 (nth 14 w' 0)) (nth 15 w' 0)) :: w'
  end.

Definition round (st : list Z) (kw : Z * Z) : list Z :=
  match st with
  | [a; b; c; d; e; f; g; h] =>
      let t1 := add32 (add32 (add32 h (Sigma1 e)) (add32 (Ch e f g) (fst kw))) (snd kw) in
      let t2 := add32 (Sigma0 a) (Maj a b c) in
      [add32 t1 t2; a; b; c; add32 d t1; e; f; g]
  | _ => st
  end.

Definition compress (h : list Z) (block : list Z) : list Z :=
  let w := rev (schedule 48 (rev block)) in
  let st := fold_left round (combine K w) h in
  map (fun p => add32 (fst p) (snd p)) (combine h st).

Fixpoint blocks (fuel : nat) (ws : list Z) : list (list Z) :=
  match fuel with
  | O => []
  | S fuel =>
      match ws with
      | [] => []
      | _ => firstn 16 ws :: blocks fuel (skipn 16 ws)
      end
  end.

Definition digest (msg : list Z) : list Z :=
  let bytes := pad msg in
  let ws := words (List.length bytes) bytes in
  fold_left compress (blocks (List.length ws) ws) H0.

Definition hex_digit (d : Z) : ascii :=
  ascii_of_N (Z.to_N (if d <? 10 then 48 + d else 87 + d)).

Definition hex_word (x : Z) : list ascii :=
  map (fun i => hex_digit (Z.land (Z.shiftr x (4 * Z.of_nat i)) 0xf)) (rev (seq 0 8)).

Definition bytes_of_string (s : string) : list Z :=
  map (fun c => Z.of_N (N_of_ascii c)) (list_ascii_of_string s).

Definition hexdigest (s : string) : string :=
  string_of_list_ascii (flat_map hex_word (digest (bytes_of_string s))).

End SHA256.

(** ** The database *)

Section Backend.

Context {F : Type} `{PyFloat F}.

(** [x or 0] followed by [float(...)], on a value read from a REAL column:
    [None] (NULL) and the zeros are false in Python. *)
Definition float_or_0 (x : option F) : F :=
  match x with
  | None => fzero
  | Some v => if feqb v fzero then fzero else v
  end.

(** [a / b] on two floats. *)
Definition truediv (a b : F) : result F :=
  if feqb b fzero then Raise ZeroDivisionError else Ok (fdiv a b).

Record insumo : Type := {
  insumo_id : Z;
  insumo_nome : string;
  categoria : option string;
  unidade : option string;
  estoque_qtd : option F;
  custo_medio : option F
}.

Record receita : Type := {
  receita_id : Z;
  receita_nome : string;
  preco_venda : F
}.

Record venda : Type := {
  venda_id : Z;
  venda_receita_id : Z;
  venda_quantidade : Z;
  preco_unit : F;
  taxa_plataforma : F;
  total_bruto : F;
  custo_total : F;
  lucro_liquido : F;
  venda_data : option timestamp
}.

Record compra : Type := {
  compra_id : Z;
  compra_nome : string;
  compra_quantidade : F;
  compra_preco : F;
  compra_data : option timestamp
}.

Record usuario : Type := {
  usuario_id : Z;
  username : string;
  password_hash : string
}.

(** The five tables and, for each, the largest rowid that AUTOINCREMENT has
    handed out (the table [sqlite_sequence]). *)
Record db : Type := {
  insumos : list insumo;
  receitas : list receita;
  vendas : list venda;
  compras : list compra;
  usuarios : list usuario;
  seq_insumos : Z;
  seq_receitas : Z;
  seq_vendas : Z;
  seq_compras : Z;
  seq_usuarios : Z
}.

(** The rowid of the next row: one more than every rowid in use or used. *)
Definition next_rowid (seq : Z) (ids : list Z) : Z :=
  fold_left Z.max ids seq + 1.

(** *** Cursors *)

(** A cursor runs statements on the database and may raise. *)
Definition cursor (A : Type) : Type := db -> result (A * db).

Definition ret {A : Type} (a : A) : cursor A := fun s => Ok (a, s).

Definition bind {A B : Type} (m : cursor A) (k : A -> cursor B) : cursor B :=
  fun s =>
    match m s with
    | Ok (a, s') => k a s'
    | Raise e => Raise e
    end.

Definition lift {A : Type} (r : result A) : cursor A :=
  fun s =>
    match r with
    | Ok a => Ok (a, s)
    | Raise e => Raise e
    end.

(** [conn.commit()] after the statements, [conn.close()] in any case: what
    was done is kept when nothing was raised and dropped otherwise. *)
Definition commit_or_close {A : Type} (m : cursor A) (s : db) : db * result A :=
  match m s with
  | Ok (a, s') => (s', Ok a)
  | Raise e => (s, Raise e)
  end.

End Backend.

Arguments insumo F : clear implicits.
Arguments receita F : clear implicits.
Arguments venda F : clear implicits.
Arguments compra F : clear implicits.
Arguments db F : clear implicits.
Arguments cursor F A : clear implicits.

Declare Scope cursor_scope.
Delimit Scope cursor_scope with cursor.
Notation "x <- m ;; k" := (bind m (fun x => k))
  (at level 100, m at next level, right associativity) : cursor_scope.
Notation "m ;; k" := (bind m (fun _ => k))
  (at level 100, right associativity) : cursor_scope.

Section Statements.

Context {F : Type} `{PyFloat F}.

Local Open Scope cursor_scope.

(** A database with one table replaced. *)
Definition com_insumos (l : list (insumo F)) (seq : Z) (s : db F) : db F :=
  {| insumos := l; receitas := receitas s; vendas := vendas s;
     compras := compras s; usuarios := usuarios s;
     seq_insumos := seq; seq_receitas := seq_receitas s;
     seq_vendas := seq_vendas s; seq_compras := seq_compras s;
     seq_usuarios := seq_usuarios s |}.

Definition com_vendas (l : list (venda F)) (seq : Z) (s : db F) : db F :=
  {| insumos := insumos s; receitas := receitas s; vendas := l;
     compras := compras s; usuarios := usuarios s;
     seq_insumos := seq_insumos s; seq_receitas := seq_receitas s;
     seq_vendas := seq; seq_compras := seq_compras s;
     seq_usuarios := seq_usuarios s |}.

Definition com_compras (l : list (compra F)) (seq : Z) (s : db F) : db F :=
  {| insumos := insumos s; receitas := receitas s; vendas := vendas s;
     compras := l; usuarios := usuarios s;
     seq_insumos := seq_insumos s; seq_receitas := seq_receitas s;
     seq_vendas := seq_vendas s; seq_compras := seq;
     seq_usuarios := seq_usuarios s |}.

Definition com_usuarios (l : list usuario) (seq : Z) (s : db F) : db F :=
  {| insumos := insumos s; receitas := receitas s; vendas := vendas s;
     compras := compras s; usuarios := l;
     seq_insumos := seq_insumos s; seq_receitas := seq_receitas s;
     seq_vendas := seq_vendas s; seq_compras := seq_compras s;
     seq_usuarios := seq |}.

(** *** Statements on [compras] and [insumos] *)

(** [INSERT INTO compras (nome, quantidade, preco) VALUES (?, ?, ?)]; the
    column [data] takes its default, the clock of the engine.  The columns
    [quantidade] and [preco] are REAL NOT NULL: a NULL in one of them fails
    the constraint. *)
Definition insert_compra (agora : timestamp) (nome : string)
    (quantidade preco : F) : cursor F unit :=
  fun s =>
    match sql_real quantidade, sql_real preco with
    | Some quantidade, Some preco =>
        let rowid := next_rowid (seq_compras s) (map compra_id (compras s)) in
        Ok (tt, com_compras (compras s ++
                               [{| compra_id := rowid;
                                   compra_nome := nome;
                                   compra_quantidade := quantidade;
                                   compra_preco := preco;
                                   compra_data := Some agora |}])
                            rowid s)
    | _, _ => Raise IntegrityError
    end.

(** [DELETE FROM compras WHERE id=?].  The [id] is the one of a row picked
    in the listing, so an integer of 64 bits, which is what SQLite binds;
    the [OverflowError] of an [int] outside that range is not part of this
    definition, nor of those of the other updates and deletions by id. *)
Definition delete_compra (id : Z) : cursor F unit :=
  fun s =>
    Ok (tt, com_compras (filter (fun c => negb (compra_id c =? id)) (compras s))
                        (seq_compras s) s).

(** The first row of [insumos] that bears a name. *)
Definition insumo_de_nome (nome : string) (s : db F) : option (insumo F) :=
  find (fun i => String.eqb (insumo_nome i) nome) (insumos s).

(** [SELECT id, estoque_qtd, custo_medio FROM insumos WHERE nome = ?] and
    [fetchone()]. *)
Definition select_insumo (nome : string)
    : cursor F (option (Z * option F * option F)) :=
  fun s =>
    Ok (match insumo_de_nome nome s with
        | Some i => Some (insumo_id i, estoque_qtd i, custo_medio i)
        | None => None
        end, s).

(** [INSERT INTO insumos (...) VALUES (...)]; [nome] is UNIQUE.  [estoque]
    and [custo] are what the columns [estoque_qtd] and [custo_medio] get,
    which may be NULL. *)
Definition insert_insumo (nome categoria unidade : string)
    (estoque custo : option F) : cursor F unit :=
  fun s =>
    match insumo_de_nome nome s with
    | Some _ => Raise IntegrityError
    | None =>
        let rowid := next_rowid (seq_insumos s) (map insumo_id (insumos s)) in
        Ok (tt, com_insumos (insumos s ++
                               [{| insumo_id := rowid;
                                   insumo_nome := nome;
                                   categoria := Some categoria;
                                   unidade := Some unidade;
                                   estoque_qtd := estoque;
                                   custo_medio := custo |}])
                            rowid s)
    end.

(** [UPDATE insumos SET estoque_qtd = ?, custo_medio = ? WHERE id = ?]. *)
Definition set_estoque (estoque custo : option F) (id : Z) (i : insumo F)
    : insumo F :=
  if insumo_id i =? id
  then {| insumo_id := insumo_id i;
          insumo_nome := insumo_nome i;
          categoria := categoria i;
          unidade := unidade i;
          estoque_qtd := estoque;
          custo_medio := custo |}
  else i.

Definition update_insumo (estoque custo : F) (id : Z) : cursor F unit :=
  fun s =>
    Ok (tt, com_insumos
              (map (set_estoque (sql_real estoque) (sql_real custo) id)
                   (insumos s))
              (seq_insumos s) s).

(** ** The catalog *)

(** [add_produto(nome, categoria, unidade)]: the stock and the cost take the
    defaults of the schema, zero; a name already there is answered by a
    warning. *)
Definition add_produto (nome categoria unidade : string)
    (s : db F) : db F * result dialog :=
  match commit_or_close
          (insert_insumo nome categoria unidade (Some fzero) (Some fzero)) s with
  | (s', Ok _) => (s', Ok (showinfo "Sucesso" "Insumo adicionado com sucesso!"))
  | (s', Raise IntegrityError) =>
      (s', Ok (showwarning "Atenção" "Este insumo já existe."))
  | (s', Raise e) => (s', Raise e)
  end.

(** ** The inventory ledger *)

(** [registrar_compra_db(nome, quantidade, preco_unit)].  [quantidade] is the
    float that the caller parsed and [preco_unit] stands for
    [float(preco_unit)], the only form in which the function uses its third
    argument; [agora] is the clock that dates the purchase row. *)
Definition registrar_compra_db (agora : timestamp) (nome : string)
    (quantidade preco_unit : F) : db F -> db F * result dialog :=
  commit_or_close (
    insert_compra agora nome quantidade preco_unit ;;
    row <- select_insumo nome ;;
    match row with
    | None =>
        insert_insumo nome "" "un" (sql_real quantidade) (sql_real preco_unit)
    | Some (insumo_id, est_ant, custo_ant) =>
        let est_ant := float_or_0 est_ant in
        let custo_ant := float_or_0 custo_ant in
        let qtd := quantidade in
        let custo_novo := preco_unit in
        let novo_estoque := (est_ant + qtd)%py in
        novo_custo_medio <-
          (if (novo_estoque >? fzero)%py
           then lift (truediv (est_ant * custo_ant + qtd * custo_novo)%py
                              novo_estoque)
           else ret custo_novo) ;;
        update_insumo novo_estoque novo_custo_medio insumo_id
    end ;;
    ret (showinfo "Sucesso" "Compra registrada e estoque atualizado!")).

(** [delete_compra_db(compra_id)]. *)
Definition delete_compra_db (compra_id : Z) : db F -> db F * result dialog :=
  commit_or_close (
    delete_compra compra_id ;;
    ret (showinfo "Sucesso" "Compra removida.")).

(** A run of purchases of one ingredient, each [(quantidade, preco_unit)]. *)
Definition registrar_compras (agora : timestamp) (nome : string)
    (l : list (F * F)) (s : db F) : db F :=
  fold_left (fun s c => fst (registrar_compra_db agora nome (fst c) (snd c) s))
            l s.

(** The stock and the average cost stored under a name. *)
Definition estoque_e_custo (nome : string) (s : db F)
    : option (option F * option F) :=
  match insumo_de_nome nome s with
  | Some i => Some (estoque_qtd i, custo_medio i)
  | None => None
  end.

(** ** The sales recorder *)

(** What the [sqlite3] module binds to an INTEGER parameter. *)
Definition int64 (n : Z) : bool := (- 2 ^ 63 <=? n) && (n <? 2 ^ 63).

(** [INSERT INTO vendas (...) VALUES (?, ?, ?, ?, ?, ?, ?, ?)].  The
    integers are bound first, which raises when one is out of range.  The
    five REAL columns are NOT NULL, and [receita_id] REFERENCES
    [receitas(id)] with [foreign_keys = ON]: a NULL among the five, or an id
    of no recipe, fails a constraint. *)
Definition insert_venda (receita quantidade : Z)
    (preco taxa bruto custo lucro : F) (data : timestamp) : cursor F unit :=
  fun s =>
    if negb (int64 receita && int64 quantidade) then Raise OverflowError
    else
      match sql_real preco, sql_real taxa, sql_real bruto, sql_real custo,
            sql_real lucro with
      | Some preco, Some taxa, Some bruto, Some custo, Some lucro =>
          if negb (existsb (fun r => receita_id r =? receita) (receitas s))
          then Raise IntegrityError
          else
            let rowid := next_rowid (seq_vendas s) (map venda_id (vendas s)) in
            Ok (tt, com_vendas (vendas s ++
                                  [{| venda_id := rowid;
                                      venda_receita_id := receita;
                                      venda_quantidade := quantidade;
                                      preco_unit := preco;
                                      taxa_plataforma := taxa;
                                      total_bruto := bruto;
                                      custo_total := custo;
                                      lucro_liquido := lucro;
                                      venda_data := Some data |}])
                               rowid s)
      | _, _, _, _, _ => Raise IntegrityError
      end.

(** [registrar_venda(receita_id, quantidade, preco_unit, taxa_plataforma)];
    [quantidade] is the [int] and the other two the floats that the caller
    parsed; [agora] is [datetime.now()], to the second. *)
Definition registrar_venda (agora : timestamp) (receita_id quantidade : Z)
    (preco_unit taxa_plataforma : F) : db F -> db F * result dialog :=
  commit_or_close (
    qtd <- lift (float_of_int quantidade) ;;
    let total_bruto := (preco_unit * qtd)%py in
    let custo_total := fzero in
    let desp_plataforma := (total_bruto * taxa_plataforma)%py in
    let lucro_liquido := (total_bruto - desp_plataforma - custo_total)%py in
    insert_venda receita_id quantidade preco_unit taxa_plataforma
                 total_bruto custo_total lucro_liquido agora ;;
    ret (showinfo "Sucesso" "Venda registrada com sucesso!")).

(** ** The reports *)

(** The WHERE clause that [_agg_vendas] builds: [1=1], then
    [datetime(data) >= datetime(?)] if [dt_ini] is given and
    [datetime(data) < datetime(?)] if [dt_fim] is.  A comparison with a NULL
    [data] is not true. *)
Definition no_periodo (dt_ini dt_fim : option timestamp) (v : venda F) : bool :=
  match dt_ini with
  | Some ini =>
      match venda_data v with
      | Some d => ini <=? d
      | None => false
      end
  | None => true
  end &&
  match dt_fim with
  | Some fim =>
      match venda_data v with
      | Some d => d <? fim
      | None => false
      end
  | None => true
  end.

Definition vendas_no_periodo (dt_ini dt_fim : option timestamp) (s : db F)
    : list (venda F) :=
  filter (no_periodo dt_ini dt_fim) (vendas s).

(** [SUM] over INTEGER values: the engine adds in 64 bits, row after row,
    and the statement fails with "integer overflow" when a sum leaves the
    range. *)
Fixpoint sql_sum_int (acc : Z) (l : list Z) : result Z :=
  match l with
  | [] => Ok acc
  | x :: l' =>
      if int64 (acc + x) then sql_sum_int (acc + x) l'
      else Raise OperationalError
  end.

(** [SELECT COUNT( * ), SUM(quantidade), SUM(total_bruto), SUM(lucro_liquido)]
    over the rows kept: one row always, whose sums are NULL when no row was
    kept, and also where a sum of REAL values is a NaN. *)
Definition select_agg (rows : list (venda F))
    : result (option (option Z * option Z * option F * option F)) :=
  match rows with
  | [] => Ok (Some (Some 0, None, None, None))
  | _ :: _ =>
      match sql_sum_int 0 (map venda_quantidade rows) with
      | Raise e => Raise e
      | Ok qtd =>
          Ok (Some (Some (Z.of_nat (List.length rows)),
                    Some qtd,
                    sql_real (sql_sum (map total_bruto rows)),
                    sql_real (sql_sum (map lucro_liquido rows))))
      end
  end.

(** [x or 0] on an [int] or [None]. *)
Definition int_or_0 (x : option Z) : Z :=
  match x with
  | None => 0
  | Some n => n
  end.

(** [_agg_vendas(dt_ini=None, dt_fim=None)]; what [cur.execute] raises is
    not caught. *)
Definition _agg_vendas (dt_ini dt_fim : option timestamp) (s : db F)
    : result (Z * Z * F * F) :=
  match select_agg (vendas_no_periodo dt_ini dt_fim s) with
  | Raise e => Raise e
  | Ok None => Ok (0, 0, fzero, fzero)
  | Ok (Some (None, _, _, _)) => Ok (0, 0, fzero, fzero)
  | Ok (Some (Some n, qtd, bruto, lucro)) =>
      Ok (int_or_0 (Some n), int_or_0 qtd, float_or_0 bruto, float_or_0 lucro)
  end.

(** [load_relatorios_data()], up to the four aggregates that it then prints:
    today, the last 7 days, the last 30 days, and all.  [agora] is
    [datetime.now()], taken to be the same at its four readings. *)
Definition load_relatorios_data (agora : timestamp) (s : db F)
    : result ((Z * Z * F * F) * (Z * Z * F * F) * (Z * Z * F * F)
              * (Z * Z * F * F)) :=
  let hoje_ini := inicio_do_dia agora in
  let amanha_ini := inicio_do_dia (agora + um_dia) in
  let d7_ini := inicio_do_dia (agora - 6 * um_dia) in
  let d30_ini := inicio_do_dia (agora - 29 * um_dia) in
  match _agg_vendas (Some hoje_ini) (Some amanha_ini) s with
  | Raise e => Raise e
  | Ok c_hoje =>
      match _agg_vendas (Some d7_ini) (Some amanha_ini) s with
      | Raise e => Raise e
      | Ok c_7 =>
          match _agg_vendas (Some d30_ini) (Some amanha_ini) s with
          | Raise e => Raise e
          | Ok c_30 =>
              match _agg_vendas None None s with
              | Raise e => Raise e
              | Ok c_all => Ok (c_hoje, c_7, c_30, c_all)
              end
          end
      end
  end.

(** ** The users *)

(** [_hash_pwd(pwd)]. *)
Definition _hash_pwd (pwd : string) : string := SHA256.hexdigest pwd.

(** [init_db()] on tables that exist: the user [admin] is written when the
    table of users is empty. *)
Definition init_db (s : db F) : db F :=
  if (Z.of_nat (List.length (usuarios s)) =? 0)
  then
    let rowid := next_rowid (seq_usuarios s) (map usuario_id (usuarios s)) in
    com_usuarios (usuarios s ++
                    [{| usuario_id := rowid;
                        username := "admin";
                        password_hash := _hash_pwd "admin" |}])
                 rowid s
  else s.

(** [verify_user(username, password)]: [SELECT password_hash FROM usuarios
    WHERE username = ?], [fetchone()], and the comparison. *)
Definition verify_user (username_ password : string) (s : db F) : bool :=
  let row :=
    match find (fun u => String.eqb (username u) username_) (usuarios s) with
    | Some u => Some (password_hash u)
    | None => None
    end in
  match row with
  | None => false
  | Some h => String.eqb h (_hash_pwd password)
  end.

End Statements.

(** The database before any row is written. *)
Definition db_vazio {F : Type} : db F :=
  {| insumos := []; receitas := []; vendas := []; compras := [];
     usuarios := [];
     seq_insumos := 0; seq_receitas := 0; seq_vendas := 0; seq_compras := 0;
     seq_usuarios := 0 |}.

(** ** The purchase form *)

(** [BravusApp._registrar_compra()] from the point where the three fields
    have been read: [nome] is the stripped text, [quantidade] is
    [float(text)] and [preco] is [Decimal(text)], each [None] when the
    conversion raised. *)
Definition _registrar_compra (agora : timestamp) (nome : string)
    (quantidade : option float) (preco : option Decimal)
    (s : db float) : db float * result dialog :=
  match quantidade, preco with
  | Some quantidade, Some preco =>
      if (nome =? "")%string || (quantidade <=? fzero)%py
      then (s, Ok (showwarning "Aviso" "Preencha todos os campos corretamente."))
      else
        match Decimal_le_0 preco with
        | Raise e => (s, Raise e)
        | Ok true =>
            (s, Ok (showwarning "Aviso" "Preencha todos os campos corretamente."))
        | Ok false =>
            registrar_compra_db agora nome quantidade (float_of_Decimal preco) s
        end
  | _, _ =>
      (s, Ok (showwarning "Aviso" "Quantidade e preço devem ser numéricos."))
  end.

(** ** The vocabulary of the statements *)

Section Vocabulary.

Context {F : Type} `{PyFloat F}.

(** The row that a first purchase writes. *)
Definition insumo_novo (s : db F) (nome : string) (q p : F) : insumo F :=
  {| insumo_id := next_rowid (seq_insumos s) (map insumo_id (insumos s));
     insumo_nome := nome;
     categoria := Some ""%string;
     unidade := Some "un"%string;
     estoque_qtd := Some q;
     custo_medio := Some p |}.

(** The purchase row that every purchase writes. *)
Definition compra_nova (s : db F) (agora : timestamp) (nome : string)
    (q p : F) : compra F :=
  {| compra_id := next_rowid (seq_compras s) (map compra_id (compras s));
     compra_nome := nome;
     compra_quantidade := q;
     compra_preco := p;
     compra_data := Some agora |}.

(** The cost that a purchase gives to a stock [S0] held at [C0]. *)
Definition custo_apos (S0 C0 q p : F) : F :=
  if ((S0 + q) >? fzero)%py
  then fdiv (S0 * C0 + q * p)%py (S0 + q)%py
  else p.

(** The window as the specification words it: [ini <= data < fim], where a
    bound that is left out asks nothing. *)
Definition dentro (dt_ini dt_fim : option timestamp) (v : venda F) : Prop :=
  (forall ini, dt_ini = Some ini ->
     exists d, venda_data v = Some d /\ ini <= d)
  /\ (forall fim, dt_fim = Some fim ->
        exists d, venda_data v = Some d /\ d < fim).

(** The count of sales in an aggregate. *)
Definition n_vendas (c : Z * Z * F * F) : Z := fst (fst (fst c)).

(** The aggregates of the four windows of [load_relatorios_data]. *)
Definition c_hoje (r : (Z * Z * F * F) * (Z * Z * F * F) * (Z * Z * F * F)
                       * (Z * Z * F * F)) : Z * Z * F * F :=
  fst (fst (fst r)).

Definition c_7 (r : (Z * Z * F * F) * (Z * Z * F * F) * (Z * Z * F * F)
                    * (Z * Z * F * F)) : Z * Z * F * F :=
  snd (fst (fst r)).

(** One more sale row, as [insert_venda] appends it. *)
Definition mais_uma_venda (v : venda F) (s : db F) : db F :=
  com_vendas (vendas s ++ [v]) (venda_id v) s.

End Vocabulary.

(** What SQLite keeps of the binary64 [x] in a REAL column that may be NULL:
    NULL for a NaN, [0.0] for either zero, and [x] itself otherwise. *)
Definition guarda (x : float) (e : option float) : Prop :=
  (PrimFloat.is_nan x = true -> e = None)
  /\ ((x =? 0)%float = true -> e = Some 0%float)
  /\ (PrimFloat.is_nan x = false -> (x =? 0)%float = false -> e = Some x).


Definition SF_nao_negativo (x : spec_float) : bool :=
  match x with
  | S754_zero _ | S754_finite false _ _ | S754_infinity false | S754_nan =>
      true
  | _ => false
  end.

(** The sums of the engine fit: adding the integers one after the other,
    from zero, never leaves the signed 64-bit range. *)
Definition somas_cabem (l : list Z) : Prop :=
  forall k : nat, - 2 ^ 63 <= fold_left Z.add (firstn k l) 0 < 2 ^ 63.

(** The sum of the quantities and the sum of the amounts of a run of
    purchases, and what makes the run valid: every purchase has a quantity
    and a price above zero. *)
Definition soma_qtd (l : list (Q * Q)) : Q :=
  fold_right (fun c acc => fst c + acc)%Q 0%Q l.

Definition soma_valor (l : list (Q * Q)) : Q :=
  fold_right (fun c acc => fst c * snd c + acc)%Q 0%Q l.

Definition compras_validas (l : list (Q * Q)) : Prop :=
  Forall (fun c => 0 < fst c /\ 0 < snd c)%Q l.

(** ** Databases for the runs *)

(** The ledger after a first purchase of 10 of ["carne"] at 5.00. *)
Definition db_carne : db float :=
  fst (registrar_compra_db 0 "carne" 10%float 5%float db_vazio).

(** A recipe on the menu, and a sale of it at the second 100. *)
Definition db_lanche : db float :=
  {| insumos := [];
     receitas := [{| receita_id := 1; receita_nome := "X-Burguer";
                     preco_venda := 10%float |}];
     vendas := []; compras := []; usuarios := [];
     seq_insumos := 0; seq_receitas := 1; seq_vendas := 0; seq_compras := 0;
     seq_usuarios := 0 |}.

Definition db_vendido : db float :=
  fst (registrar_venda 100 1 4 10%float 0.12%float db_lanche).

(** The exact ledger after a first purchase of 10 of ["carne"] at 5. *)
Definition db_carne_exato : db Q :=
  fst (registrar_compra_db 0 "carne" 10%Q 5%Q db_vazio).

(** ** The rest of the back end *)

Section Catalog.

Context {F : Type} `{PyFloat F}.

Local Open Scope cursor_scope.

Definition com_receitas (l : list (receita F)) (seq : Z) (s : db F) : db F :=
  {| insumos := insumos s; receitas := l; vendas := vendas s;
     compras := compras s; usuarios := usuarios s;
     seq_insumos := seq_insumos s; seq_receitas := seq;
     seq_vendas := seq_vendas s; seq_compras := seq_compras s;
     seq_usuarios := seq_usuarios s |}.

(** *** Ingredients *)

(** [UPDATE insumos SET nome=?, categoria=?, unidade=? WHERE id=?]; [id] is
    the PRIMARY KEY and [nome] is UNIQUE: the statement fails when it would
    give a row the name of another row.  Here and below the [id] is one that
    SQLite binds, an integer of 64 bits, as the ids picked in the listings
    are. *)
Definition set_cadastro (nome categoria unidade : string) (id : Z)
    (i : insumo F) : insumo F :=
  if insumo_id i =? id
  then {| insumo_id := insumo_id i;
          insumo_nome := nome;
          categoria := Some categoria;
          unidade := Some unidade;
          estoque_qtd := estoque_qtd i;
          custo_medio := custo_medio i |}
  else i.

Definition update_cadastro (nome categoria unidade : string) (id : Z)
    : cursor F unit :=
  fun s =>
    if existsb (fun i => insumo_id i =? id) (insumos s)
       && existsb (fun i => negb (insumo_id i =? id)
                            && String.eqb (insumo_nome i) nome) (insumos s)
    then Raise IntegrityError
    else Ok (tt, com_insumos
                   (map (set_cadastro nome categoria unidade id) (insumos s))
                   (seq_insumos s) s).

(** [update_insumo_db(insumo_id, nome, categoria, unidade)]. *)
Definition update_insumo_db (insumo_id : Z) (nome categoria unidade : string)
    (s : db F) : db F * result dialog :=
  match commit_or_close (update_cadastro nome categoria unidade insumo_id) s with
  | (s', Ok _) => (s', Ok (showinfo "Sucesso" "Insumo atualizado!"))
  | (s', Raise IntegrityError) =>
      (s', Ok (showwarning "Atenção" "Já existe um insumo com esse nome."))
  | (s', Raise e) => (s', Raise e)
  end.

(** [delete_insumo_db(insumo_id)]: [DELETE FROM insumos WHERE id = ?]. *)
Definition delete_insumo_db (insumo_id_ : Z) (s : db F) : db F * result dialog :=
  (com_insumos (filter (fun i => negb (insumo_id i =? insumo_id_)) (insumos s))
               (seq_insumos s) s,
   Ok (showinfo "Sucesso" "Insumo removido.")).

(** *** Recipes *)

(** [INSERT INTO receitas (nome, preco_venda) VALUES (?, ?)]; [nome] is
    UNIQUE and [preco_venda] is REAL NOT NULL. *)
Definition insert_receita (nome : string) (preco : F) : cursor F unit :=
  fun s =>
    match sql_real preco with
    | None => Raise IntegrityError
    | Some preco =>
        if existsb (fun r => String.eqb (receita_nome r) nome) (receitas s)
        then Raise IntegrityError
        else
          let rowid :=
            next_rowid (seq_receitas s) (map receita_id (receitas s)) in
          Ok (tt, com_receitas (receitas s ++
                                  [{| receita_id := rowid;
                                      receita_nome := nome;
                                      preco_venda := preco |}])
                               rowid s)
    end.

(** [add_receita(nome, preco_venda)]; [preco_venda] stands for
    [float(preco_venda)]. *)
Definition add_receita (nome : string) (preco_venda : F)
    (s : db F) : db F * result dialog :=
  match commit_or_close (insert_receita nome preco_venda) s with
  | (s', Ok _) => (s', Ok (showinfo "Sucesso" "Receita cadastrada!"))
  | (s', Raise IntegrityError) =>
      (s', Ok (showwarning "Atenção" "Já existe uma receita com esse nome."))
  | (s', Raise e) => (s', Raise e)
  end.

(** [UPDATE receitas SET nome=?, preco_venda=? WHERE id=?]. *)
Definition set_receita (nome : string) (preco : F) (id : Z)
    (r : receita F) : receita F :=
  if receita_id r =? id
  then {| receita_id := receita_id r; receita_nome := nome;
          preco_venda := preco |}
  else r.

(** A row is written only where the id is that of a row: it is there that
    the new name must not be the name of another row (UNIQUE) and that the
    new price must not be NULL (NOT NULL). *)
Definition update_receita (nome : string) (preco : F) (id : Z)
    : cursor F unit :=
  fun s =>
    if existsb (fun r => receita_id r =? id) (receitas s)
    then
      match sql_real preco with
      | None => Raise IntegrityError
      | Some preco =>
          if existsb (fun r => negb (receita_id r =? id)
                               && String.eqb (receita_nome r) nome)
                     (receitas s)
          then Raise IntegrityError
          else Ok (tt, com_receitas
                         (map (set_receita nome preco id) (receitas s))
                         (seq_receitas s) s)
      end
    else Ok (tt, s).

(** [update_receita_db(receita_id, nome, preco_venda)]. *)
Definition update_receita_db (receita_id_ : Z) (nome : string)
    (preco_venda : F) (s : db F) : db F * result dialog :=
  match commit_or_close (update_receita nome preco_venda receita_id_) s with
  | (s', Ok _) => (s', Ok (showinfo "Sucesso" "Receita atualizada!"))
  | (s', Raise IntegrityError) =>
      (s', Ok (showwarning "Atenção" "Já existe uma receita com esse nome."))
  | (s', Raise e) => (s', Raise e)
  end.

(** [delete_receita_db(receita_id)]: [DELETE FROM receitas WHERE id = ?];
    with [foreign_keys = ON], when a row goes, the sales whose [receita_id]
    REFERENCES it go with it (ON DELETE CASCADE). *)
Definition delete_receita_db (receita_id_ : Z) (s : db F) : db F * result dialog :=
  (com_vendas
     (if existsb (fun r => receita_id r =? receita_id_) (receitas s)
      then filter (fun v => negb (venda_receita_id v =? receita_id_)) (vendas s)
      else vendas s)
     (seq_vendas s)
     (com_receitas
        (filter (fun r => negb (receita_id r =? receita_id_)) (receitas s))
        (seq_receitas s) s),
   Ok (showinfo "Sucesso" "Receita removida.")).

(** *** Sales *)

(** [delete_venda_db(venda_id)]: [DELETE FROM vendas WHERE id=?]. *)
Definition delete_venda_db (venda_id_ : Z) (s : db F) : db F * result dialog :=
  (com_vendas (filter (fun v => negb (venda_id v =? venda_id_)) (vendas s))
              (seq_vendas s) s,
   Ok (showinfo "Sucesso" "Venda removida.")).

(** *** Listings *)

(** ORDER BY: insertion into a list kept in order. *)
Fixpoint inserir {A : Type} (antes : A -> A -> bool) (x : A) (l : list A)
    : list A :=
  match l with
  | [] => [x]
  | y :: l' => if antes x y then x :: l else y :: inserir antes x l'
  end.

Definition ordenar {A : Type} (antes : A -> A -> bool) (l : list A) : list A :=
  fold_right (inserir antes) [] l.

(** [listar_insumos()]: [SELECT * FROM insumos ORDER BY nome], text compared
    byte by byte. *)
Definition listar_insumos (s : db F) : list (insumo F) :=
  ordenar (fun i j => String.leb (insumo_nome i) (insumo_nome j)) (insumos s).

(** [listar_compras()]: [SELECT * FROM compras ORDER BY id DESC]. *)
Definition listar_compras (s : db F) : list (compra F) :=
  ordenar (fun c d => compra_id d <=? compra_id c) (compras s).

(** [listar_receitas()]: [SELECT id, nome, preco_venda FROM receitas ORDER BY
    nome]. *)
Definition listar_receitas (s : db F) : list (receita F) :=
  ordenar (fun r q => String.leb (receita_nome r) (receita_nome q)) (receitas s).

(** [listar_vendas()]: the sales joined with their recipes on
    [r.id = v.receita_id], [ORDER BY v.id DESC]; a row of the listing is the
    sale with the name of its recipe. *)
Definition listar_vendas (s : db F) : list (venda F * string) :=
  ordenar (fun a b => venda_id (fst b) <=? venda_id (fst a))
    (flat_map
       (fun v =>
          map (fun r => (v, receita_nome r))
              (filter (fun r => receita_id r =? venda_receita_id v)
                      (receitas s)))
       (vendas s)).

(** ** The operations as one type *)

(** A call of the back end, with its arguments. *)
Inductive operacao : Type :=
| InitDb
| AddProduto (nome categoria unidade : string)
| UpdateInsumo (id : Z) (nome categoria unidade : string)
| DeleteInsumo (id : Z)
| RegistrarCompra (agora : timestamp) (nome : string) (quantidade preco : F)
| DeleteCompra (id : Z)
| AddReceita (nome : string) (preco : F)
| UpdateReceita (id : Z) (nome : string) (preco : F)
| DeleteReceita (id : Z)
| RegistrarVenda (agora : timestamp) (receita quantidade : Z) (preco taxa : F)
| DeleteVenda (id : Z).

Definition executar (o : operacao) (s : db F) : db F :=
  match o with
  | InitDb => init_db s
  | AddProduto nome categoria unidade =>
      fst (add_produto nome categoria unidade s)
  | UpdateInsumo id nome categoria unidade =>
      fst (update_insumo_db id nome categoria unidade s)
  | DeleteInsumo id => fst (delete_insumo_db id s)
  | RegistrarCompra agora nome quantidade preco =>
      fst (registrar_compra_db agora nome quantidade preco s)
  | DeleteCompra id => fst (delete_compra_db id s)
  | AddReceita nome preco => fst (add_receita nome preco s)
  | UpdateReceita id nome preco => fst (update_receita_db id nome preco s)
  | DeleteReceita id => fst (delete_receita_db id s)
  | RegistrarVenda agora receita quantidade preco taxa =>
      fst (registrar_venda agora receita quantidade preco taxa s)
  | DeleteVenda id => fst (delete_venda_db id s)
  end.

(** The databases that calls of the back end make out of the empty one. *)
Inductive alcancavel : db F -> Prop :=
| alcancavel_vazio : alcancavel db_vazio
| alcancavel_passo (o : operacao) (s : db F) :
    alcancavel s -> alcancavel (executar o s).

(** *** What the schema promises *)

(** The rowids of a table: each above the ones before it (PRIMARY KEY, rows
    in rowid order) and none above the counter (AUTOINCREMENT). *)
Definition rowids_ok (ids : list Z) (seq : Z) : Prop :=
  StronglySorted Z.lt ids /\ Forall (fun id => id <= seq) ids.

Record bem_formado (s : db F) : Prop := {
  bf_insumos : rowids_ok (map insumo_id (insumos s)) (seq_insumos s);
  bf_insumos_nome : NoDup (map insumo_nome (insumos s));
  bf_receitas : rowids_ok (map receita_id (receitas s)) (seq_receitas s);
  bf_receitas_nome : NoDup (map receita_nome (receitas s));
  bf_vendas : rowids_ok (map venda_id (vendas s)) (seq_vendas s);
  bf_vendas_receita :
    Forall (fun v => In (venda_receita_id v) (map receita_id (receitas s)))
           (vendas s);
  bf_compras : rowids_ok (map compra_id (compras s)) (seq_compras s);
  bf_usuarios : rowids_ok (map usuario_id (usuarios s)) (seq_usuarios s);
  bf_usuarios_nome : NoDup (map username (usuarios s))
}.

End Catalog.

Arguments operacao F : clear implicits.

(** ** The other forms *)

(** [BravusApp.salvar_insumo()] on the three stripped texts. *)
Definition salvar_insumo (nome categoria unidade : string) (s : db float)
    : db float * result dialog :=
  if (nome =? "")%string
  then (s, Ok (showwarning "Aviso" "Informe o nome do insumo."))
  else add_produto nome categoria unidade s.

(** [BravusApp._salvar_receita()]: [nome] is the stripped text and [preco]
    is [float(text)], [None] when the conversion raised. *)
Definition _salvar_receita (nome : string) (preco : option float)
    (s : db float) : db float * result dialog :=
  match preco with
  | None => (s, Ok (showwarning "Aviso" "Preço inválido."))
  | Some preco =>
      if (nome =? "")%string || (preco <=? 0)%float
      then (s, Ok (showwarning "Aviso" "Preencha o nome e um preço válido."))
      else add_receita nome preco s
  end.

(** [BravusApp._registrar_venda()]: [sel] is the stripped text of the recipe
    box; [receita_id], [quantidade], [preco_unit] and [taxa] are the results
    of [int(...)], [int(...)], [float(...)] and [float(...)], each [None]
    when the conversion raised [ValueError]. *)
Definition _registrar_venda (agora : timestamp) (sel : string)
    (receita_id quantidade : option Z) (preco_unit taxa : option float)
    (s : db float) : db float * result dialog :=
  if (sel =? "")%string
  then (s, Ok (showwarning "Aviso" "Selecione uma receita."))
  else
    match receita_id, quantidade, preco_unit, taxa with
    | Some receita_id, Some quantidade, Some preco_unit, Some taxa =>
        let taxa := if (1 <? taxa)%float then (taxa / 100)%float else taxa in
        if (quantidade <=? 0) || (preco_unit <=? 0)%float || (taxa <? 0)%float
        then (s, Ok (showwarning "Aviso" "Verifique quantidade, preço e taxa."))
        else registrar_venda agora receita_id quantidade preco_unit taxa s
    | _, _, _, _ =>
        (s, Ok (showwarning "Aviso" "Verifique quantidade, preço e taxa."))
    end.

(** ** More vocabulary of the statements *)

Section VocabularyOfReports.

Context {F : Type} `{PyFloat F}.

Definition c_30 (r : (Z * Z * F * F) * (Z * Z * F * F) * (Z * Z * F * F)
                     * (Z * Z * F * F)) : Z * Z * F * F :=
  snd (fst r).

Definition c_all (r : (Z * Z * F * F) * (Z * Z * F * F) * (Z * Z * F * F)
                      * (Z * Z * F * F)) : Z * Z * F * F :=
  snd r.

(** The count of items in an aggregate. *)
Definition n_itens (c : Z * Z * F * F) : Z := snd (fst (fst c)).

End VocabularyOfReports.

(** ** The purchase log *)

(** The purchases logged under a name, each [(quantidade, preco)], oldest
    first. *)
Definition compras_de (nome : string) (l : list (compra Q)) : list (Q * Q) :=
  map (fun c => (compra_quantidade c, compra_preco c))
      (filter (fun c => String.eqb (compra_nome c) nome) l).

(** The calls that keep the ledger in step with its log: a purchase of a
    quantity above zero, and every call but the three that drop or rename an
    ingredient or drop a purchase. *)
Definition mantem_o_livro (o : operacao Q) : bool :=
  match o with
  | UpdateInsumo _ _ _ _ | DeleteInsumo _ | DeleteCompra _ => false
  | RegistrarCompra _ _ quantidade _ => Qltb 0 quantidade
  | _ => true
  end.

Inductive alcancavel_pelo_livro : db Q -> Prop :=
| livro_vazio : alcancavel_pelo_livro db_vazio
| livro_passo (o : operacao Q) (s : db Q) :
    mantem_o_livro o = true ->
    alcancavel_pelo_livro s -> alcancavel_pelo_livro (executar o s).

(** The ledger agrees with the log: no purchase is logged under a name that
    no ingredient bears, and every ingredient holds the sum of the
    quantities logged under its name, at a cost that makes the stock worth
    the sum of the amounts. *)
Definition livro_em_dia (s : db Q) : Prop :=
  (forall nome, insumo_de_nome nome s = None ->
     compras_de nome (compras s) = [])
  /\ (forall i, In i (insumos s) ->
        exists S C,
          estoque_qtd i = Some S /\ custo_medio i = Some C
          /\ (0 <= S)%Q
          /\ (S == soma_qtd (compras_de (insumo_nome i) (compras s)))%Q
          /\ (C * S == soma_valor (compras_de (insumo_nome i) (compras s)))%Q).

(** ** More databases for the runs *)

(** A day of the shop: the first user, a purchase, a recipe and a sale. *)
Definition db_movimento : db float :=
  executar (RegistrarVenda 100 1 4 10%float 0.12%float)
    (executar (AddReceita "X-Burguer" 10%float)
       (executar (RegistrarCompra 0 "carne" 10%float 5%float)
          (executar InitDb db_vazio))).

(** Two ingredients in the ledger. *)
Definition db_dois : db float :=
  fst (registrar_compra_db 0 "queijo" 2%float 3%float db_carne).

(** An ingredient put in the catalog and then bought twice, no operation
    rounding. *)
Definition db_livro : db Q :=
  executar (RegistrarCompra 1 "carne" 10%Q 10%Q)
    (executar (RegistrarCompra 0 "carne" 10%Q 5%Q)
       (executar (AddProduto "carne" "" "kg") db_vazio)).

(** * Properties *)

(** ** Runs of the code *)

(** The example of the source: 10 in stock at 5.00, then 10 bought at 10.00,
    gives 20 in stock at 7.50. *)
Example compra_exemplo_binary64 :
  estoque_e_custo "carne"
    (registrar_compras 0 "carne" [(10, 5); (10, 10)]%float db_vazio)
  = Some (Some 20, Some 7.5)%float.
Proof. vm_compute. reflexivity. Qed.

Example hash_admin :
  _hash_pwd "admin"
  = "8c6976e5b5410415bde908bd4dee15dfb167a9c873fc4bb8a81f6f2ab448a918"%string.
Proof. vm_compute. reflexivity. Qed.

Example float_of_Decimal_um_decimo :
  float_of_Decimal (Dec false 1 (-1)) = 0.1%float.
Proof. vm_compute. reflexivity. Qed.

(** ** The two arithmetics obey the law of the guard *)

Lemma binary64_ltb_eqb (x : float) :
  PrimFloat.ltb 0%float x = true -> PrimFloat.eqb x 0%float = false.
Proof.
  rewrite FloatAxioms.ltb_spec, FloatAxioms.eqb_spec.
  destruct (Prim2SF x) as [s|s| |s m e]; try destruct s;
    vm_compute; intros; congruence.
Qed.

(** *** What the engine keeps of a binary64 *)

Lemma SFeqb_refl_nan (x : spec_float) : SFeqb x x = false <-> x = S754_nan.
Proof.
  unfold SFeqb. destruct x as [sx|sx| |sx m e]; cbn [SFcompare].
  - split; discriminate.
  - destruct sx; split; discriminate.
  - split; reflexivity.
  - rewrite Z.compare_refl, Pos.compare_cont_refl.
    destruct sx; split; discriminate.
Qed.

Lemma binary64_is_nan (x : float) :
  PrimFloat.is_nan x = true <-> Prim2SF x = S754_nan.
Proof.
  unfold PrimFloat.is_nan. rewrite negb_true_iff, FloatAxioms.eqb_spec.
  apply SFeqb_refl_nan.
Qed.

Lemma binary64_not_nan (x : float) :
  PrimFloat.is_nan x = false <-> Prim2SF x <> S754_nan.
Proof.
  rewrite <- binary64_is_nan. now destruct (PrimFloat.is_nan x).
Qed.

Lemma binary64_ltb_not_nan (x y : float) :
  (x <? y)%float = true ->
  PrimFloat.is_nan x = false /\ PrimFloat.is_nan y = false.
Proof.
  rewrite FloatAxioms.ltb_spec, !binary64_not_nan. unfold SFltb.
  destruct (Prim2SF x); destruct (Prim2SF y); cbn [SFcompare];
    split; congruence.
Qed.


Lemma binary64_nan_eqb (x y : float) :
  PrimFloat.is_nan x = true -> (x =? y)%float = false.
Proof.
  rewrite binary64_is_nan, FloatAxioms.eqb_spec. now intros ->.
Qed.

Lemma binary64_sql_real_pos (x : float) :
  (0 <? x)%float = true -> binary64_sql_real x = Some x.
Proof.
  intros Hx. unfold binary64_sql_real.
  rewrite (proj2 (binary64_ltb_not_nan _ _ Hx)).
  now rewrite (binary64_ltb_eqb x Hx).
Qed.

Lemma sql_real_binary64_pos (x : float) :
  (0 <? x)%float = true -> sql_real x = Some x.
Proof. exact (binary64_sql_real_pos x). Qed.

Lemma guarda_sql_real (x : float) : guarda x (binary64_sql_real x).
Proof.
  unfold guarda, binary64_sql_real.
  destruct (PrimFloat.is_nan x) eqn:En.
  - rewrite (binary64_nan_eqb x 0 En). repeat split; congruence.
  - destruct (x =? 0)%float; repeat split; congruence.
Qed.

Lemma guarda_unico (x : float) (e : option float) :
  guarda x e -> e = binary64_sql_real x.
Proof.
  intros (Hn & Hz & Hx). unfold binary64_sql_real.
  destruct (PrimFloat.is_nan x) eqn:En; [now apply Hn|].
  destruct (x =? 0)%float eqn:Ez; [now apply Hz | now apply Hx].
Qed.

#[export] Instance binary64_order : PyFloatOrder float.
Proof.
  constructor; [exact binary64_ltb_eqb | exact binary64_sql_real_pos].
Qed.

Lemma Qltb_lt (x y : Q) : Qltb x y = true <-> (x < y)%Q.
Proof.
  unfold Qltb. rewrite negb_true_iff, <- not_true_iff_false, Qle_bool_iff.
  split; [apply Qnot_le_lt | apply Qlt_not_le].
Qed.

Lemma Qeq_bool_false (x y : Q) : ~ (x == y)%Q -> Qeq_bool x y = false.
Proof.
  intros Hn. destruct (Qeq_bool x y) eqn:E; [|reflexivity].
  now apply Qeq_bool_eq in E.
Qed.

#[export] Instance exato_order : PyFloatOrder Q.
Proof.
  constructor; [|reflexivity]. intros x Hx. apply Qltb_lt in Hx.
  apply Qeq_bool_false. intros E. rewrite E in Hx.
  now apply Qlt_irrefl in Hx.
Qed.

(** ** binary64: a sum of a number not below zero and one above zero *)

Lemma digits2_pos_bounds (p : positive) :
  2 ^ (Zpos (digits2_pos p) - 1) <= Zpos p < 2 ^ Zpos (digits2_pos p).
Proof.
  induction p as [p IH|p IH|]; cbn [digits2_pos].
  - rewrite Pos2Z.inj_succ. change (Zpos p~1) with (2 * Zpos p + 1).
    replace (Z.succ (Zpos (digits2_pos p)) - 1)
      with (Z.succ (Zpos (digits2_pos p) - 1)) by lia.
    rewrite !Z.pow_succ_r by lia.
    revert IH. generalize (2 ^ (Zpos (digits2_pos p) - 1)).
    generalize (2 ^ Zpos (digits2_pos p)). intros a b IH. lia.
  - rewrite Pos2Z.inj_succ. change (Zpos p~0) with (2 * Zpos p).
    replace (Z.succ (Zpos (digits2_pos p)) - 1)
      with (Z.succ (Zpos (digits2_pos p) - 1)) by lia.
    rewrite !Z.pow_succ_r by lia.
    revert IH. generalize (2 ^ (Zpos (digits2_pos p) - 1)).
    generalize (2 ^ Zpos (digits2_pos p)). intros a b IH. lia.
  - cbn. lia.
Qed.

Lemma shr_1_m (r : shr_record) :
  0 <= shr_m r -> shr_m (shr_1 r) = shr_m r / 2.
Proof.
  destruct r as [m b s]. cbn [shr_m]. intros Hm.
  rewrite <- Z.div2_div.
  destruct m as [|[p|p|]|p]; try reflexivity; lia.
Qed.

Lemma iter_shr_1_m (n : positive) :
  forall r : shr_record,
  0 <= shr_m r -> shr_m (iter_pos shr_1 n r) = shr_m r / 2 ^ Zpos n.
Proof.
  induction n as [n IH|n IH|]; intros r Hr; cbn [iter_pos].
  - assert (H1 : 0 <= shr_m (shr_1 r))
      by (rewrite shr_1_m by exact Hr; apply Z.div_pos; lia).
    assert (H2 : 0 <= shr_m (iter_pos shr_1 n (shr_1 r)))
      by (rewrite IH by exact H1; apply Z.div_pos; [exact H1 | lia]).
    rewrite IH by exact H2. rewrite IH by exact H1. rewrite shr_1_m by exact Hr.
    rewrite !Z.div_div by lia.
    f_equal. change (Zpos n~1) with (2 * Zpos n + 1).
    replace (2 * Zpos n + 1) with (1 + Zpos n + Zpos n) by lia.
    rewrite !Z.pow_add_r by lia. change (2 ^ 1) with 2. ring.
  - assert (H2 : 0 <= shr_m (iter_pos shr_1 n r))
      by (rewrite IH by exact Hr; apply Z.div_pos; [exact Hr | lia]).
    rewrite IH by exact H2. rewrite IH by exact Hr.
    rewrite !Z.div_div by lia.
    f_equal. change (Zpos n~0) with (2 * Zpos n).
    replace (2 * Zpos n) with (Zpos n + Zpos n) by lia.
    rewrite !Z.pow_add_r by lia. ring.
  - rewrite shr_1_m by exact Hr. reflexivity.
Qed.

Lemma shr_fexp_pos (m e : Z) (l : location) :
  0 < m -> emin <= e ->
  0 < shr_m (fst (shr_fexp prec emax m e l))
  /\ emin <= snd (shr_fexp prec emax m e l).
Proof.
  intros Hm He. unfold shr_fexp, shr.
  assert (Hrec : shr_m (shr_record_of_loc m l) = m)
    by (destruct l as [|[| |]]; reflexivity).
  destruct m as [|p|p]; try lia. cbn [Zdigits2].
  pose proof (digits2_pos_bounds p) as [Hlo _].
  set (d := Zpos (digits2_pos p)) in *.
  assert (Hd : 0 < d) by (unfold d; lia).
  unfold fexp.
  destruct (Z.max (d + e - prec) emin - e) as [|n|n] eqn:En;
    cbn [fst snd]; try (rewrite Hrec; split; lia).
  rewrite iter_shr_1_m by (rewrite Hrec; lia). rewrite Hrec.
  assert (Hn : Zpos n = d - prec) by lia.
  split; [|lia].
  apply Z.div_str_pos. split; [lia|].
  apply Z.le_trans with (2 ^ (d - 1)); [|exact Hlo].
  apply Z.pow_le_mono_r; [lia|]. rewrite Hn. unfold prec. lia.
Qed.

Lemma round_nearest_even_pos (m : Z) (l : location) :
  0 < m -> 0 < round_nearest_even m l.
Proof.
  intros Hm. destruct l as [|[| |]]; cbn [round_nearest_even]; try lia.
  destruct (Z.even m); lia.
Qed.

Lemma binary_round_aux_pos (m e : Z) (l : location) :
  0 < m -> emin <= e ->
  SFltb (S754_zero false) (binary_round_aux prec emax false m e l) = true.
Proof.
  intros Hm He. unfold binary_round_aux.
  destruct (shr_fexp_pos m e l Hm He) as [H1 H2].
  destruct (shr_fexp prec emax m e l) as [r1 e1]. cbn [fst snd] in H1, H2.
  pose proof (round_nearest_even_pos (shr_m r1) (loc_of_shr_record r1) H1) as H3.
  destruct (shr_fexp_pos _ e1 loc_Exact H3 H2) as [H4 _].
  destruct (shr_fexp prec emax _ e1 loc_Exact) as [r2 e2]. cbn [fst] in H4.
  destruct (shr_m r2) as [|q|q]; try lia.
  destruct (e2 <=? emax - prec); reflexivity.
Qed.

Lemma binary_round_pos (m : positive) (e : Z) :
  emin <= e ->
  SFltb (S754_zero false) (binary_round prec emax false m e) = true.
Proof.
  intros He. unfold binary_round, shl_align.
  assert (Hf : emin <= fexp prec emax (Zpos (digits2_pos m) + e))
    by (unfold fexp; lia).
  destruct (fexp prec emax (Zpos (digits2_pos m) + e) - e);
    apply binary_round_aux_pos; lia.
Qed.

Lemma valid_binary_emin (s : bool) (m : positive) (e : Z) :
  valid_binary (S754_finite s m e) = true -> emin <= e.
Proof.
  cbn [valid_binary]. unfold bounded, canonical_mantissa.
  intros H. apply andb_true_iff in H. destruct H as [H _].
  apply Z.eqb_eq in H. unfold fexp in H. lia.
Qed.

Lemma SFadd_pos (x y : spec_float) :
  valid_binary x = true -> valid_binary y = true ->
  SFleb (S754_zero false) x = true -> SFltb (S754_zero false) y = true ->
  SFltb (S754_zero false) (SFadd prec emax x y) = true.
Proof.
  intros Vx Vy Hx Hy.
  destruct y as [sy|sy| |sy my ey]; try destruct sy; try discriminate Hy;
  destruct x as [sx|sx| |sx mx ex]; try destruct sx; try discriminate Hx;
    try reflexivity.
  apply valid_binary_emin in Vx, Vy.
  cbn [SFadd cond_Zopp]. rewrite <- Pos2Z.inj_add. cbn [binary_normalize].
  apply binary_round_pos. lia.
Qed.

Lemma binary64_add_pos (x y : float) :
  (0 <=? x)%float = true -> (0 <? y)%float = true ->
  (0 <? x + y)%float = true.
Proof.
  rewrite FloatAxioms.leb_spec, !FloatAxioms.ltb_spec, FloatAxioms.add_spec.
  apply SFadd_pos; apply FloatAxioms.Prim2SF_valid.
Qed.

(** ** The ledger, in any arithmetic *)

Section Ledger.

Context {F : Type} `{PyFloatOrder F}.

(** A NULL for the quantity or for the price: the purchase row is refused
    and nothing is written. *)
Lemma registrar_compra_db_nulo agora nome q p (s : db F) :
  sql_real q = None \/ sql_real p = None ->
  registrar_compra_db agora nome q p s = (s, Raise IntegrityError).
Proof.
  intros Hqp.
  unfold registrar_compra_db, commit_or_close, bind, insert_compra.
  destruct (sql_real q); [|reflexivity].
  destruct (sql_real p); [|reflexivity].
  destruct Hqp; discriminate.
Qed.

Lemma registrar_compra_db_novo agora nome q p q' p' (s : db F) :
  sql_real q = Some q' -> sql_real p = Some p' ->
  insumo_de_nome nome s = None ->
  registrar_compra_db agora nome q p s =
    (com_insumos (insumos s ++ [insumo_novo s nome q' p'])
       (insumo_id (insumo_novo s nome q' p'))
       (com_compras (compras s ++ [compra_nova s agora nome q' p'])
          (compra_id (compra_nova s agora nome q' p')) s),
     Ok (showinfo "Sucesso" "Compra registrada e estoque atualizado!")).
Proof.
  intros Hq Hp Hn.
  unfold registrar_compra_db, commit_or_close, bind, insert_compra,
    select_insumo, insert_insumo, ret.
  rewrite Hq, Hp.
  unfold insumo_de_nome in *. simpl. rewrite Hn. simpl. rewrite Hn.
  reflexivity.
Qed.

Lemma registrar_compra_db_existente agora nome q p q' p' (s : db F) i :
  sql_real q = Some q' -> sql_real p = Some p' ->
  insumo_de_nome nome s = Some i ->
  let S0 := float_or_0 (estoque_qtd i) in
  let C0 := float_or_0 (custo_medio i) in
  registrar_compra_db agora nome q p s =
    (com_insumos
       (map (set_estoque (sql_real (S0 + q)%py)
                         (sql_real (custo_apos S0 C0 q p)) (insumo_id i))
            (insumos s))
       (seq_insumos s)
       (com_compras (compras s ++ [compra_nova s agora nome q' p'])
          (compra_id (compra_nova s agora nome q' p')) s),
     Ok (showinfo "Sucesso" "Compra registrada e estoque atualizado!")).
Proof.
  intros Hq Hp Hi S0 C0.
  unfold registrar_compra_db, commit_or_close, bind, insert_compra,
    select_insumo, update_insumo, ret.
  rewrite Hq, Hp.
  unfold insumo_de_nome in *. simpl. rewrite Hi. fold S0 C0.
  unfold custo_apos.
  destruct (fltb fzero (S0 + q)%py) eqn:Hgt.
  - unfold lift, truediv. rewrite (fltb_feqb _ Hgt). reflexivity.
  - reflexivity.
Qed.

(** The tables that a purchase does not write. *)
Lemma registrar_compra_db_quadro agora nome q p (s : db F) :
  let s' := fst (registrar_compra_db agora nome q p s) in
  receitas s' = receitas s /\ vendas s' = vendas s /\ usuarios s' = usuarios s.
Proof.
  destruct (sql_real q) as [q'|] eqn:Hq;
    [|rewrite registrar_compra_db_nulo by (now left); now cbn].
  destruct (sql_real p) as [p'|] eqn:Hp;
    [|rewrite registrar_compra_db_nulo by (now right); now cbn].
  destruct (insumo_de_nome nome s) as [i|] eqn:Hi.
  - rewrite (registrar_compra_db_existente agora nome q p q' p' s i Hq Hp Hi).
    now cbn.
  - rewrite (registrar_compra_db_novo agora nome q p q' p' s Hq Hp Hi).
    now cbn.
Qed.

End Ledger.

Section LedgerClaims.

Context {F : Type} `{PyFloatOrder F}.

Lemma find_nome_none nome (l : list (insumo F)) :
  (forall i, In i l -> insumo_nome i <> nome) ->
  find (fun i => String.eqb (insumo_nome i) nome) l = None.
Proof.
  induction l as [|a l IH]; intros Hall; [reflexivity|].
  simpl. destruct (String.eqb_spec (insumo_nome a) nome) as [E|_].
  - exfalso. apply (Hall a); [now left | exact E].
  - apply IH. intros i Hi. apply Hall. now right.
Qed.

Lemma find_nome_app nome (l : list (insumo F)) (r : insumo F) :
  find (fun i => String.eqb (insumo_nome i) nome) l = None ->
  insumo_nome r = nome ->
  find (fun i => String.eqb (insumo_nome i) nome) (l ++ [r]) = Some r.
Proof.
  induction l as [|a l IH]; simpl; intros Hn Hr.
  - now rewrite Hr, String.eqb_refl.
  - destruct (String.eqb (insumo_nome a) nome); [discriminate|]. now apply IH.
Qed.

Lemma set_estoque_nome e c id (i : insumo F) :
  insumo_nome (set_estoque e c id i) = insumo_nome i.
Proof. unfold set_estoque. now destruct (insumo_id i =? id). Qed.

Lemma find_nome_set_estoque nome e c id (l : list (insumo F)) :
  find (fun i => String.eqb (insumo_nome i) nome) (map (set_estoque e c id) l)
  = option_map (set_estoque e c id)
      (find (fun i => String.eqb (insumo_nome i) nome) l).
Proof.
  induction l as [|a l IH]; [reflexivity|].
  simpl. rewrite set_estoque_nome.
  destruct (String.eqb (insumo_nome a) nome); [reflexivity | exact IH].
Qed.

(** C2.  A purchase, with a quantity and a price above zero, of a name that
    no ingredient bears returns normally and appends to [insumos] one row of
    that name whose stock is the quantity, whose average cost is the unit
    price, whose category is the empty text and whose unit is the default
    ["un"]; the rows already there are kept. *)
Theorem registrar_compra_db_cria_insumo
    (agora : timestamp) (nome : string) (quantidade preco_unit : F)
    (s : db F) :
  (quantidade >? fzero)%py = true ->
  (preco_unit >? fzero)%py = true ->
  (forall i, In i (insumos s) -> insumo_nome i <> nome) ->
  exists (s' : db F) (id : Z),
    registrar_compra_db agora nome quantidade preco_unit s
      = (s', Ok (showinfo "Sucesso" "Compra registrada e estoque atualizado!"))
    /\ insumos s' = insumos s ++
         [{| insumo_id := id;
             insumo_nome := nome;
             categoria := Some ""%string;
             unidade := Some "un"%string;
             estoque_qtd := Some quantidade;
             custo_medio := Some preco_unit |}]
    /\ estoque_e_custo nome s' = Some (Some quantidade, Some preco_unit).
Proof.
  intros Hq Hp Hall. apply find_nome_none in Hall.
  eexists. exists (insumo_id (insumo_novo s nome quantidade preco_unit)).
  split; [apply registrar_compra_db_novo;
          [now apply sql_real_pos | now apply sql_real_pos | exact Hall]|].
  split; [reflexivity|].
  unfold estoque_e_custo, insumo_de_nome. simpl.
  now rewrite (find_nome_app nome _ (insumo_novo s nome quantidade preco_unit)).
Qed.

End LedgerClaims.

Lemma registrar_compra_db_cria_insumo_witness :
  (0 <? 10)%float = true
  /\ (0 <? 5)%float = true
  /\ (forall i, In i (insumos (@db_vazio float)) ->
                insumo_nome i <> "carne"%string)
  /\ exists (s' : db float) (id : Z),
    registrar_compra_db 0 "carne" 10%float 5%float db_vazio
      = (s', Ok (showinfo "Sucesso" "Compra registrada e estoque atualizado!"))
    /\ insumos s' = insumos db_vazio ++
         [{| insumo_id := id;
             insumo_nome := "carne";
             categoria := Some ""%string;
             unidade := Some "un"%string;
             estoque_qtd := Some 10%float;
             custo_medio := Some 5%float |}]
    /\ estoque_e_custo "carne" s' = Some (Some 10%float, Some 5%float).
Proof.
  assert (Hq : (0 <? 10)%float = true) by reflexivity.
  assert (Hp : (0 <? 5)%float = true) by reflexivity.
  assert (Hall : forall i, In i (insumos (@db_vazio float)) ->
                           insumo_nome i <> "carne"%string)
    by (intros i Hi; simpl in Hi; contradiction).
  split; [exact Hq|]. split; [exact Hp|]. split; [exact Hall|].
  exact (registrar_compra_db_cria_insumo 0 "carne" 10%float 5%float
           db_vazio Hq Hp Hall).
Defined.

(** ** A purchase on binary64 *)

(** A number is kept: the engine has a value for it. *)
Lemma binary64_sql_real_numero (x : float) :
  PrimFloat.is_nan x = false -> exists x', binary64_sql_real x = Some x'.
Proof.
  intros Hx. unfold binary64_sql_real. rewrite Hx.
  destruct (x =? 0)%float; eexists; reflexivity.
Qed.

Lemma binary64_sql_real_nan (x : float) :
  PrimFloat.is_nan x = true -> binary64_sql_real x = None.
Proof. intros Hx. unfold binary64_sql_real. now rewrite Hx. Qed.

(** C3, as stated, fails on binary64: on a stock of 1e308 held at 1e308, a
    purchase of 1e308 at 1e308, all above zero, computes the stock
    [inf] and the cost [(inf + inf) / inf], a NaN, which SQLite stores as
    NULL: the ingredient is left without an average cost. *)
Lemma registrar_compra_db_custo_nulo :
  let s := fst (registrar_compra_db 0 "sal" 1e308%float 1e308%float db_vazio) in
  estoque_e_custo "sal" s = Some (Some 1e308, Some 1e308)%float
  /\ (0 <? 1e308)%float = true
  /\ (0 <? 1e308 + 1e308)%float = true
  /\ PrimFloat.is_nan
       ((1e308 * 1e308 + 1e308 * 1e308) / (1e308 + 1e308))%float = true
  /\ registrar_compra_db 1 "sal" 1e308%float 1e308%float s
     = (fst (registrar_compra_db 1 "sal" 1e308%float 1e308%float s),
        Ok (showinfo "Sucesso" "Compra registrada e estoque atualizado!"))
  /\ estoque_e_custo "sal"
       (fst (registrar_compra_db 1 "sal" 1e308%float 1e308%float s))
     = Some (Some infinity, None).
Proof. vm_compute. repeat split; reflexivity. Qed.

(** C3, amended.  A purchase, of a quantity and at a price that are numbers,
    of a name that an ingredient bears returns normally -- no
    [ZeroDivisionError] is raised.  With [S0] and [C0] the stock and the
    average cost of the row, a NULL and a zero read as [0.0], it computes
    [S1 = S0 + quantidade] and [C1], where
    [C1 = (S0*C0 + quantidade*preco_unit) / S1] when [S1 > 0], a case in
    which the divisor [S1] is not zero, and [C1 = preco_unit] otherwise, in
    particular when [S1 == 0]; and it writes back what SQLite keeps of [S1]
    and of [C1].  A quantity or a price that is a NaN is refused by the
    purchase log, and nothing is written. *)
Theorem registrar_compra_db_custo_medio
    (agora : timestamp) (nome : string) (quantidade preco_unit : float)
    (s : db float) (i : insumo float) :
  insumo_de_nome nome s = Some i ->
  (PrimFloat.is_nan quantidade = false ->
   PrimFloat.is_nan preco_unit = false ->
   let S0 := match estoque_qtd i with
             | Some e => if (e =? 0)%float then 0%float else e
             | None => 0%float
             end in
   let C0 := match custo_medio i with
             | Some c => if (c =? 0)%float then 0%float else c
             | None => 0%float
             end in
   let S1 := (S0 + quantidade)%float in
   let C1 := if (0 <? S1)%float
             then ((S0 * C0 + quantidade * preco_unit) / S1)%float
             else preco_unit in
   exists (s' : db float) (e1 c1 : option float),
     registrar_compra_db agora nome quantidade preco_unit s
       = (s', Ok (showinfo "Sucesso"
                           "Compra registrada e estoque atualizado!"))
     /\ insumo_de_nome nome s' =
          Some {| insumo_id := insumo_id i;
                  insumo_nome := insumo_nome i;
                  categoria := categoria i;
                  unidade := unidade i;
                  estoque_qtd := e1;
                  custo_medio := c1 |}
     /\ guarda S1 e1 /\ guarda C1 c1
     /\ ((0 <? S1)%float = true ->
           (S1 =? 0)%float = false /\
           truediv (S0 * C0 + quantidade * preco_unit)%float S1 = Ok C1)
     /\ ((S1 =? 0)%float = true -> C1 = preco_unit))
  /\ (PrimFloat.is_nan quantidade = true
      \/ PrimFloat.is_nan preco_unit = true ->
        registrar_compra_db agora nome quantidade preco_unit s
        = (s, Raise IntegrityError)).
Proof.
  intros Hi. split.
  - intros Hq Hp S0 C0 S1 C1.
    destruct (binary64_sql_real_numero _ Hq) as [q' Eq].
    destruct (binary64_sql_real_numero _ Hp) as [p' Ep].
    eexists. exists (binary64_sql_real S1), (binary64_sql_real C1).
    split; [exact (registrar_compra_db_existente agora nome quantidade
                     preco_unit q' p' s i Eq Ep Hi)|].
    split.
    { unfold insumo_de_nome in *. cbn [insumos com_insumos].
      rewrite find_nome_set_estoque, Hi. cbn [option_map].
      unfold set_estoque. rewrite Z.eqb_refl. reflexivity. }
    split; [apply guarda_sql_real|]. split; [apply guarda_sql_real|].
    subst C1. destruct (0 <? S1)%float eqn:Hgt.
    + pose proof (binary64_ltb_eqb _ Hgt) as Hz. split.
      * intros _. split; [exact Hz|].
        unfold truediv. cbn [feqb fzero fdiv binary64]. now rewrite Hz.
      * congruence.
    + split; [discriminate | reflexivity].
  - intros Hnan. apply registrar_compra_db_nulo.
    destruct Hnan as [Hn|Hn]; [left | right];
      now apply binary64_sql_real_nan.
Qed.

(** ** Deleting a purchase *)

Section Frame.

Context {F : Type} `{PyFloat F}.

(** C8.  [delete_compra_db] returns normally; of the purchase rows it drops
    those whose id is the one given and keeps the others in their order; the
    table of ingredients, hence the stock and the average cost stored under
    every name, and the other tables are what they were. *)
Theorem delete_compra_db_so_remove_a_compra (id : Z) (s : db F) :
  exists s' : db F,
    delete_compra_db id s = (s', Ok (showinfo "Sucesso" "Compra removida."))
    /\ insumos s' = insumos s
    /\ (forall nome, estoque_e_custo nome s' = estoque_e_custo nome s)
    /\ compras s' = filter (fun c => negb (compra_id c =? id)) (compras s)
    /\ (forall c, In c (compras s') <-> In c (compras s) /\ compra_id c <> id)
    /\ receitas s' = receitas s
    /\ vendas s' = vendas s
    /\ usuarios s' = usuarios s.
Proof.
  eexists. split; [reflexivity|]. simpl.
  split; [reflexivity|]. split; [reflexivity|]. split; [reflexivity|].
  split; [|repeat split; reflexivity].
  intros c. rewrite filter_In, negb_true_iff, Z.eqb_neq. reflexivity.
Qed.

(** A purchase that is registered and then deleted leaves the stock and the
    cost that registering it gave. *)
Corollary delete_compra_db_nao_desfaz agora nome q p id (s : db F) :
  let comprado := fst (registrar_compra_db agora nome q p s) in
  estoque_e_custo nome (fst (delete_compra_db id comprado))
  = estoque_e_custo nome comprado.
Proof. reflexivity. Qed.

(** ** Checking a password *)

Lemma find_username_none nome (l : list usuario) :
  (forall u, In u l -> username u <> nome) ->
  find (fun u => String.eqb (username u) nome) l = None.
Proof.
  induction l as [|a l IH]; intros Hall; [reflexivity|].
  simpl. destruct (String.eqb_spec (username a) nome) as [E|_].
  - exfalso. apply (Hall a); [now left | exact E].
  - apply IH. intros u Hu. apply Hall. now right.
Qed.

Lemma find_username_unique (u : usuario) (l : list usuario) :
  NoDup (map username l) -> In u l ->
  find (fun v => String.eqb (username v) (username u)) l = Some u.
Proof.
  induction l as [|a l IH]; intros Hnd Hin; [contradiction|].
  simpl in *. inversion Hnd as [|x xs Hnotin Hnd']; subst.
  destruct Hin as [->|Hin].
  - now rewrite String.eqb_refl.
  - destruct (String.eqb_spec (username a) (username u)) as [E|_].
    + exfalso. apply Hnotin. rewrite E. now apply in_map.
    + now apply IH.
Qed.

(** C9.  [verify_user] is [False] for a name that no stored user bears; for
    the stored user of a name (names are UNIQUE) it is [True] exactly when
    the SHA-256 hex digest of the password is the stored hash.  The digest
    is that of FIPS 180-4: of the empty message, of ["abc"] and of the
    message of 56 bytes that takes two blocks it is the one that the
    standard gives, and of ["admin"] it is the one that [hashlib] gives. *)
Theorem verify_user_compara_o_hash (nome senha : string) (s : db F) :
  ((forall u, In u (usuarios s) -> username u <> nome) ->
     verify_user nome senha s = false)
  /\ (forall u, NoDup (map username (usuarios s)) ->
        In u (usuarios s) -> username u = nome ->
        (verify_user nome senha s = true
         <-> SHA256.hexdigest senha = password_hash u))
  /\ (SHA256.hexdigest ""
      = "e3b0c44298fc1c149afbf4c8996fb92427ae41e4649b934ca495991b7852b855"%string
      /\ SHA256.hexdigest "abc"
         = "ba7816bf8f01cfea414140de5dae2223b00361a396177a9cb410ff61f20015ad"%string
      /\ SHA256.hexdigest
           "abcdbcdecdefdefgefghfghighijhijkijkljklmklmnlmnomnopnopq"
         = "248d6a61d20638b8e5c026930c3e6039a33ce45964ff2167f6ecedd419db06c1"%string
      /\ SHA256.hexdigest "admin"
         = "8c6976e5b5410415bde908bd4dee15dfb167a9c873fc4bb8a81f6f2ab448a918"%string).
Proof.
  split; [|split].
  - intros Hall. unfold verify_user.
    now rewrite (find_username_none _ _ Hall).
  - intros u Hnd Hin <-. unfold verify_user, _hash_pwd.
    rewrite (find_username_unique _ _ Hnd Hin).
    rewrite String.eqb_eq. split; congruence.
  - vm_compute. repeat split; reflexivity.
Qed.

End Frame.

(** ** The reports *)

Section Reports.

Context {F : Type} `{PyFloat F}.

Lemma no_periodo_dentro dt_ini dt_fim (v : venda F) :
  no_periodo dt_ini dt_fim v = true <-> dentro dt_ini dt_fim v.
Proof.
  unfold no_periodo, dentro. rewrite andb_true_iff. split.
  - intros [H1 H2]. split.
    + intros ini ->. destruct (venda_data v) as [d|]; [|discriminate].
      exists d. split; [reflexivity | now apply Z.leb_le].
    + intros fim ->. destruct (venda_data v) as [d|]; [|discriminate].
      exists d. split; [reflexivity | now apply Z.ltb_lt].
  - intros [H1 H2]. split.
    + destruct dt_ini as [ini|]; [|reflexivity].
      destruct (H1 ini eq_refl) as [d [-> Hd]]. now apply Z.leb_le.
    + destruct dt_fim as [fim|]; [|reflexivity].
      destruct (H2 fim eq_refl) as [d [-> Hd]]. now apply Z.ltb_lt.
Qed.

(** *** The sum of the quantities *)

Lemma fold_left_add_acc (l : list Z) (a : Z) :
  fold_left Z.add l a = a + fold_left Z.add l 0.
Proof.
  revert a. induction l as [|x l IH]; intros a; cbn [fold_left]; [lia|].
  rewrite (IH (a + x)), (IH (0 + x)). lia.
Qed.

Lemma int64_iff (n : Z) : int64 n = true <-> - 2 ^ 63 <= n < 2 ^ 63.
Proof.
  unfold int64. rewrite andb_true_iff, Z.leb_le, Z.ltb_lt. reflexivity.
Qed.

Lemma sql_sum_int_ok (l : list Z) :
  forall acc r, sql_sum_int acc l = Ok r -> r = acc + fold_left Z.add l 0.
Proof.
  induction l as [|x l IH]; intros acc r; cbn [sql_sum_int fold_left].
  - intros E. injection E as <-. lia.
  - destruct (int64 (acc + x)); [|discriminate]. intros E.
    rewrite (IH _ _ E), (fold_left_add_acc l (0 + x)). lia.
Qed.

Lemma sql_sum_int_cabem (l : list Z) :
  forall acc, - 2 ^ 63 <= acc < 2 ^ 63 ->
  ((exists r, sql_sum_int acc l = Ok r)
   <-> forall k : nat,
         - 2 ^ 63 <= acc + fold_left Z.add (firstn k l) 0 < 2 ^ 63).
Proof.
  induction l as [|x l IH]; intros acc Hacc; cbn [sql_sum_int].
  - split; [|intros _; now exists acc].
    intros _ k. rewrite firstn_nil. cbn [fold_left]. lia.
  - destruct (int64 (acc + x)) eqn:Ex.
    + apply int64_iff in Ex. rewrite (IH _ Ex). split.
      * intros Hk [|k]; cbn [firstn fold_left]; [lia|].
        rewrite (fold_left_add_acc _ (0 + x)). specialize (Hk k). lia.
      * intros Hk k. specialize (Hk (S k)). cbn [firstn fold_left] in Hk.
        rewrite (fold_left_add_acc _ (0 + x)) in Hk. lia.
    + split; [intros [r E]; discriminate|].
      intros Hk. specialize (Hk 1%nat). cbn [firstn fold_left] in Hk.
      assert (int64 (acc + x) = true) by (apply int64_iff; lia).
      congruence.
Qed.

Lemma somas_cabem_sql_sum_int (l : list Z) :
  somas_cabem l <-> exists r, sql_sum_int 0 l = Ok r.
Proof.
  rewrite (sql_sum_int_cabem l 0) by (split; [discriminate | reflexivity]).
  unfold somas_cabem. split; intros Hk k; specialize (Hk k); lia.
Qed.

(** *** What [_agg_vendas] returns, and when *)

Lemma agg_vendas_ok dt_ini dt_fim (s : db F) :
  (exists c, _agg_vendas dt_ini dt_fim s = Ok c)
  <-> somas_cabem (map venda_quantidade (vendas_no_periodo dt_ini dt_fim s)).
Proof.
  rewrite somas_cabem_sql_sum_int. unfold _agg_vendas, select_agg.
  destruct (vendas_no_periodo dt_ini dt_fim s) as [|v l].
  - split; intros _; eexists; reflexivity.
  - destruct (sql_sum_int 0 (map venda_quantidade (v :: l))) as [r|e].
    + split; intros _; eexists; reflexivity.
    + split; intros [c E]; discriminate.
Qed.

Lemma agg_vendas_n_vendas dt_ini dt_fim (s : db F) c :
  _agg_vendas dt_ini dt_fim s = Ok c ->
  n_vendas c = Z.of_nat (List.length (vendas_no_periodo dt_ini dt_fim s)).
Proof.
  unfold _agg_vendas, select_agg.
  destruct (vendas_no_periodo dt_ini dt_fim s) as [|v l].
  - intros E. injection E as <-. reflexivity.
  - destruct (sql_sum_int 0 (map venda_quantidade (v :: l))) as [r|e];
      [|discriminate].
    intros E. injection E as <-. reflexivity.
Qed.

Lemma agg_vendas_n_itens dt_ini dt_fim (s : db F) c :
  _agg_vendas dt_ini dt_fim s = Ok c ->
  n_itens c
  = fold_left Z.add (map venda_quantidade (vendas_no_periodo dt_ini dt_fim s))
              0.
Proof.
  unfold _agg_vendas, select_agg.
  destruct (vendas_no_periodo dt_ini dt_fim s) as [|v l].
  - intros E. injection E as <-. reflexivity.
  - destruct (sql_sum_int 0 (map venda_quantidade (v :: l))) as [r|e] eqn:Er;
      [|discriminate].
    intros E. injection E as <-. apply sql_sum_int_ok in Er.
    cbn [n_itens fst snd int_or_0]. lia.
Qed.

(** The four aggregates that [load_relatorios_data] gathers. *)
Lemma load_relatorios_data_ok agora (s : db F) rel :
  load_relatorios_data agora s = Ok rel <->
  _agg_vendas (Some (inicio_do_dia agora))
              (Some (inicio_do_dia (agora + um_dia))) s = Ok (c_hoje rel)
  /\ _agg_vendas (Some (inicio_do_dia (agora - 6 * um_dia)))
                 (Some (inicio_do_dia (agora + um_dia))) s = Ok (c_7 rel)
  /\ _agg_vendas (Some (inicio_do_dia (agora - 29 * um_dia)))
                 (Some (inicio_do_dia (agora + um_dia))) s = Ok (c_30 rel)
  /\ _agg_vendas None None s = Ok (c_all rel).
Proof.
  unfold load_relatorios_data.
  destruct (_agg_vendas (Some (inicio_do_dia agora)) _ s) as [c1|e1];
    [|split; [discriminate | intros [E _]; discriminate]].
  destruct (_agg_vendas (Some (inicio_do_dia (agora - 6 * um_dia))) _ s)
    as [c2|e2];
    [|split; [discriminate | intros (_ & E & _); discriminate]].
  destruct (_agg_vendas (Some (inicio_do_dia (agora - 29 * um_dia))) _ s)
    as [c3|e3];
    [|split; [discriminate | intros (_ & _ & E & _); discriminate]].
  destruct (_agg_vendas None None s) as [c4|e4];
    [|split; [discriminate | intros (_ & _ & _ & E); discriminate]].
  destruct rel as [[[r1 r2] r3] r4]. unfold c_hoje, c_7, c_30, c_all.
  cbn [fst snd]. split.
  - intros E. injection E as <- <- <- <-. repeat split.
  - intros (E1 & E2 & E3 & E4).
    injection E1 as <-. injection E2 as <-. injection E3 as <-.
    injection E4 as <-. reflexivity.
Qed.

Lemma inicio_do_dia_mais k (t : timestamp) :
  inicio_do_dia (t + k * um_dia) = inicio_do_dia t + k * um_dia.
Proof.
  unfold inicio_do_dia, um_dia. rewrite Z.div_add by lia. lia.
Qed.

Lemma inicio_do_dia_do_dia (dia segundos : Z) :
  0 <= segundos < 86400 -> inicio_do_dia (86400 * dia + segundos) = 86400 * dia.
Proof.
  intros Hs. unfold inicio_do_dia, um_dia. f_equal.
  symmetry. apply (Z.div_unique _ _ dia segundos); [left; exact Hs | lia].
Qed.

(** The window of a report, spelled out on the seconds. *)
Lemma no_periodo_janela (ini fim : Z) (l : list (venda F)) :
  filter (no_periodo (Some ini) (Some fim)) l
  = filter (fun v => match venda_data v with
                     | Some t => (ini <=? t) && (t <? fim)
                     | None => false
                     end) l.
Proof.
  apply filter_ext. intros v. unfold no_periodo.
  now destruct (venda_data v).
Qed.

Lemma vendas_no_periodo_mais_uma dt_ini dt_fim (v : venda F) (s : db F) :
  vendas_no_periodo dt_ini dt_fim (mais_uma_venda v s)
  = vendas_no_periodo dt_ini dt_fim s
    ++ (if no_periodo dt_ini dt_fim v then [v] else []).
Proof.
  unfold vendas_no_periodo. cbn [vendas mais_uma_venda com_vendas].
  rewrite filter_app. cbn [filter].
  now destruct (no_periodo dt_ini dt_fim v).
Qed.

Lemma n_vendas_mais_uma dt_ini dt_fim (v : venda F) (s : db F) c c' :
  _agg_vendas dt_ini dt_fim s = Ok c ->
  _agg_vendas dt_ini dt_fim (mais_uma_venda v s) = Ok c' ->
  n_vendas c' = n_vendas c + (if no_periodo dt_ini dt_fim v then 1 else 0).
Proof.
  intros E E'. rewrite (agg_vendas_n_vendas _ _ _ _ E).
  rewrite (agg_vendas_n_vendas _ _ _ _ E'), vendas_no_periodo_mais_uma.
  rewrite length_app, Nat2Z.inj_add.
  now destruct (no_periodo dt_ini dt_fim v).
Qed.

(** C5, amended.  [_agg_vendas] returns exactly when the quantities of the
    rows that the WHERE clause keeps can be added in 64 bits, one after the
    other; the count that it then returns is the number of those rows, and
    the clause keeps a row exactly when [dt_ini <= data < dt_fim], a bound
    left out asking nothing.  In [load_relatorios_data] at the second
    [segundos] of the day [dia], the count of today is that of the sales
    from the midnight [86400 * dia] up to, and without, the next midnight;
    the counts of the last 7 and 30 days are those of the sales from 6 and
    29 days before that midnight; and the last count is that of all sales.
    So one more sale dated at the midnight that begins today adds one to the
    count of today; one more sale dated a second before that midnight leaves
    the count of today as it was and adds one to the count of the last 7
    days. *)
Theorem agg_vendas_conta_o_periodo (s : db F) :
  (forall dt_ini dt_fim,
     ((exists c, _agg_vendas dt_ini dt_fim s = Ok c)
      <-> somas_cabem (map venda_quantidade
                           (filter (no_periodo dt_ini dt_fim) (vendas s))))
     /\ (forall c, _agg_vendas dt_ini dt_fim s = Ok c ->
           n_vendas c
           = Z.of_nat (List.length
                         (filter (no_periodo dt_ini dt_fim) (vendas s))))
     /\ forall v : venda F,
          no_periodo dt_ini dt_fim v = true <-> dentro dt_ini dt_fim v)
  /\ (forall dia segundos rel,
        0 <= segundos < 86400 ->
        load_relatorios_data (86400 * dia + segundos) s = Ok rel ->
        let conta (ini fim : Z) :=
          Z.of_nat (List.length
                      (filter (fun v => match venda_data v with
                                        | Some t => (ini <=? t) && (t <? fim)
                                        | None => false
                                        end) (vendas s))) in
        n_vendas (c_hoje rel) = conta (86400 * dia) (86400 * dia + 86400)
        /\ n_vendas (c_7 rel)
           = conta (86400 * dia - 6 * 86400) (86400 * dia + 86400)
        /\ n_vendas (c_30 rel)
           = conta (86400 * dia - 29 * 86400) (86400 * dia + 86400)
        /\ n_vendas (c_all rel) = Z.of_nat (List.length (vendas s)))
  /\ (forall dia segundos v rel rel',
        0 <= segundos < 86400 ->
        venda_data v = Some (86400 * dia) ->
        load_relatorios_data (86400 * dia + segundos) s = Ok rel ->
        load_relatorios_data (86400 * dia + segundos) (mais_uma_venda v s)
          = Ok rel' ->
        n_vendas (c_hoje rel') = n_vendas (c_hoje rel) + 1)
  /\ (forall dia segundos v rel rel',
        0 <= segundos < 86400 ->
        venda_data v = Some (86400 * dia - 1) ->
        load_relatorios_data (86400 * dia + segundos) s = Ok rel ->
        load_relatorios_data (86400 * dia + segundos) (mais_uma_venda v s)
          = Ok rel' ->
        n_vendas (c_hoje rel') = n_vendas (c_hoje rel)
        /\ n_vendas (c_7 rel') = n_vendas (c_7 rel) + 1).
Proof.
  assert (Hjan : forall dia segundos k, 0 <= segundos < 86400 ->
            inicio_do_dia (86400 * dia + segundos + k * um_dia)
            = 86400 * dia + k * 86400).
  { intros dia segundos k Hs.
    now rewrite inicio_do_dia_mais, inicio_do_dia_do_dia. }
  assert (Hrel : forall dia segundos (s0 : db F) rel,
            0 <= segundos < 86400 ->
            load_relatorios_data (86400 * dia + segundos) s0 = Ok rel ->
            _agg_vendas (Some (86400 * dia)) (Some (86400 * dia + 86400)) s0
              = Ok (c_hoje rel)
            /\ _agg_vendas (Some (86400 * dia - 6 * 86400))
                           (Some (86400 * dia + 86400)) s0 = Ok (c_7 rel)
            /\ _agg_vendas (Some (86400 * dia - 29 * 86400))
                           (Some (86400 * dia + 86400)) s0 = Ok (c_30 rel)
            /\ _agg_vendas None None s0 = Ok (c_all rel)).
  { intros dia segundos s0 rel Hs E.
    apply load_relatorios_data_ok in E.
    rewrite (inicio_do_dia_do_dia dia segundos Hs) in E.
    replace (86400 * dia + segundos + um_dia)
      with (86400 * dia + segundos + 1 * um_dia) in E by lia.
    replace (86400 * dia + segundos - 6 * um_dia)
      with (86400 * dia + segundos + (-6) * um_dia) in E by lia.
    replace (86400 * dia + segundos - 29 * um_dia)
      with (86400 * dia + segundos + (-29) * um_dia) in E by lia.
    rewrite !(Hjan dia segundos _ Hs) in E.
    replace (86400 * dia + 1 * 86400) with (86400 * dia + 86400) in E by lia.
    replace (86400 * dia + -6 * 86400) with (86400 * dia - 6 * 86400) in E
      by lia.
    replace (86400 * dia + -29 * 86400) with (86400 * dia - 29 * 86400) in E
      by lia.
    exact E. }
  split; [|split; [|split]].
  - intros dt_ini dt_fim. split; [apply agg_vendas_ok|]. split.
    + intros c. apply agg_vendas_n_vendas.
    + intros v. apply no_periodo_dentro.
  - intros dia segundos rel Hs E conta.
    destruct (Hrel dia segundos s rel Hs E) as (E1 & E2 & E3 & E4).
    unfold conta. rewrite <- !no_periodo_janela.
    rewrite (agg_vendas_n_vendas _ _ _ _ E1), (agg_vendas_n_vendas _ _ _ _ E2),
      (agg_vendas_n_vendas _ _ _ _ E3), (agg_vendas_n_vendas _ _ _ _ E4).
    unfold vendas_no_periodo. repeat split.
    f_equal. f_equal. clear. induction (vendas s) as [|a l IH];
      [reflexivity | cbn; now rewrite IH].
  - intros dia segundos v rel rel' Hs Hv E E'.
    destruct (Hrel dia segundos s rel Hs E) as (E1 & _).
    destruct (Hrel dia segundos _ rel' Hs E') as (E1' & _).
    rewrite (n_vendas_mais_uma _ _ _ _ _ _ E1 E1'). f_equal.
    unfold no_periodo. rewrite Hv.
    replace (_ <=? _) with true by (symmetry; apply Z.leb_le; lia).
    replace (_ <? _) with true by (symmetry; apply Z.ltb_lt; lia).
    reflexivity.
  - intros dia segundos v rel rel' Hs Hv E E'.
    destruct (Hrel dia segundos s rel Hs E) as (E1 & E2 & _).
    destruct (Hrel dia segundos _ rel' Hs E') as (E1' & E2' & _).
    rewrite (n_vendas_mais_uma _ _ _ _ _ _ E1 E1').
    rewrite (n_vendas_mais_uma _ _ _ _ _ _ E2 E2').
    unfold no_periodo. rewrite Hv. split.
    + replace (86400 * dia <=? 86400 * dia - 1) with false
        by (symmetry; apply Z.leb_gt; lia).
      cbn [andb]. lia.
    + replace (_ <=? _) with true by (symmetry; apply Z.leb_le; lia).
      replace (_ <? _) with true by (symmetry; apply Z.ltb_lt; lia).
      reflexivity.
Qed.

(** C6.  When no sale row lies in the window -- as when there is no sale
    row at all -- [_agg_vendas] returns the tuple [(0, 0, 0.0, 0.0)]. *)
Theorem agg_vendas_sem_vendas dt_ini dt_fim (s : db F) :
  (forall v, In v (vendas s) -> ~ dentro dt_ini dt_fim v) ->
  _agg_vendas dt_ini dt_fim s = Ok (0, 0, fzero, fzero).
Proof.
  intros Hnone. unfold _agg_vendas, vendas_no_periodo.
  replace (filter (no_periodo dt_ini dt_fim) (vendas s)) with (@nil (venda F)).
  - reflexivity.
  - symmetry. induction (vendas s) as [|a l IH]; [reflexivity|].
    simpl. destruct (no_periodo dt_ini dt_fim a) eqn:E.
    + exfalso. apply (Hnone a); [now left | now apply no_periodo_dentro].
    + apply IH. intros v Hv. apply Hnone. now right.
Qed.

End Reports.

(** ** The sales recorder *)

Section Sales.

Context {F : Type} `{PyFloat F}.




(** What a call of [registrar_venda] can end in. *)
Lemma registrar_venda_casos agora rid q (p t : F) (s : db F) :
  (exists e, registrar_venda agora rid q p t s = (s, Raise e))
  \/ exists qtd p' t' b' c' l',
       float_of_int q = Ok qtd
       /\ int64 rid && int64 q = true
       /\ existsb (fun r => receita_id r =? rid) (receitas s) = true
       /\ sql_real p = Some p' /\ sql_real t = Some t'
       /\ sql_real (p * qtd)%py = Some b'
       /\ sql_real fzero = Some c'
       /\ sql_real (p * qtd - p * qtd * t - fzero)%py = Some l'
       /\ registrar_venda agora rid q p t s =
            (mais_uma_venda
               {| venda_id :=
                    next_rowid (seq_vendas s) (map venda_id (vendas s));
                  venda_receita_id := rid;
                  venda_quantidade := q;
                  preco_unit := p';
                  taxa_plataforma := t';
                  total_bruto := b';
                  custo_total := c';
                  lucro_liquido := l';
                  venda_data := Some agora |} s,
             Ok (showinfo "Sucesso" "Venda registrada com sucesso!")).
Proof.
  unfold registrar_venda, commit_or_close, bind, lift, insert_venda, ret.
  destruct (float_of_int q) as [qtd|e]; [|left; eexists; reflexivity].
  destruct (int64 rid && int64 q); cbn [negb];
    [|left; eexists; reflexivity].
  destruct (sql_real p) as [p'|] eqn:Ep; [|left; eexists; reflexivity].
  destruct (sql_real t) as [t'|] eqn:Et; [|left; eexists; reflexivity].
  destruct (sql_real (p * qtd)%py) as [b'|] eqn:Eb;
    [|left; eexists; reflexivity].
  destruct (sql_real fzero) as [c'|] eqn:Ec; [|left; eexists; reflexivity].
  destruct (sql_real (p * qtd - p * qtd * t - fzero)%py) as [l'|] eqn:El;
    [|left; eexists; reflexivity].
  destruct (existsb (fun r => receita_id r =? rid) (receitas s));
    cbn [negb]; [|left; eexists; reflexivity].
  right. exists qtd, p', t', b', c', l'.
  repeat split; try reflexivity; assumption.
Qed.

End Sales.


(** *** binary64: where no NaN comes from *)













(** ** Purchases that break the precondition *)

(** C7, as stated, fails: called with the quantity -3, [registrar_compra_db]
    raises nothing, reports success, and takes 3 out of the stock of 10 while
    it moves the average cost from 5.00 to 44/7. *)
Lemma registrar_compra_db_quantidade_negativa :
  ((-3) <=? 0)%float = true
  /\ snd (registrar_compra_db 1 "carne" (-3)%float 2%float db_carne)
     = Ok (showinfo "Sucesso" "Compra registrada e estoque atualizado!")
  /\ estoque_e_custo "carne" db_carne = Some (Some 10, Some 5)%float
  /\ estoque_e_custo "carne"
       (fst (registrar_compra_db 1 "carne" (-3)%float 2%float db_carne))
     = Some (Some 7, Some 6.2857142857142856)%float.
Proof. vm_compute. repeat split; reflexivity. Qed.

(** C7, amended.  A quantity or a price that is not above zero is stopped by
    the form: [_registrar_compra] answers with a warning and leaves the
    database as it was.  The ledger itself checks nothing: called with any
    quantity and any price that are numbers -- so with a quantity or a price
    not above zero as well -- it returns normally, appends the purchase row
    and applies the purchase: on an ingredient of that name it writes back
    [S1 = S0 + quantidade] and the cost [C1] of the guarded rule, and
    without one it creates the ingredient with that quantity and price.  The
    one refusal comes from SQLite: a quantity or a price that is a NaN is
    bound as NULL, which the purchase log does not take; nothing is then
    written. *)
Theorem compra_invalida_barrada_no_formulario
    (agora : timestamp) (nome : string) (s : db float) :
  (forall (quantidade : float) (preco : Decimal),
     (quantidade <=? 0)%float = true \/ Decimal_le_0 preco = Ok true ->
     _registrar_compra agora nome (Some quantidade) (Some preco) s
     = (s, Ok (showwarning "Aviso" "Preencha todos os campos corretamente.")))
  /\ (forall quantidade preco_unit : float,
        PrimFloat.is_nan quantidade = false ->
        PrimFloat.is_nan preco_unit = false ->
        exists (s' : db float) (c : compra float),
          registrar_compra_db agora nome quantidade preco_unit s
            = (s', Ok (showinfo "Sucesso"
                                "Compra registrada e estoque atualizado!"))
          /\ compras s' = compras s ++ [c]
          /\ compra_nome c = nome
          /\ guarda quantidade (Some (compra_quantidade c))
          /\ guarda preco_unit (Some (compra_preco c))
          /\ compra_data c = Some agora
          /\ match insumo_de_nome nome s with
             | Some i =>
                 let S0 := match estoque_qtd i with
                           | Some e => if (e =? 0)%float then 0%float else e
                           | None => 0%float
                           end in
                 let C0 := match custo_medio i with
                           | Some c => if (c =? 0)%float then 0%float else c
                           | None => 0%float
                           end in
                 let S1 := (S0 + quantidade)%float in
                 let C1 := if (0 <? S1)%float
                           then ((S0 * C0 + quantidade * preco_unit) / S1)%float
                           else preco_unit in
                 exists e1 c1 : option float,
                   insumo_de_nome nome s' =
                     Some {| insumo_id := insumo_id i;
                             insumo_nome := insumo_nome i;
                             categoria := categoria i;
                             unidade := unidade i;
                             estoque_qtd := e1;
                             custo_medio := c1 |}
                   /\ guarda S1 e1 /\ guarda C1 c1
             | None =>
                 exists (id : Z) (e1 c1 : option float),
                   insumo_de_nome nome s' =
                     Some {| insumo_id := id;
                             insumo_nome := nome;
                             categoria := Some ""%string;
                             unidade := Some "un"%string;
                             estoque_qtd := e1;
                             custo_medio := c1 |}
                   /\ guarda quantidade e1 /\ guarda preco_unit c1
             end)
  /\ (forall quantidade preco_unit : float,
        PrimFloat.is_nan quantidade = true
        \/ PrimFloat.is_nan preco_unit = true ->
        registrar_compra_db agora nome quantidade preco_unit s
        = (s, Raise IntegrityError)).
Proof.
  split; [|split].
  - intros quantidade preco Hbad. unfold _registrar_compra.
    destruct ((nome =? "")%string || (quantidade <=? fzero)%py) eqn:E;
      [reflexivity|].
    apply orb_false_iff in E. destruct E as [_ E].
    destruct Hbad as [Hq|Hp]; [cbn [fleb fzero binary64] in E; congruence|].
    now rewrite Hp.
  - intros quantidade preco_unit Hq Hp.
    destruct (binary64_sql_real_numero _ Hq) as [q' Eq].
    destruct (binary64_sql_real_numero _ Hp) as [p' Ep].
    assert (Gq : guarda quantidade (Some q'))
      by (rewrite <- Eq; apply guarda_sql_real).
    assert (Gp : guarda preco_unit (Some p'))
      by (rewrite <- Ep; apply guarda_sql_real).
    destruct (insumo_de_nome nome s) as [i|] eqn:Hi.
    + eexists. exists (compra_nova s agora nome q' p').
      split; [exact (registrar_compra_db_existente agora nome quantidade
                       preco_unit q' p' s i Eq Ep Hi)|].
      do 5 (split; [first [reflexivity | assumption]|]).
      eexists. eexists. split.
      * unfold insumo_de_nome in *. cbn [insumos com_insumos].
        rewrite find_nome_set_estoque, Hi. cbn [option_map].
        unfold set_estoque. rewrite Z.eqb_refl. reflexivity.
      * split; apply guarda_sql_real.
    + eexists. exists (compra_nova s agora nome q' p').
      split; [exact (registrar_compra_db_novo agora nome quantidade
                       preco_unit q' p' s Eq Ep Hi)|].
      do 5 (split; [first [reflexivity | assumption]|]).
      eexists. exists (Some q'), (Some p'). split.
      * unfold insumo_de_nome in *. cbn [insumos com_insumos].
        erewrite find_nome_app; [reflexivity | exact Hi | reflexivity].
      * split; assumption.
  - intros quantidade preco_unit Hnan. apply registrar_compra_db_nulo.
    destruct Hnan as [Hn|Hn]; [left | right];
      now apply binary64_sql_real_nan.
Qed.

Lemma compra_invalida_barrada_no_formulario_witness :
  (((-3) <=? 0)%float = true \/ Decimal_le_0 (Dec false 2 0) = Ok true)
  /\ _registrar_compra 1 "carne" (Some (-3)%float) (Some (Dec false 2 0))
       db_carne
     = (db_carne,
        Ok (showwarning "Aviso" "Preencha todos os campos corretamente."))
  /\ PrimFloat.is_nan (-3)%float = false
  /\ PrimFloat.is_nan 2%float = false
  /\ (exists (s' : db float) (c : compra float),
        registrar_compra_db 1 "carne" (-3)%float 2%float db_carne
          = (s', Ok (showinfo "Sucesso"
                              "Compra registrada e estoque atualizado!"))
        /\ compras s' = compras db_carne ++ [c]
        /\ compra_nome c = "carne"%string
        /\ guarda (-3)%float (Some (compra_quantidade c))
        /\ guarda 2%float (Some (compra_preco c))
        /\ compra_data c = Some 1
        /\ exists e1 c1 : option float,
             insumo_de_nome "carne" s' =
               Some {| insumo_id := 1;
                       insumo_nome := "carne";
                       categoria := Some ""%string;
                       unidade := Some "un"%string;
                       estoque_qtd := e1;
                       custo_medio := c1 |}
             /\ guarda 7%float e1 /\ guarda 6.2857142857142856%float c1)
  /\ (PrimFloat.is_nan nan = true \/ PrimFloat.is_nan 2%float = true)
  /\ registrar_compra_db 1 "carne" nan 2%float db_carne
     = (db_carne, Raise IntegrityError).
Proof.
  assert (Hbad : ((-3) <=? 0)%float = true
                 \/ Decimal_le_0 (Dec false 2 0) = Ok true)
    by (left; reflexivity).
  assert (Hq : PrimFloat.is_nan (-3)%float = false) by reflexivity.
  assert (Hp : PrimFloat.is_nan 2%float = false) by reflexivity.
  assert (Hn : PrimFloat.is_nan nan = true \/ PrimFloat.is_nan 2%float = true)
    by (left; reflexivity).
  split; [exact Hbad|].
  split; [exact (proj1 (compra_invalida_barrada_no_formulario 1 "carne"
                          db_carne) (-3)%float (Dec false 2 0) Hbad)|].
  split; [exact Hq|]. split; [exact Hp|].
  split; [exact (proj1 (proj2 (compra_invalida_barrada_no_formulario 1 "carne"
                                 db_carne)) (-3)%float 2%float Hq Hp)|].
  split; [exact Hn|].
  exact (proj2 (proj2 (compra_invalida_barrada_no_formulario 1 "carne"
                         db_carne)) nan 2%float Hn).
Defined.

(** ** The weighted average, where no operation rounds *)

Section Exact.

Local Open Scope Q_scope.

Lemma sql_real_exato (x : Q) : sql_real x = Some x.
Proof. reflexivity. Qed.

Lemma float_or_0_Q (x : Q) : float_or_0 (Some x) == x.
Proof.
  unfold float_or_0. cbn [feqb fzero exato].
  destruct (Qeq_bool x 0) eqn:E; [|reflexivity].
  apply Qeq_bool_eq in E. now rewrite E.
Qed.

Lemma float_or_0_Q_pos (x : Q) : 0 < x -> float_or_0 (Some x) = x.
Proof.
  intros Hx. unfold float_or_0. cbn [feqb fzero exato].
  rewrite Qeq_bool_false; [reflexivity|].
  intros E. rewrite E in Hx. now apply Qlt_irrefl in Hx.
Qed.

(** One purchase on a row that holds [S0 >= 0] at [C0]. *)
Lemma compra_exata agora nome (q p : Q) (s : db Q) i S0 C0 :
  insumo_de_nome nome s = Some i ->
  estoque_qtd i = Some S0 -> custo_medio i = Some C0 ->
  0 <= S0 -> 0 < q ->
  exists i' S1 C1,
    insumo_de_nome nome (fst (registrar_compra_db agora nome q p s)) = Some i'
    /\ estoque_qtd i' = Some S1 /\ custo_medio i' = Some C1
    /\ S1 == S0 + q /\ C1 * S1 == C0 * S0 + q * p /\ 0 < S1.
Proof.
  intros Hi HS HC HS0 Hq.
  rewrite (registrar_compra_db_existente agora nome q p q p s i
             (sql_real_exato q) (sql_real_exato p) Hi).
  cbn [fst]. unfold insumo_de_nome in *. cbn [insumos com_insumos].
  rewrite find_nome_set_estoque, Hi. cbn [option_map].
  unfold set_estoque. rewrite Z.eqb_refl.
  eexists. eexists. eexists.
  split; [reflexivity|]. cbn [estoque_qtd custo_medio sql_real exato].
  split; [reflexivity|]. split; [reflexivity|].
  rewrite HS, HC.
  pose proof (float_or_0_Q S0) as ES. pose proof (float_or_0_Q C0) as EC.
  set (S0' := float_or_0 (Some S0)) in *.
  set (C0' := float_or_0 (Some C0)) in *.
  clearbody S0' C0'. cbn [fadd exato].
  assert (Hpos : 0 < S0' + q) by (rewrite ES; lra).
  split; [now rewrite ES|]. split; [|exact Hpos].
  unfold custo_apos. cbn [fadd fmul fdiv fltb fzero exato].
  apply Qltb_lt in Hpos as Hb. rewrite Hb.
  rewrite <- ES, <- EC.
  field. intros E. rewrite E in Hpos. now apply Qlt_irrefl in Hpos.
Qed.

Lemma compras_exatas agora nome (l : list (Q * Q)) :
  compras_validas l ->
  forall (s : db Q) i S0 C0,
  insumo_de_nome nome s = Some i ->
  estoque_qtd i = Some S0 -> custo_medio i = Some C0 -> 0 <= S0 ->
  exists i' S1 C1,
    insumo_de_nome nome (registrar_compras agora nome l s) = Some i'
    /\ estoque_qtd i' = Some S1 /\ custo_medio i' = Some C1
    /\ S1 == S0 + soma_qtd l
    /\ C1 * S1 == C0 * S0 + soma_valor l
    /\ 0 <= S1.
Proof.
  induction 1 as [|[q p] l [Hq Hp] Hl IH]; intros s i S0 C0 Hi HS HC HS0.
  - exists i, S0, C0. cbn [registrar_compras fold_left soma_qtd soma_valor
                           fold_right].
    repeat split; try assumption; ring.
  - cbn [fst snd] in Hq, Hp.
    destruct (compra_exata agora nome q p s i S0 C0 Hi HS HC HS0 Hq)
      as (i1 & S1 & C1 & Hi1 & HS1 & HC1 & ES1 & EC1 & Hpos1).
    destruct (IH _ i1 S1 C1 Hi1 HS1 HC1 (Qlt_le_weak _ _ Hpos1))
      as (i2 & S2 & C2 & Hi2 & HS2 & HC2 & ES2 & EC2 & Hpos2).
    exists i2, S2, C2.
    split; [exact Hi2|]. split; [exact HS2|]. split; [exact HC2|].
    cbn [soma_qtd soma_valor fold_right fst snd].
    fold (soma_qtd l). fold (soma_valor l).
    split; [rewrite ES2, ES1; ring|].
    split; [rewrite EC2, EC1; ring | exact Hpos2].
Qed.

Lemma soma_qtd_pos (l : list (Q * Q)) :
  compras_validas l -> l <> [] -> 0 < soma_qtd l.
Proof.
  intros Hl. induction Hl as [|[q p] l [Hq _] Hl IH]; intros Hne;
    [congruence|].
  cbn [soma_qtd fold_right fst] in *. fold (soma_qtd l).
  destruct l as [|c l].
  - cbn. cbn in Hq. lra.
  - assert (0 < soma_qtd (c :: l)) by (apply IH; congruence).
    cbn in Hq. lra.
Qed.

Lemma soma_qtd_perm (l l' : list (Q * Q)) :
  Permutation l l' -> soma_qtd l == soma_qtd l'.
Proof.
  induction 1 as [|c l l' _ IH|c d l|l l' l'' _ IH1 _ IH2].
  - reflexivity.
  - cbn [soma_qtd fold_right]. fold (soma_qtd l). fold (soma_qtd l').
    now rewrite IH.
  - cbn [soma_qtd fold_right]. ring.
  - now rewrite IH1.
Qed.

Lemma soma_valor_perm (l l' : list (Q * Q)) :
  Permutation l l' -> soma_valor l == soma_valor l'.
Proof.
  induction 1 as [|c l l' _ IH|c d l|l l' l'' _ IH1 _ IH2].
  - reflexivity.
  - cbn [soma_valor fold_right]. fold (soma_valor l). fold (soma_valor l').
    now rewrite IH.
  - cbn [soma_valor fold_right]. ring.
  - now rewrite IH1.
Qed.

(** A run of valid purchases of a name that no ingredient bears. *)
Lemma compras_exatas_do_zero agora nome (l : list (Q * Q)) (s : db Q) :
  l <> [] -> compras_validas l ->
  (forall i, In i (insumos s) -> insumo_nome i <> nome) ->
  exists S C,
    estoque_e_custo nome (registrar_compras agora nome l s)
      = Some (Some S, Some C)
    /\ S == soma_qtd l /\ C == soma_valor l / soma_qtd l.
Proof.
  intros Hne Hl Hnone.
  pose proof (soma_qtd_pos l Hl Hne) as Hpos.
  destruct l as [|[q p] l]; [congruence|].
  inversion Hl as [|c l0 [Hq Hp] Hl']; subst. cbn [fst snd] in Hq, Hp.
  apply find_nome_none in Hnone.
  change (registrar_compras agora nome ((q, p) :: l) s)
    with (registrar_compras agora nome l
            (fst (registrar_compra_db agora nome q p s))).
  rewrite (registrar_compra_db_novo agora nome q p q p s
             (sql_real_exato q) (sql_real_exato p) Hnone).
  cbn [fst].
  set (s1 := com_insumos _ _ _).
  assert (Hi1 : insumo_de_nome nome s1 = Some (insumo_novo s nome q p)).
  { unfold insumo_de_nome, s1. cbn [insumos com_insumos].
    now apply find_nome_app. }
  destruct (compras_exatas agora nome l Hl' s1 _ q p Hi1 eq_refl eq_refl
              (Qlt_le_weak _ _ Hq))
    as (i2 & S2 & C2 & Hi2 & HS2 & HC2 & ES2 & EC2 & _).
  exists S2, C2. unfold estoque_e_custo. rewrite Hi2, HS2, HC2.
  split; [reflexivity|].
  cbn [soma_qtd soma_valor fold_right fst snd] in *.
  fold (soma_qtd l) in *. fold (soma_valor l) in *.
  split; [exact ES2|].
  assert (Hnz : ~ q + soma_qtd l == 0)
    by (intros E; rewrite E in Hpos; now apply Qlt_irrefl in Hpos).
  assert (HS2nz : ~ S2 == 0) by (rewrite ES2; exact Hnz).
  apply (Qmult_inj_r _ _ S2 HS2nz). rewrite EC2.
  rewrite ES2. field. exact Hnz.
Qed.

End Exact.

(** ** The stock on binary64 *)

Lemma float_or_0_binary64_pos (x : float) :
  (0 <? x)%float = true -> float_or_0 (Some x) = x.
Proof.
  intros Hx. unfold float_or_0. cbn [feqb fzero binary64].
  now rewrite (binary64_ltb_eqb x Hx).
Qed.

Lemma float_or_0_binary64_nonneg (x : float) :
  (0 <=? x)%float = true -> (0 <=? float_or_0 (Some x))%float = true.
Proof.
  intros Hx. unfold float_or_0. cbn [feqb fzero binary64].
  destruct (x =? 0)%float; [reflexivity | exact Hx].
Qed.

Lemma binary64_ltb_leb (x : float) :
  (0 <? x)%float = true -> (0 <=? x)%float = true.
Proof.
  rewrite FloatAxioms.ltb_spec, FloatAxioms.leb_spec.
  unfold SFltb, SFleb. now destruct (SFcompare (Prim2SF 0) (Prim2SF x)) as [[| |]|].
Qed.

(** *** binary64: numbers not below zero *)

Lemma binary_round_aux_nao_negativo (m e : Z) (l : location) :
  SF_nao_negativo (binary_round_aux prec emax false m e l) = true.
Proof.
  unfold binary_round_aux.
  destruct (shr_fexp prec emax m e l) as [r1 e1].
  destruct (shr_fexp prec emax _ e1 loc_Exact) as [r2 e2].
  destruct (shr_m r2); try reflexivity.
  now destruct (e2 <=? emax - prec).
Qed.

Lemma SFmul_nao_negativo (x y : spec_float) :
  SF_nao_negativo x = true -> SF_nao_negativo y = true ->
  SF_nao_negativo (SFmul prec emax x y) = true.
Proof.
  destruct x as [sx|[|]| |[|] mx ex]; try discriminate;
    destruct y as [sy|[|]| |[|] my ey]; try discriminate; intros _ _;
    cbn [SFmul xorb]; try reflexivity.
  apply binary_round_aux_nao_negativo.
Qed.

Lemma SFadd_nao_negativo (x y : spec_float) :
  SF_nao_negativo x = true -> SF_nao_negativo y = true ->
  SF_nao_negativo (SFadd prec emax x y) = true.
Proof.
  destruct x as [sx|[|]| |[|] mx ex]; try discriminate;
    destruct y as [sy|[|]| |[|] my ey]; try discriminate; intros _ _;
    cbn [SFadd]; try reflexivity.
  - now destruct sx, sy.
  - cbn [cond_Zopp Z.add]. unfold binary_normalize, binary_round.
    destruct (shl_align _ _ _) as [mz ez].
    apply binary_round_aux_nao_negativo.
Qed.

Lemma SFdiv_nao_negativo (x y : spec_float) :
  SF_nao_negativo x = true ->
  SFltb (S754_zero false) y = true ->
  SF_nao_negativo (SFdiv prec emax x y) = true.
Proof.
  destruct y as [sy|[|]| |[|] my ey]; try discriminate;
    destruct x as [sx|[|]| |[|] mx ex]; try discriminate; intros _ _;
    cbn [SFdiv xorb]; try reflexivity.
  destruct (SFdiv_core_binary prec emax (Zpos mx) ex (Zpos my) ey)
    as [[mz ez] lz].
  apply binary_round_aux_nao_negativo.
Qed.

Lemma SFleb_nao_negativo (x : spec_float) :
  SFleb (S754_zero false) x = true -> SF_nao_negativo x = true.
Proof. now destruct x as [sx|[|]| |[|] mx ex]. Qed.

Lemma binary64_leb_nao_negativo (x : float) :
  (0 <=? x)%float = true -> SF_nao_negativo (Prim2SF x) = true.
Proof.
  rewrite FloatAxioms.leb_spec. intros Hx. apply SFleb_nao_negativo.
  exact Hx.
Qed.

Lemma binary64_ltb_SF (x : float) :
  (0 <? x)%float = true -> SFltb (S754_zero false) (Prim2SF x) = true.
Proof. rewrite FloatAxioms.ltb_spec. intros Hx. exact Hx. Qed.

Lemma SF_nao_negativo_leb (x : spec_float) :
  SF_nao_negativo x = true -> x <> S754_nan ->
  SFleb (S754_zero false) x = true.
Proof.
  destruct x as [sx|[|]| |[|] mx ex]; try discriminate; try reflexivity.
  congruence.
Qed.

Lemma float_or_0_binary64_SF (x : option float) :
  match x with
  | Some v => (0 <=? v)%float = true
  | None => True
  end ->
  SF_nao_negativo (Prim2SF (float_or_0 x)) = true.
Proof.
  destruct x as [v|]; [|reflexivity]. intros Hv.
  unfold float_or_0. cbn [feqb fzero binary64].
  destruct (v =? 0)%float; [reflexivity|].
  now apply binary64_leb_nao_negativo.
Qed.

(** What the engine keeps of a number not below zero is not below zero. *)
Lemma binary64_sql_real_nao_negativo (x : float) :
  SF_nao_negativo (Prim2SF x) = true ->
  match binary64_sql_real x with
  | Some c => (0 <=? c)%float = true
  | None => True
  end.
Proof.
  intros Hx. unfold binary64_sql_real.
  destruct (PrimFloat.is_nan x) eqn:En; [exact I|].
  destruct (x =? 0)%float; [reflexivity|].
  rewrite FloatAxioms.leb_spec.
  apply (SF_nao_negativo_leb (Prim2SF x) Hx). now apply binary64_not_nan.
Qed.

(** One purchase on a row whose stock and whose cost are not below zero. *)
Lemma compra_binary64 agora nome (q p : float) (s : db float) i S0 :
  insumo_de_nome nome s = Some i ->
  estoque_qtd i = Some S0 ->
  (0 <=? S0)%float = true ->
  match custo_medio i with
  | Some C0 => (0 <=? C0)%float = true
  | None => True
  end ->
  (0 <? q)%float = true -> (0 <? p)%float = true ->
  exists i' c1,
    insumo_de_nome nome (fst (registrar_compra_db agora nome q p s)) = Some i'
    /\ estoque_qtd i' = Some (float_or_0 (Some S0) + q)%float
    /\ custo_medio i' = c1
    /\ (0 <? float_or_0 (Some S0) + q)%float = true
    /\ match c1 with
       | Some C1 => (0 <=? C1)%float = true
       | None => True
       end.
Proof.
  intros Hi HS HS0 HC0 Hq Hp.
  rewrite (registrar_compra_db_existente agora nome q p q p s i
             (sql_real_binary64_pos q Hq) (sql_real_binary64_pos p Hp) Hi).
  cbn [fst]. unfold insumo_de_nome in *. cbn [insumos com_insumos].
  rewrite find_nome_set_estoque, Hi. cbn [option_map].
  unfold set_estoque. rewrite Z.eqb_refl. rewrite HS.
  assert (Hpos : (0 <? float_or_0 (Some S0) + q)%float = true).
  { apply binary64_add_pos; [|exact Hq].
    now apply float_or_0_binary64_nonneg. }
  eexists. eexists. split; [reflexivity|].
  cbn [estoque_qtd custo_medio sql_real binary64 fadd].
  split; [now apply binary64_sql_real_pos|]. split; [reflexivity|].
  split; [exact Hpos|].
  apply binary64_sql_real_nao_negativo.
  unfold custo_apos. cbn [fltb fzero fadd fmul fdiv binary64]. rewrite Hpos.
  rewrite FloatAxioms.div_spec, FloatAxioms.add_spec, !FloatAxioms.mul_spec.
  apply SFdiv_nao_negativo; [|now apply binary64_ltb_SF].
  apply SFadd_nao_negativo; apply SFmul_nao_negativo.
  - apply (float_or_0_binary64_SF (Some S0)). exact HS0.
  - apply float_or_0_binary64_SF. exact HC0.
  - apply binary64_leb_nao_negativo. now apply binary64_ltb_leb.
  - apply binary64_leb_nao_negativo. now apply binary64_ltb_leb.
Qed.

Lemma compras_binary64 agora nome (l : list (float * float)) :
  Forall (fun c => (0 <? fst c)%float = true /\ (0 <? snd c)%float = true) l ->
  forall (s : db float) i S0,
  insumo_de_nome nome s = Some i ->
  estoque_qtd i = Some S0 ->
  match custo_medio i with
  | Some C0 => (0 <=? C0)%float = true
  | None => True
  end ->
  (0 <? S0)%float = true ->
  exists i' c1,
    insumo_de_nome nome (registrar_compras agora nome l s) = Some i'
    /\ estoque_qtd i' = Some (fold_left PrimFloat.add (map fst l) S0)
    /\ custo_medio i' = c1
    /\ (0 <? fold_left PrimFloat.add (map fst l) S0)%float = true
    /\ match c1 with
       | Some C1 => (0 <=? C1)%float = true
       | None => True
       end.
Proof.
  induction 1 as [|[q p] l [Hq Hp] Hl IH]; intros s i S0 Hi HS HC HS0.
  - exists i, (custo_medio i). repeat split; assumption.
  - cbn [fst snd] in Hq, Hp.
    destruct (compra_binary64 agora nome q p s i S0 Hi HS
                (binary64_ltb_leb _ HS0) HC Hq Hp)
      as (i1 & c1 & Hi1 & HS1 & HC1 & Hpos1 & Hc1).
    rewrite (float_or_0_binary64_pos _ HS0) in HS1, Hpos1.
    rewrite <- HC1 in Hc1.
    destruct (IH _ i1 _ Hi1 HS1 Hc1 Hpos1)
      as (i2 & c2 & Hi2 & HS2 & HC2 & Hpos2 & Hc2).
    exists i2, c2. repeat split; assumption.
Qed.

(** C1, as stated, fails on binary64: the same three purchases of ["sal"],
    each with quantity and price above zero, leave the stock
    0.6000000000000001 in one order and 0.6 in the reverse order. *)
Lemma registrar_compras_ordem_binary64 :
  Permutation [(0.1, 1); (0.2, 1); (0.3, 1)]%float
              [(0.3, 1); (0.2, 1); (0.1, 1)]%float
  /\ Forall (fun c => (0 <? fst c)%float = true /\ (0 <? snd c)%float = true)
            [(0.1, 1); (0.2, 1); (0.3, 1)]%float
  /\ estoque_e_custo "sal"
       (registrar_compras 0 "sal" [(0.1, 1); (0.2, 1); (0.3, 1)]%float
          db_vazio)
     = Some (Some 0.60000000000000009, Some 1)%float
  /\ estoque_e_custo "sal"
       (registrar_compras 0 "sal" [(0.3, 1); (0.2, 1); (0.1, 1)]%float
          db_vazio)
     = Some (Some 0.59999999999999998, Some 1)%float
  /\ (0.60000000000000009 =? 0.59999999999999998)%float = false.
Proof.
  split; [|split; [|split; [|split]]].
  - apply Permutation_sym.
    apply (Permutation_rev [(0.3, 1); (0.2, 1); (0.1, 1)]%float).
  - repeat constructor.
  - vm_compute. reflexivity.
  - vm_compute. reflexivity.
  - reflexivity.
Qed.

(** C1, amended.  Over the rationals, where no operation rounds, a run of
    purchases of one name that no ingredient bears at the start, each with
    quantity and price above zero, leaves under that name the stock
    [sum q_i] and the average cost [sum (q_i * p_i) / sum q_i], and every
    reordering of the run leaves the same stock and the same cost.  On
    binary64, such a run leaves a stock above zero that is the sum of the
    quantities added from left to right in the order of the purchases; the
    cost that goes with it is not below zero, or is NULL where the
    computation of the cost went over the largest number. *)
Theorem custo_medio_ponderado :
  (forall (agora : timestamp) (nome : string) (l : list (Q * Q)) (s : db Q),
     l <> [] ->
     compras_validas l ->
     (forall i, In i (insumos s) -> insumo_nome i <> nome) ->
     exists S C : Q,
       estoque_e_custo nome (registrar_compras agora nome l s)
         = Some (Some S, Some C)
       /\ (S == soma_qtd l)%Q
       /\ (C == soma_valor l / soma_qtd l)%Q
       /\ forall l', Permutation l l' ->
            exists S' C' : Q,
              estoque_e_custo nome (registrar_compras agora nome l' s)
                = Some (Some S', Some C')
              /\ (S' == S)%Q /\ (C' == C)%Q)
  /\ (forall (agora : timestamp) (nome : string) (q1 p1 : float)
        (l : list (float * float)) (s : db float),
        (forall i, In i (insumos s) -> insumo_nome i <> nome) ->
        (0 <? q1)%float = true -> (0 <? p1)%float = true ->
        Forall (fun c => (0 <? fst c)%float = true /\ (0 <? snd c)%float = true)
               l ->
        exists (S : float) (C : option float),
          estoque_e_custo nome
            (registrar_compras agora nome ((q1, p1) :: l) s)
            = Some (Some S, C)
          /\ S = fold_left PrimFloat.add (map fst l) q1
          /\ (0 <? S)%float = true
          /\ match C with
             | Some c => (0 <=? c)%float = true
             | None => True
             end).
Proof.
  split.
  - intros agora nome l s Hne Hl Hnone.
    destruct (compras_exatas_do_zero agora nome l s Hne Hl Hnone)
      as (S & C & Hrow & HS & HC).
    exists S, C. repeat split; try assumption.
    intros l' Hperm.
    assert (Hne' : l' <> []).
    { intros ->. apply Permutation_sym, Permutation_nil in Hperm.
      contradiction. }
    assert (Hl' : compras_validas l')
      by (unfold compras_validas; now rewrite <- Hperm).
    destruct (compras_exatas_do_zero agora nome l' s Hne' Hl' Hnone)
      as (S' & C' & Hrow' & HS' & HC').
    exists S', C'. split; [exact Hrow'|].
    rewrite HS', HC', HS, HC.
    rewrite (soma_qtd_perm _ _ Hperm), (soma_valor_perm _ _ Hperm).
    split; reflexivity.
  - intros agora nome q1 p1 l s Hnone Hq1 Hp1 Hl.
    apply find_nome_none in Hnone.
    change (registrar_compras agora nome ((q1, p1) :: l) s)
      with (registrar_compras agora nome l
              (fst (registrar_compra_db agora nome q1 p1 s))).
    rewrite (registrar_compra_db_novo agora nome q1 p1 q1 p1 s
               (sql_real_binary64_pos q1 Hq1) (sql_real_binary64_pos p1 Hp1)
               Hnone).
    cbn [fst].
    set (s1 := com_insumos _ _ _).
    assert (Hi1 : insumo_de_nome nome s1 = Some (insumo_novo s nome q1 p1)).
    { unfold insumo_de_nome, s1. cbn [insumos com_insumos].
      now apply find_nome_app. }
    destruct (compras_binary64 agora nome l Hl s1 _ q1 Hi1 eq_refl
                (binary64_ltb_leb _ Hp1) Hq1)
      as (i2 & c2 & Hi2 & HS2 & HC2 & Hpos2 & Hc2).
    eexists. exists c2. unfold estoque_e_custo. rewrite Hi2, HS2, HC2.
    split; [reflexivity|]. split; [reflexivity|]. split; assumption.
Qed.

(** C10, as stated, fails on binary64: on a stock of 0.1 held at 0.1, both
    not below zero, a purchase of 0.1 at 0.1, both above zero, gives the
    average cost 0.10000000000000002, above both the old cost and the
    price. *)
Lemma custo_medio_acima_binary64 :
  let s := fst (registrar_compra_db 0 "sal" 0.1%float 0.1%float db_vazio) in
  estoque_e_custo "sal" s = Some (Some 0.1, Some 0.1)%float
  /\ (0 <=? 0.1)%float = true
  /\ (0 <? 0.1)%float = true
  /\ estoque_e_custo "sal"
       (fst (registrar_compra_db 1 "sal" 0.1%float 0.1%float s))
     = Some (Some 0.2, Some 0.10000000000000002)%float
  /\ (0.1 <? 0.10000000000000002)%float = true.
Proof. vm_compute. repeat split; reflexivity. Qed.

(** C10, amended.  A purchase with a quantity and a price above zero, on an
    ingredient stored with a stock and a cost not below zero, leaves a stock
    above zero and a cost not below zero: on binary64 and over the
    rationals.  On binary64 the cost is NULL, which the code reads as [0.0],
    where its computation went over the largest number and gave a NaN; and a
    cost that is NULL before the purchase is as good as one not below zero.
    Over the rationals, where no operation rounds, the new average cost lies
    between the lesser and the greater of the stored cost and the price. *)
Theorem custo_medio_entre :
  (forall (agora : timestamp) (nome : string) (quantidade preco_unit : float)
     (s : db float) (i : insumo float) (S0 : float),
     insumo_de_nome nome s = Some i ->
     estoque_qtd i = Some S0 ->
     (0 <=? S0)%float = true ->
     match custo_medio i with
     | Some C0 => (0 <=? C0)%float = true
     | None => True
     end ->
     (0 <? quantidade)%float = true -> (0 <? preco_unit)%float = true ->
     exists (S1 : float) (C1 : option float),
       estoque_e_custo nome
         (fst (registrar_compra_db agora nome quantidade preco_unit s))
         = Some (Some S1, C1)
       /\ (0 <? S1)%float = true
       /\ match C1 with
          | Some c => (0 <=? c)%float = true
          | None => True
          end)
  /\ (forall (agora : timestamp) (nome : string) (quantidade preco_unit : Q)
        (s : db Q) (i : insumo Q) (S0 C0 : Q),
        insumo_de_nome nome s = Some i ->
        estoque_qtd i = Some S0 ->
        custo_medio i = Some C0 ->
        (0 <= S0)%Q -> (0 <= C0)%Q ->
        (0 < quantidade)%Q -> (0 < preco_unit)%Q ->
        exists S1 C1 : Q,
          estoque_e_custo nome
            (fst (registrar_compra_db agora nome quantidade preco_unit s))
            = Some (Some S1, Some C1)
          /\ (0 < S1)%Q
          /\ (Qmin C0 preco_unit <= C1)%Q
          /\ (C1 <= Qmax C0 preco_unit)%Q
          /\ (0 <= C1)%Q).
Proof.
  split.
  - intros agora nome quantidade preco_unit s i S0 Hi HS HS0 HC0 Hq Hp.
    destruct (compra_binary64 agora nome quantidade preco_unit s i S0
                Hi HS HS0 HC0 Hq Hp)
      as (i1 & c1 & Hi1 & HS1 & HC1 & Hpos1 & Hc1).
    eexists. exists c1. unfold estoque_e_custo.
    rewrite Hi1, HS1, HC1. split; [reflexivity|]. split; assumption.
  - intros agora nome quantidade preco_unit s i S0 C0
           Hi HS HC HS0 HC0 Hq Hp.
    destruct (compra_exata agora nome quantidade preco_unit s i S0 C0
                Hi HS HC HS0 Hq)
      as (i1 & S1 & C1 & Hi1 & HS1 & HC1 & ES1 & EC1 & Hpos1).
    exists S1, C1. unfold estoque_e_custo. rewrite Hi1, HS1, HC1.
    split; [reflexivity|]. split; [exact Hpos1|].
    pose proof (Q.le_min_l C0 preco_unit) as Hm1.
    pose proof (Q.le_min_r C0 preco_unit) as Hm2.
    pose proof (Q.le_max_l C0 preco_unit) as HM1.
    pose proof (Q.le_max_r C0 preco_unit) as HM2.
    assert (Hm0 : (0 <= Qmin C0 preco_unit)%Q).
    { apply Q.min_glb; [exact HC0 | now apply Qlt_le_weak]. }
    set (m := Qmin C0 preco_unit) in *. set (M := Qmax C0 preco_unit) in *.
    clearbody m M.
    assert (Hlo : (m <= C1)%Q).
    { apply Qnot_lt_le. intros Hlt.
      assert ((C1 * S1 < m * S1)%Q) by (apply Qmult_lt_compat_r; assumption).
      assert ((m * S0 <= C0 * S0)%Q) by (apply Qmult_le_compat_r; assumption).
      assert ((m * quantidade <= preco_unit * quantidade)%Q)
        by (apply Qmult_le_compat_r; [assumption | now apply Qlt_le_weak]).
      rewrite ES1 in *. lra. }
    repeat split.
    + exact Hlo.
    + apply Qnot_lt_le. intros Hlt.
      assert ((M * S1 < C1 * S1)%Q) by (apply Qmult_lt_compat_r; assumption).
      assert ((C0 * S0 <= M * S0)%Q) by (apply Qmult_le_compat_r; assumption).
      assert ((preco_unit * quantidade <= M * quantidade)%Q)
        by (apply Qmult_le_compat_r; [assumption | now apply Qlt_le_weak]).
      rewrite ES1 in *. lra.
    + now apply Qle_trans with m.
Qed.

(** ** The theorems at work on runs of the code *)

Lemma registrar_compra_db_custo_medio_witness :
  let i := {| insumo_id := 1; insumo_nome := "carne";
              categoria := Some ""%string; unidade := Some "un"%string;
              estoque_qtd := Some 10%float; custo_medio := Some 5%float |} in
  insumo_de_nome "carne" db_carne = Some i
  /\ PrimFloat.is_nan 10%float = false
  /\ (exists (s' : db float) (e1 c1 : option float),
        registrar_compra_db 1 "carne" 10%float 10%float db_carne
          = (s', Ok (showinfo "Sucesso"
                              "Compra registrada e estoque atualizado!"))
        /\ insumo_de_nome "carne" s' =
             Some {| insumo_id := 1;
                     insumo_nome := "carne";
                     categoria := Some ""%string;
                     unidade := Some "un"%string;
                     estoque_qtd := e1;
                     custo_medio := c1 |}
        /\ guarda 20%float e1 /\ guarda 7.5%float c1
        /\ ((0 <? 20)%float = true ->
              (20 =? 0)%float = false /\
              truediv (10 * 5 + 10 * 10)%float 20%float = Ok 7.5%float)
        /\ ((20 =? 0)%float = true -> 7.5%float = 10%float))
  /\ (PrimFloat.is_nan 10%float = true \/ PrimFloat.is_nan nan = true)
  /\ registrar_compra_db 1 "carne" 10%float nan db_carne
     = (db_carne, Raise IntegrityError).
Proof.
  intros i.
  assert (Hi : insumo_de_nome "carne" db_carne = Some i) by reflexivity.
  assert (Hq : PrimFloat.is_nan 10%float = false) by reflexivity.
  assert (Hn : PrimFloat.is_nan 10%float = true \/ PrimFloat.is_nan nan = true)
    by (right; reflexivity).
  split; [exact Hi|]. split; [exact Hq|].
  split; [exact (proj1 (registrar_compra_db_custo_medio 1 "carne" 10%float
                          10%float db_carne i Hi) Hq Hq)|].
  split; [exact Hn|].
  exact (proj2 (registrar_compra_db_custo_medio 1 "carne" 10%float nan
                  db_carne i Hi) Hn).
Defined.

(** The purchase of the witness, as it is stored: 20 in stock at 7.50. *)
Example registrar_compra_db_custo_medio_exemplo :
  estoque_e_custo "carne"
    (fst (registrar_compra_db 1 "carne" 10%float 10%float db_carne))
  = Some (Some 20, Some 7.5)%float.
Proof. vm_compute. reflexivity. Qed.


(** The sale of the witness, as it is stored. *)
Example registrar_venda_valores_exemplo :
  vendas (fst (registrar_venda 100 1 4 10%float 0.12%float db_lanche))
  = [{| venda_id := 1;
        venda_receita_id := 1;
        venda_quantidade := 4;
        preco_unit := 10%float;
        taxa_plataforma := 0.12%float;
        total_bruto := 40%float;
        custo_total := 0%float;
        lucro_liquido := 35.2%float;
        venda_data := Some 100 |}].
Proof. vm_compute. reflexivity. Qed.

(** C5, as stated, fails: two sales of 2^62 items each, which the sales
    recorder takes, are sale records that [_agg_vendas] does not count; the
    sum of their quantities leaves the 64-bit range and the statement
    fails. *)
Lemma agg_vendas_estouro :
  let s1 := fst (registrar_venda 100 1 (2 ^ 62) 10%float 0.12%float
                   db_lanche) in
  let s2 := fst (registrar_venda 101 1 (2 ^ 62) 10%float 0.12%float s1) in
  List.length (vendas s2) = 2%nat
  /\ _agg_vendas None None s2 = Raise OperationalError
  /\ load_relatorios_data 200 s2 = Raise OperationalError.
Proof. vm_compute. repeat split; reflexivity. Qed.

Lemma agg_vendas_conta_o_periodo_witness :
  let v := {| venda_id := 2; venda_receita_id := 1; venda_quantidade := 1;
              preco_unit := 10%float; taxa_plataforma := 0%float;
              total_bruto := 10%float; custo_total := 0%float;
              lucro_liquido := 10%float;
              venda_data := Some (86400 * 2 - 1) |} in
  0 <= 27200 < 86400
  /\ venda_data v = Some (86400 * 2 - 1)
  /\ exists rel rel',
       load_relatorios_data (86400 * 2 + 27200) db_vendido = Ok rel
       /\ load_relatorios_data (86400 * 2 + 27200) (mais_uma_venda v db_vendido)
          = Ok rel'
       /\ n_vendas (c_hoje rel') = n_vendas (c_hoje rel)
       /\ n_vendas (c_7 rel') = n_vendas (c_7 rel) + 1.
Proof.
  intros v.
  assert (Hs : 0 <= 27200 < 86400) by (split; [discriminate | reflexivity]).
  split; [exact Hs|]. split; [reflexivity|].
  eexists. eexists.
  assert (E : load_relatorios_data (86400 * 2 + 27200) db_vendido
              = Ok (0, 0, 0%float, 0%float, (1, 4, 40%float, 35.2%float),
                    (1, 4, 40%float, 35.2%float),
                    (1, 4, 40%float, 35.2%float)))
    by (vm_compute; reflexivity).
  assert (E' : load_relatorios_data (86400 * 2 + 27200)
                 (mais_uma_venda v db_vendido)
               = Ok (0, 0, 0%float, 0%float, (2, 5, 50%float, 45.2%float),
                     (2, 5, 50%float, 45.2%float),
                     (2, 5, 50%float, 45.2%float)))
    by (vm_compute; reflexivity).
  split; [exact E|]. split; [exact E'|].
  exact (proj2 (proj2 (proj2 (agg_vendas_conta_o_periodo db_vendido)))
           2 27200 v _ _ Hs eq_refl E E').
Defined.

Lemma agg_vendas_sem_vendas_witness :
  (forall v, In v (vendas db_vendido) -> ~ dentro (Some 200) (Some 300) v)
  /\ _agg_vendas (Some 200) (Some 300) db_vendido
     = Ok (0, 0, 0%float, 0%float).
Proof.
  assert (Hnone : forall v, In v (vendas db_vendido) ->
                            ~ dentro (Some 200) (Some 300) v).
  { intros v Hin [Hini _]. vm_compute in Hin.
    destruct Hin as [<-|[]].
    destruct (Hini 200 eq_refl) as [d [Hd Hle]].
    injection Hd as <-. now apply Hle. }
  split; [exact Hnone|].
  exact (agg_vendas_sem_vendas (Some 200) (Some 300) db_vendido Hnone).
Defined.

Lemma verify_user_compara_o_hash_witness :
  let u := {| usuario_id := 1; username := "admin";
              password_hash :=
                "8c6976e5b5410415bde908bd4dee15dfb167a9c873fc4bb8a81f6f2ab448a918" |} in
  let s : db float := com_usuarios [u] 1 db_vazio in
  NoDup (map username (usuarios s))
  /\ In u (usuarios s)
  /\ verify_user "admin" "admin" s = true
  /\ verify_user "admin" "1234" s = false
  /\ (forall w, In w (usuarios s) -> username w <> "root"%string)
  /\ verify_user "root" "admin" s = false.
Proof.
  intros u s.
  assert (Hnd : NoDup (map username (usuarios s))).
  { constructor; [intros [] | constructor]. }
  assert (Hin : In u (usuarios s)) by (left; reflexivity).
  assert (Hroot : forall w, In w (usuarios s) -> username w <> "root"%string).
  { intros w [<-|[]]. discriminate. }
  split; [exact Hnd|]. split; [exact Hin|]. split; [|split; [|split]].
  - apply (proj1 (proj2 (verify_user_compara_o_hash "admin" "admin" s))
             u Hnd Hin eq_refl).
    exact (proj2 (proj2 (proj2 (proj2 (proj2
             (verify_user_compara_o_hash "admin" "admin" s)))))).
  - destruct (verify_user "admin" "1234" s) eqn:E; [|reflexivity].
    apply (proj1 (proj2 (verify_user_compara_o_hash "admin" "1234" s))
             u Hnd Hin eq_refl) in E.
    vm_compute in E. discriminate E.
  - exact Hroot.
  - exact (proj1 (verify_user_compara_o_hash "root" "admin" s) Hroot).
Defined.

Lemma custo_medio_ponderado_witness :
  ([(10, 5); (10, 10)]%Q <> []
   /\ compras_validas [(10, 5); (10, 10)]%Q
   /\ (forall i, In i (insumos (@db_vazio Q)) ->
                 insumo_nome i <> "carne"%string)
   /\ exists S C : Q,
        estoque_e_custo "carne"
          (registrar_compras 0 "carne" [(10, 5); (10, 10)]%Q db_vazio)
          = Some (Some S, Some C)
        /\ (S == soma_qtd [(10, 5); (10, 10)])%Q
        /\ (C == soma_valor [(10, 5); (10, 10)]
                 / soma_qtd [(10, 5); (10, 10)])%Q
        /\ forall l', Permutation [(10, 5); (10, 10)]%Q l' ->
             exists S' C' : Q,
               estoque_e_custo "carne"
                 (registrar_compras 0 "carne" l' db_vazio)
                 = Some (Some S', Some C')
               /\ (S' == S)%Q /\ (C' == C)%Q)
  /\ ((forall i, In i (insumos (@db_vazio float)) ->
                 insumo_nome i <> "sal"%string)
      /\ (0 <? 0.1)%float = true /\ (0 <? 1)%float = true
      /\ Forall (fun c => (0 <? fst c)%float = true /\ (0 <? snd c)%float = true)
                [(0.2, 1); (0.3, 1)]%float
      /\ exists (S : float) (C : option float),
           estoque_e_custo "sal"
             (registrar_compras 0 "sal"
                ((0.1, 1) :: [(0.2, 1); (0.3, 1)])%float db_vazio)
             = Some (Some S, C)
           /\ S = fold_left PrimFloat.add
                    (map fst [(0.2, 1); (0.3, 1)]%float) 0.1%float
           /\ (0 <? S)%float = true
           /\ match C with
              | Some c => (0 <=? c)%float = true
              | None => True
              end).
Proof.
  assert (Hne : [(10, 5); (10, 10)]%Q <> []) by discriminate.
  assert (Hl : compras_validas [(10, 5); (10, 10)]%Q)
    by (repeat constructor).
  assert (Hnone : forall i, In i (insumos (@db_vazio Q)) ->
                            insumo_nome i <> "carne"%string)
    by (intros i []).
  assert (Hnone' : forall i, In i (insumos (@db_vazio float)) ->
                             insumo_nome i <> "sal"%string)
    by (intros i []).
  assert (Hq1 : (0 <? 0.1)%float = true) by reflexivity.
  assert (Hp1 : (0 <? 1)%float = true) by reflexivity.
  assert (Hl' : Forall (fun c => (0 <? fst c)%float = true
                                 /\ (0 <? snd c)%float = true)
                       [(0.2, 1); (0.3, 1)]%float)
    by (repeat constructor).
  split.
  - split; [exact Hne|]. split; [exact Hl|]. split; [exact Hnone|].
    exact (proj1 custo_medio_ponderado 0 "carne"%string [(10, 5); (10, 10)]%Q
             db_vazio Hne Hl Hnone).
  - split; [exact Hnone'|]. split; [exact Hq1|]. split; [exact Hp1|].
    split; [exact Hl'|].
    exact (proj2 custo_medio_ponderado 0 "sal"%string 0.1%float 1%float
             [(0.2, 1); (0.3, 1)]%float db_vazio Hnone' Hq1 Hp1 Hl').
Defined.

Lemma custo_medio_entre_witness :
  let i := {| insumo_id := 1; insumo_nome := "carne";
              categoria := Some ""%string; unidade := Some "un"%string;
              estoque_qtd := Some 10%float; custo_medio := Some 5%float |} in
  let j := {| insumo_id := 1; insumo_nome := "carne";
              categoria := Some ""%string; unidade := Some "un"%string;
              estoque_qtd := Some 10%Q; custo_medio := Some 5%Q |} in
  (insumo_de_nome "carne" db_carne = Some i
   /\ (0 <=? 10)%float = true /\ (0 <=? 5)%float = true
   /\ (0 <? 10)%float = true
   /\ exists (S1 : float) (C1 : option float),
        estoque_e_custo "carne"
          (fst (registrar_compra_db 1 "carne" 10%float 10%float db_carne))
          = Some (Some S1, C1)
        /\ (0 <? S1)%float = true
        /\ match C1 with
           | Some c => (0 <=? c)%float = true
           | None => True
           end)
  /\ (insumo_de_nome "carne" db_carne_exato = Some j
      /\ exists S1 C1 : Q,
           estoque_e_custo "carne"
             (fst (registrar_compra_db 1 "carne" 10%Q 10%Q db_carne_exato))
             = Some (Some S1, Some C1)
           /\ (0 < S1)%Q
           /\ (Qmin 5 10 <= C1)%Q
           /\ (C1 <= Qmax 5 10)%Q
           /\ (0 <= C1)%Q).
Proof.
  intros i j.
  assert (Hi : insumo_de_nome "carne" db_carne = Some i) by reflexivity.
  assert (Hj : insumo_de_nome "carne" db_carne_exato = Some j) by reflexivity.
  assert (HS0 : (0 <=? 10)%float = true) by reflexivity.
  assert (HC0 : (0 <=? 5)%float = true) by reflexivity.
  assert (Hq : (0 <? 10)%float = true) by reflexivity.
  split.
  - split; [exact Hi|]. split; [exact HS0|]. split; [exact HC0|].
    split; [exact Hq|].
    exact (proj1 custo_medio_entre 1 "carne"%string 10%float 10%float db_carne i
             10%float Hi eq_refl HS0 HC0 Hq Hq).
  - split; [exact Hj|].
    refine (proj2 custo_medio_entre 1 "carne"%string 10%Q 10%Q db_carne_exato j
              10%Q 5%Q Hj eq_refl eq_refl _ _ _ _);
      [discriminate | discriminate | reflexivity | reflexivity].
Defined.

(** ** The schema is kept *)

Section Schema.

Context {F : Type} `{PyFloat F}.

Lemma fold_left_max_le (ids : list Z) (seq : Z) :
  seq <= fold_left Z.max ids seq
  /\ Forall (fun id => id <= fold_left Z.max ids seq) ids.
Proof.
  revert seq. induction ids as [|a ids IH]; intros seq; simpl.
  - split; [lia | constructor].
  - destruct (IH (Z.max seq a)) as [H1 H2]. split; [lia|].
    constructor; [lia | exact H2].
Qed.

Lemma next_rowid_gt (ids : list Z) (seq : Z) :
  seq < next_rowid seq ids /\ Forall (fun id => id < next_rowid seq ids) ids.
Proof.
  unfold next_rowid. destruct (fold_left_max_le ids seq) as [H1 H2].
  split; [lia|]. eapply Forall_impl; [|exact H2]. simpl. intros; lia.
Qed.

Lemma StronglySorted_snoc (ids : list Z) (x : Z) :
  StronglySorted Z.lt ids -> Forall (fun id => id < x) ids ->
  StronglySorted Z.lt (ids ++ [x]).
Proof.
  induction 1 as [|a ids Hs IH Ha]; intros Hx; simpl.
  - repeat constructor.
  - inversion Hx as [|? ? Hax Hx']; subst. constructor; [now apply IH|].
    apply Forall_app. split; [exact Ha | now constructor].
Qed.

Lemma rowids_ok_snoc (ids : list Z) (seq : Z) :
  rowids_ok ids seq ->
  rowids_ok (ids ++ [next_rowid seq ids]) (next_rowid seq ids).
Proof.
  intros [Hs Hle]. destruct (next_rowid_gt ids seq) as [H1 H2]. split.
  - now apply StronglySorted_snoc.
  - apply Forall_app. split.
    + eapply Forall_impl; [|exact H2]. simpl. intros; lia.
    + repeat constructor. lia.
Qed.

Lemma rowids_ok_filter {A : Type} (f : A -> Z) (p : A -> bool)
    (l : list A) (seq : Z) :
  rowids_ok (map f l) seq -> rowids_ok (map f (filter p l)) seq.
Proof.
  intros [Hs Hle]. split.
  - induction l as [|a l IH]; simpl in *; [constructor|].
    inversion Hs as [|? ? Hs' Ha]; subst.
    inversion Hle as [|? ? _ Hle']; subst.
    destruct (p a); simpl; [|now apply IH].
    constructor; [now apply IH|].
    rewrite Forall_forall in *. intros x Hx. apply Ha.
    apply in_map_iff in Hx. destruct Hx as [y [<- Hy]].
    apply filter_In in Hy. apply in_map. tauto.
  - rewrite Forall_forall in *. intros x Hx. apply Hle.
    apply in_map_iff in Hx. destruct Hx as [y [<- Hy]].
    apply filter_In in Hy. apply in_map. tauto.
Qed.

Lemma StronglySorted_lt_NoDup (ids : list Z) :
  StronglySorted Z.lt ids -> NoDup ids.
Proof.
  induction 1 as [|a ids Hs IH Ha]; constructor; [|exact IH].
  intros Hin. rewrite Forall_forall in Ha. specialize (Ha a Hin). lia.
Qed.

Lemma NoDup_map_filter {Linha Chave : Type} (coluna : Linha -> Chave)
    (fica : Linha -> bool) (linhas : list Linha) :
  NoDup (map coluna linhas) -> NoDup (map coluna (filter fica linhas)).
Proof.
  induction linhas as [|a l IH]; simpl; intros Hnd; [constructor|].
  inversion Hnd as [|? ? Hnotin Hnd']; subst.
  destruct (fica a); simpl; [|now apply IH].
  constructor; [|now apply IH].
  intros Hin. apply Hnotin. apply in_map_iff in Hin.
  destruct Hin as [y [<- Hy]]. apply filter_In in Hy. apply in_map. tauto.
Qed.

Lemma NoDup_map_snoc {A B : Type} (f : A -> B) (l : list A) (x : A) :
  NoDup (map f l) -> ~ In (f x) (map f l) -> NoDup (map f (l ++ [x])).
Proof.
  intros Hnd Hx. rewrite map_app. simpl.
  apply NoDup_app; [exact Hnd | repeat constructor; intros [] |].
  intros y Hy [<-|[]]. contradiction.
Qed.

(** A change of the rows of one id that keeps the ids and gives the name
    [nome], where no row of another id bears [nome], keeps the names apart. *)
Lemma NoDup_nome_update {A : Type} (id_of : A -> Z) (nome_of : A -> string)
    (g : A -> A) (id : Z) (nome : string) (l : list A) :
  (forall a, id_of a = id -> nome_of (g a) = nome) ->
  (forall a, id_of a <> id -> g a = a) ->
  NoDup (map id_of l) -> NoDup (map nome_of l) ->
  (forall a, In a l -> id_of a <> id -> nome_of a <> nome) ->
  NoDup (map nome_of (map g l)).
Proof.
  intros Hg1 Hg2. induction l as [|a l IH]; simpl; intros Hid Hnd Hother;
    [constructor|].
  inversion Hid as [|? ? Hida Hid']; subst.
  inversion Hnd as [|? ? Hnda Hnd']; subst.
  constructor.
  - rewrite in_map_iff. intros [b' [Eb' Hb']].
    apply in_map_iff in Hb'. destruct Hb' as [b [<- Hb]].
    destruct (Z.eq_dec (id_of a) id) as [Ea|Na];
      destruct (Z.eq_dec (id_of b) id) as [Eb|Nb].
    + apply Hida. rewrite Ea, <- Eb. now apply in_map.
    + rewrite (Hg2 b Nb) in Eb'. rewrite (Hg1 a Ea) in Eb'.
      apply (Hother b (or_intror Hb) Nb). exact Eb'.
    + rewrite (Hg1 b Eb), (Hg2 a Na) in Eb'.
      apply (Hother a (or_introl eq_refl) Na). now symmetry.
    + rewrite (Hg2 b Nb), (Hg2 a Na) in Eb'.
      apply Hnda. rewrite <- Eb'. now apply in_map.
  - apply IH; try assumption. intros b Hb. apply Hother. now right.
Qed.

Lemma existsb_false_forall {A : Type} (p : A -> bool) (l : list A) :
  existsb p l = false -> forall a, In a l -> p a = false.
Proof.
  intros He a Ha. destruct (p a) eqn:E; [|reflexivity].
  assert (existsb p l = true) by (apply existsb_exists; eauto). congruence.
Qed.

Lemma map_id_identity {A : Type} (g : A -> A) (l : list A) :
  (forall a, In a l -> g a = a) -> map g l = l.
Proof.
  induction l as [|a l IH]; simpl; intros Hg; [reflexivity|].
  rewrite Hg by now left. f_equal. apply IH. intros b Hb. apply Hg. now right.
Qed.

(** *** One table replaced *)

Lemma bem_formado_com_compras (l : list (compra F)) (seq : Z) (s : db F) :
  bem_formado s -> rowids_ok (map compra_id l) seq ->
  bem_formado (com_compras l seq s).
Proof. intros [] Hl. constructor; assumption. Qed.

Lemma bem_formado_com_insumos (l : list (insumo F)) (seq : Z) (s : db F) :
  bem_formado s -> rowids_ok (map insumo_id l) seq ->
  NoDup (map insumo_nome l) ->
  bem_formado (com_insumos l seq s).
Proof. intros [] Hl Hn. constructor; assumption. Qed.

Lemma bem_formado_com_vendas (l : list (venda F)) (seq : Z) (s : db F) :
  bem_formado s -> rowids_ok (map venda_id l) seq ->
  Forall (fun v => In (venda_receita_id v) (map receita_id (receitas s))) l ->
  bem_formado (com_vendas l seq s).
Proof. intros [] Hl Hfk. constructor; assumption. Qed.

Lemma bem_formado_com_receitas (l : list (receita F)) (seq : Z) (s : db F) :
  bem_formado s -> rowids_ok (map receita_id l) seq ->
  NoDup (map receita_nome l) ->
  Forall (fun v => In (venda_receita_id v) (map receita_id l)) (vendas s) ->
  bem_formado (com_receitas l seq s).
Proof. intros [] Hl Hn Hfk. constructor; assumption. Qed.

Lemma bem_formado_com_usuarios (l : list usuario) (seq : Z) (s : db F) :
  bem_formado s -> rowids_ok (map usuario_id l) seq ->
  NoDup (map username l) ->
  bem_formado (com_usuarios l seq s).
Proof. intros [] Hl Hn. constructor; assumption. Qed.

Lemma bem_formado_vazio : bem_formado (@db_vazio F).
Proof.
  constructor; simpl; try (split; constructor); constructor.
Qed.

End Schema.

Section SchemaKept.

Context {F : Type} `{PyFloat F}.

Lemma set_cadastro_id nome cat un id (i : insumo F) :
  insumo_id (set_cadastro nome cat un id i) = insumo_id i.
Proof. unfold set_cadastro. now destruct (insumo_id i =? id). Qed.

Lemma set_estoque_id e c id (i : insumo F) :
  insumo_id (set_estoque e c id i) = insumo_id i.
Proof. unfold set_estoque. now destruct (insumo_id i =? id). Qed.

Lemma set_receita_id nome preco id (r : receita F) :
  receita_id (set_receita nome preco id r) = receita_id r.
Proof. unfold set_receita. now destruct (receita_id r =? id). Qed.

Lemma map_map_same {A B : Type} (f : A -> B) (g : A -> A) (l : list A) :
  (forall a, f (g a) = f a) -> map f (map g l) = map f l.
Proof.
  intros Hg. rewrite map_map. apply map_ext. exact Hg.
Qed.

Lemma insumo_de_nome_none_notin nome (s : db F) :
  insumo_de_nome nome s = None -> ~ In nome (map insumo_nome (insumos s)).
Proof.
  unfold insumo_de_nome. intros Hn Hin.
  apply in_map_iff in Hin. destruct Hin as [i [Hi Hin]].
  pose proof (find_none _ _ Hn i Hin) as E. simpl in E.
  rewrite Hi, String.eqb_refl in E. discriminate.
Qed.

Lemma bem_formado_init_db (s : db F) :
  bem_formado s -> bem_formado (init_db s).
Proof.
  intros Hs. unfold init_db.
  destruct (usuarios s) as [|u l] eqn:Eu; simpl; [|exact Hs].
  apply bem_formado_com_usuarios; [exact Hs | |].
  - apply (rowids_ok_snoc [] (seq_usuarios s)). split; constructor.
  - repeat constructor. intros [].
Qed.

Lemma bem_formado_insert_insumo nome cat un (e c : option F) (s : db F) :
  bem_formado s ->
  match insert_insumo nome cat un e c s with
  | Ok (_, s') => bem_formado s'
  | Raise _ => True
  end.
Proof.
  intros Hs. unfold insert_insumo.
  destruct (insumo_de_nome nome s) eqn:En; [exact I|].
  apply bem_formado_com_insumos; [exact Hs | |].
  - rewrite map_app. apply rowids_ok_snoc. apply Hs.
  - apply NoDup_map_snoc; [apply Hs|].
    now apply insumo_de_nome_none_notin.
Qed.

Lemma bem_formado_add_produto nome cat un (s : db F) :
  bem_formado s -> bem_formado (fst (add_produto nome cat un s)).
Proof.
  intros Hs. unfold add_produto, commit_or_close.
  pose proof (bem_formado_insert_insumo nome cat un (Some fzero) (Some fzero)
                s Hs) as Hi.
  destruct (insert_insumo nome cat un (Some fzero) (Some fzero) s)
    as [[u s']|e]; [exact Hi|].
  now destruct e.
Qed.

Lemma bem_formado_update_insumo_db id nome cat un (s : db F) :
  bem_formado s -> bem_formado (fst (update_insumo_db id nome cat un s)).
Proof.
  intros Hs. unfold update_insumo_db, commit_or_close, update_cadastro.
  destruct (existsb (fun i => insumo_id i =? id) (insumos s)) eqn:Em;
    cbn [andb].
  - destruct (existsb (fun i => negb (insumo_id i =? id)
                                && String.eqb (insumo_nome i) nome)
                      (insumos s)) eqn:Eo; [exact Hs|]. cbn [fst].
    apply bem_formado_com_insumos; [exact Hs | |].
    + rewrite (map_map_same insumo_id); [apply Hs|].
      intros a. apply set_cadastro_id.
    + apply (NoDup_nome_update insumo_id insumo_nome _ id nome).
      * intros a Ea. unfold set_cadastro.
        apply Z.eqb_eq in Ea. now rewrite Ea.
      * intros a Na. unfold set_cadastro.
        apply Z.eqb_neq in Na. now rewrite Na.
      * apply StronglySorted_lt_NoDup, Hs.
      * apply Hs.
      * intros a Ha Na En.
        pose proof (existsb_false_forall _ _ Eo a Ha) as E. simpl in E.
        apply Z.eqb_neq in Na. rewrite Na, En, String.eqb_refl in E.
        discriminate.
  - cbn [fst]. rewrite map_id_identity; [now destruct s|].
    intros a Ha. pose proof (existsb_false_forall _ _ Em a Ha) as E.
    simpl in E. unfold set_cadastro. now rewrite E.
Qed.

Lemma bem_formado_delete_insumo_db id (s : db F) :
  bem_formado s -> bem_formado (fst (delete_insumo_db id s)).
Proof.
  intros Hs. cbn [fst delete_insumo_db].
  apply bem_formado_com_insumos; [exact Hs | |].
  - apply rowids_ok_filter, Hs.
  - apply NoDup_map_filter, Hs.
Qed.

Lemma bem_formado_delete_compra_db id (s : db F) :
  bem_formado s -> bem_formado (fst (delete_compra_db id s)).
Proof.
  intros Hs. cbn.
  apply bem_formado_com_compras; [exact Hs|].
  apply rowids_ok_filter, Hs.
Qed.

Lemma bem_formado_registrar_compra_db agora nome (q p : F) (s : db F) :
  bem_formado s -> bem_formado (fst (registrar_compra_db agora nome q p s)).
Proof.
  intros Hs.
  unfold registrar_compra_db, commit_or_close, bind, insert_compra.
  destruct (sql_real q) as [q'|]; [|exact Hs].
  destruct (sql_real p) as [p'|]; [|exact Hs].
  assert (Hc : bem_formado
                 (com_compras (compras s ++ [compra_nova s agora nome q' p'])
                    (compra_id (compra_nova s agora nome q' p')) s)).
  { apply bem_formado_com_compras; [exact Hs|].
    rewrite map_app. apply rowids_ok_snoc. apply Hs. }
  unfold select_insumo, update_insumo, ret.
  fold (compra_nova s agora nome q' p').
  set (s1 := com_compras _ _ s) in *.
  destruct (insumo_de_nome nome s1) as [i|] eqn:Ei.
  - set (S0 := float_or_0 (estoque_qtd i)).
    set (C0 := float_or_0 (custo_medio i)).
    assert (Hup : forall E1 C1, bem_formado
               (com_insumos (map (set_estoque E1 C1 (insumo_id i))
                                 (insumos s1)) (seq_insumos s1) s1)).
    { intros E1 C1. apply bem_formado_com_insumos; [exact Hc | |].
      - rewrite (map_map_same insumo_id); [apply Hc|].
        intros a. apply set_estoque_id.
      - rewrite (map_map_same insumo_nome); [apply Hc|].
        intros a. apply set_estoque_nome. }
    destruct (fltb fzero (S0 + q)%py).
    + unfold lift, truediv.
      destruct (feqb (S0 + q)%py fzero); cbn; [exact Hs | apply Hup].
    + cbn. apply Hup.
  - pose proof (bem_formado_insert_insumo nome "" "un" (Some q') (Some p')
                  s1 Hc) as Hi.
    destruct (insert_insumo nome "" "un" (Some q') (Some p') s1)
      as [[u s']|e]; cbn; [exact Hi | exact Hs].
Qed.

Lemma bem_formado_add_receita nome (preco : F) (s : db F) :
  bem_formado s -> bem_formado (fst (add_receita nome preco s)).
Proof.
  intros Hs. unfold add_receita, commit_or_close, insert_receita.
  destruct (sql_real preco) as [preco'|]; [|exact Hs].
  destruct (existsb _ (receitas s)) eqn:Ee; [exact Hs|]. cbn [fst].
  apply bem_formado_com_receitas; [exact Hs | | |].
  - rewrite map_app. apply rowids_ok_snoc. apply Hs.
  - apply NoDup_map_snoc; [apply Hs|].
    intros Hin. apply in_map_iff in Hin. destruct Hin as [r [Er Hr]].
    pose proof (existsb_false_forall _ _ Ee r Hr) as E. simpl in E.
    simpl in Er. rewrite Er, String.eqb_refl in E. discriminate.
  - eapply Forall_impl; [|apply Hs]. simpl. intros v Hv.
    rewrite map_app. apply in_or_app. now left.
Qed.

Lemma bem_formado_update_receita_db id nome (preco : F) (s : db F) :
  bem_formado s -> bem_formado (fst (update_receita_db id nome preco s)).
Proof.
  intros Hs. unfold update_receita_db, commit_or_close, update_receita.
  destruct (existsb (fun r => receita_id r =? id) (receitas s)) eqn:Em;
    [|exact Hs].
  destruct (sql_real preco) as [preco'|]; [|exact Hs].
  - destruct (existsb (fun r => negb (receita_id r =? id)
                                && String.eqb (receita_nome r) nome)
                      (receitas s)) eqn:Eo; [exact Hs|]. cbn [fst].
    apply bem_formado_com_receitas; [exact Hs | | |].
    + rewrite (map_map_same receita_id); [apply Hs|].
      intros a. apply set_receita_id.
    + apply (NoDup_nome_update receita_id receita_nome _ id nome).
      * intros a Ea. unfold set_receita.
        apply Z.eqb_eq in Ea. now rewrite Ea.
      * intros a Na. unfold set_receita.
        apply Z.eqb_neq in Na. now rewrite Na.
      * apply StronglySorted_lt_NoDup, Hs.
      * apply Hs.
      * intros a Ha Na En.
        pose proof (existsb_false_forall _ _ Eo a Ha) as E. simpl in E.
        apply Z.eqb_neq in Na. rewrite Na, En, String.eqb_refl in E.
        discriminate.
    + rewrite (map_map_same receita_id); [apply Hs|].
      intros a. apply set_receita_id.
Qed.

Lemma bem_formado_delete_receita_db id (s : db F) :
  bem_formado s -> bem_formado (fst (delete_receita_db id s)).
Proof.
  intros Hs. cbn [fst delete_receita_db].
  set (lv := if existsb (fun r => receita_id r =? id) (receitas s)
             then filter (fun v => negb (venda_receita_id v =? id)) (vendas s)
             else vendas s).
  assert (Hfk : Forall (fun v => In (venda_receita_id v)
                   (map receita_id
                      (filter (fun r => negb (receita_id r =? id))
                              (receitas s)))) lv).
  { apply Forall_forall. intros v Hv.
    assert (Hin : In v (vendas s) /\ venda_receita_id v <> id).
    { unfold lv in Hv.
      destruct (existsb (fun r => receita_id r =? id) (receitas s)) eqn:Ee.
      - apply filter_In in Hv. destruct Hv as [Hv Hne]. split; [exact Hv|].
        now apply negb_true_iff, Z.eqb_neq in Hne.
      - split; [exact Hv|]. intros E.
        pose proof (proj1 (Forall_forall _ _) (bf_vendas_receita s Hs) v Hv)
          as Hr.
        apply in_map_iff in Hr. destruct Hr as [r [Er Hr]].
        pose proof (existsb_false_forall _ _ Ee r Hr) as Ef. simpl in Ef.
        apply Z.eqb_neq in Ef. congruence. }
    clear Hv. destruct Hin as [Hv Hne].
    pose proof (proj1 (Forall_forall _ _) (bf_vendas_receita s Hs) v Hv)
      as Hr.
    apply in_map_iff in Hr. destruct Hr as [r [Er Hr]].
    apply in_map_iff. exists r. split; [exact Er|].
    apply filter_In. split; [exact Hr|].
    apply negb_true_iff, Z.eqb_neq. congruence. }
  assert (Hids : rowids_ok (map venda_id lv) (seq_vendas s)).
  { unfold lv. destruct (existsb _ (receitas s));
      [apply rowids_ok_filter|]; apply Hs. }
  destruct Hs. constructor; cbn; try assumption.
  - now apply rowids_ok_filter.
  - now apply NoDup_map_filter.
Qed.

End SchemaKept.

Section SchemaTheorem.

Context {F : Type} `{PyFloat F}.

Lemma bem_formado_registrar_venda agora rid q (p t : F) (s : db F) :
  bem_formado s -> bem_formado (fst (registrar_venda agora rid q p t s)).
Proof.
  intros Hs. unfold registrar_venda, commit_or_close, bind, lift,
    insert_venda, ret.
  destruct (float_of_int q) as [fq|e]; [|exact Hs].
  destruct (int64 rid && int64 q); cbn [negb]; [|exact Hs].
  destruct (sql_real p) as [p'|]; [|exact Hs].
  destruct (sql_real t) as [t'|]; [|exact Hs].
  destruct (sql_real _) as [b'|]; [|exact Hs].
  destruct (sql_real _) as [c'|]; [|exact Hs].
  destruct (sql_real _) as [l'|]; [|exact Hs].
  destruct (existsb (fun r => receita_id r =? rid) (receitas s)) eqn:Er;
    cbn [negb fst]; [|exact Hs].
  apply bem_formado_com_vendas; [exact Hs | |].
  - rewrite map_app. apply rowids_ok_snoc. apply Hs.
  - apply Forall_app. split; [apply Hs|]. repeat constructor. cbn.
    apply existsb_exists in Er. destruct Er as [r [Hr Er]].
    apply Z.eqb_eq in Er. rewrite <- Er. now apply in_map.
Qed.

Lemma bem_formado_delete_venda_db id (s : db F) :
  bem_formado s -> bem_formado (fst (delete_venda_db id s)).
Proof.
  intros Hs. cbn [fst delete_venda_db].
  apply bem_formado_com_vendas; [exact Hs | |].
  - apply rowids_ok_filter, Hs.
  - apply Forall_forall. intros v Hv. apply filter_In in Hv.
    exact (proj1 (Forall_forall _ _) (bf_vendas_receita s Hs) v (proj1 Hv)).
Qed.

Lemma bem_formado_executar (o : operacao F) (s : db F) :
  bem_formado s -> bem_formado (executar o s).
Proof.
  intros Hs. destruct o; cbn [executar].
  - now apply bem_formado_init_db.
  - now apply bem_formado_add_produto.
  - now apply bem_formado_update_insumo_db.
  - now apply bem_formado_delete_insumo_db.
  - now apply bem_formado_registrar_compra_db.
  - now apply bem_formado_delete_compra_db.
  - now apply bem_formado_add_receita.
  - now apply bem_formado_update_receita_db.
  - now apply bem_formado_delete_receita_db.
  - now apply bem_formado_registrar_venda.
  - now apply bem_formado_delete_venda_db.
Qed.

Lemma bem_formado_alcancavel (s : db F) : alcancavel s -> bem_formado s.
Proof.
  induction 1 as [|o s _ IH];
    [apply bem_formado_vazio | now apply bem_formado_executar].
Qed.

(** X1.  Whatever sequence of back-end calls is made on the empty database,
    with whatever arguments, the result keeps what the schema declares: in
    every table the ids are distinct, in rowid order and not above the
    AUTOINCREMENT counter; the names of the ingredients, of the recipes and
    of the users are distinct; and every sale refers to a recipe that
    exists. *)
Theorem esquema_mantido (s : db F) :
  alcancavel s ->
  (rowids_ok (map insumo_id (insumos s)) (seq_insumos s)
   /\ rowids_ok (map receita_id (receitas s)) (seq_receitas s)
   /\ rowids_ok (map venda_id (vendas s)) (seq_vendas s)
   /\ rowids_ok (map compra_id (compras s)) (seq_compras s)
   /\ rowids_ok (map usuario_id (usuarios s)) (seq_usuarios s))
  /\ (NoDup (map insumo_nome (insumos s))
      /\ NoDup (map receita_nome (receitas s))
      /\ NoDup (map username (usuarios s)))
  /\ (forall v, In v (vendas s) ->
        exists r, In r (receitas s) /\ receita_id r = venda_receita_id v).
Proof.
  intros Ha. destruct (bem_formado_alcancavel s Ha).
  repeat split; try assumption; try (now apply bf_insumos0);
    try (now apply bf_receitas0); try (now apply bf_vendas0);
    try (now apply bf_compras0); try (now apply bf_usuarios0).
  intros v Hv.
  pose proof (proj1 (Forall_forall _ _) bf_vendas_receita0 v Hv) as Hin.
  apply in_map_iff in Hin. destruct Hin as [r [Er Hr]]. now exists r.
Qed.

End SchemaTheorem.

(** ** The catalog: names, ids, edits and deletions *)

Section CatalogTheorems.

Context {F : Type} `{PyFloat F}.

Lemma com_insumos_same (s : db F) :
  com_insumos (insumos s) (seq_insumos s) s = s.
Proof. now destruct s. Qed.

Lemma com_receitas_same (s : db F) :
  com_receitas (receitas s) (seq_receitas s) s = s.
Proof. now destruct s. Qed.

Lemma com_vendas_same (s : db F) :
  com_vendas (vendas s) (seq_vendas s) s = s.
Proof. now destruct s. Qed.

Lemma com_compras_same (s : db F) :
  com_compras (compras s) (seq_compras s) s = s.
Proof. now destruct s. Qed.

Lemma filter_all {A : Type} (p : A -> bool) (l : list A) :
  (forall a, In a l -> p a = true) -> filter p l = l.
Proof.
  induction l as [|a l IH]; simpl; intros Hp; [reflexivity|].
  rewrite Hp by now left. f_equal. apply IH. intros b Hb. apply Hp. now right.
Qed.

Lemma insumo_de_nome_some nome (s : db F) :
  (exists i, In i (insumos s) /\ insumo_nome i = nome) ->
  exists j, insumo_de_nome nome s = Some j.
Proof.
  intros [i [Hi En]]. unfold insumo_de_nome.
  destruct (find _ (insumos s)) as [j|] eqn:E; [now exists j|].
  pose proof (find_none _ _ E i Hi) as Ef. simpl in Ef.
  rewrite En, String.eqb_refl in Ef. discriminate.
Qed.

Lemma find_nome_app_other nome (l : list (insumo F)) (r : insumo F) :
  insumo_nome r <> nome ->
  find (fun i => String.eqb (insumo_nome i) nome) (l ++ [r])
  = find (fun i => String.eqb (insumo_nome i) nome) l.
Proof.
  intros Hr. induction l as [|a l IH]; simpl.
  - apply String.eqb_neq in Hr. now rewrite Hr.
  - destruct (String.eqb (insumo_nome a) nome); [reflexivity | exact IH].
Qed.

(** X2.  A name that is taken is refused: [add_produto] with the name of an
    ingredient, and [add_receita] with the name of a recipe, change nothing
    and answer with the warning of the duplicate. *)
Theorem nome_repetido_recusado
    (nome categoria unidade : string) (preco : F) (s : db F) :
  ((exists i, In i (insumos s) /\ insumo_nome i = nome) ->
     add_produto nome categoria unidade s
     = (s, Ok (showwarning "Atenção" "Este insumo já existe.")))
  /\ ((exists r, In r (receitas s) /\ receita_nome r = nome) ->
        add_receita nome preco s
        = (s, Ok (showwarning "Atenção"
                              "Já existe uma receita com esse nome."))).
Proof.
  split.
  - intros Hex. destruct (insumo_de_nome_some nome s Hex) as [j Hj].
    unfold add_produto, commit_or_close, insert_insumo. now rewrite Hj.
  - intros [r [Hr En]]. unfold add_receita, commit_or_close, insert_receita.
    destruct (sql_real preco) as [preco'|]; [|reflexivity].
    replace (existsb _ (receitas s)) with true; [reflexivity|].
    symmetry. apply existsb_exists. exists r. split; [exact Hr|].
    now apply String.eqb_eq.
Qed.

(** X3.  [add_produto] with a name that is free returns normally and appends
    the ingredient with stock 0 and average cost 0; the name is then found
    with these values, and every other name is found as before. *)
Theorem add_produto_novo (nome categoria_ unidade_ : string) (s : db F) :
  (forall i, In i (insumos s) -> insumo_nome i <> nome) ->
  exists (s' : db F) (id : Z),
    add_produto nome categoria_ unidade_ s
      = (s', Ok (showinfo "Sucesso" "Insumo adicionado com sucesso!"))
    /\ insumos s' = insumos s ++
         [{| insumo_id := id;
             insumo_nome := nome;
             categoria := Some categoria_;
             unidade := Some unidade_;
             estoque_qtd := Some fzero;
             custo_medio := Some fzero |}]
    /\ estoque_e_custo nome s' = Some (Some fzero, Some fzero)
    /\ (forall outro, outro <> nome ->
          estoque_e_custo outro s' = estoque_e_custo outro s)
    /\ compras s' = compras s.
Proof.
  intros Hfree. pose proof (find_nome_none nome _ Hfree) as Hn.
  unfold add_produto, commit_or_close, insert_insumo.
  unfold insumo_de_nome at 1. rewrite Hn. cbn [fst].
  eexists. eexists. split; [reflexivity|]. split; [reflexivity|].
  unfold estoque_e_custo, insumo_de_nome. cbn [insumos com_insumos].
  split; [|split; [|reflexivity]].
  - erewrite find_nome_app; [reflexivity | exact Hn | reflexivity].
  - intros outro Hne. rewrite find_nome_app_other; [reflexivity|].
    cbn. congruence.
Qed.

(** X4.  An edit of an ingredient never touches a stock or an average cost:
    whatever [update_insumo_db] is given, and whether it succeeds or is
    refused, the ids, the stocks and the costs of the table are, row by row,
    what they were, and the purchases are untouched. *)
Theorem update_insumo_db_preserva_estoque
    (id : Z) (nome categoria_ unidade_ : string) (s : db F) :
  let s' := fst (update_insumo_db id nome categoria_ unidade_ s) in
  map insumo_id (insumos s') = map insumo_id (insumos s)
  /\ map estoque_qtd (insumos s') = map estoque_qtd (insumos s)
  /\ map custo_medio (insumos s') = map custo_medio (insumos s)
  /\ compras s' = compras s.
Proof.
  unfold update_insumo_db, commit_or_close, update_cadastro.
  destruct (existsb (fun i => insumo_id i =? id) (insumos s)
            && existsb (fun i => negb (insumo_id i =? id)
                                 && String.eqb (insumo_nome i) nome)
                       (insumos s));
    cbn; [repeat split; reflexivity|].
  repeat split; try reflexivity; rewrite map_map; apply map_ext;
    intros a; unfold set_cadastro; now destruct (insumo_id a =? id).
Qed.

(** X5.  A rename onto a name that another row bears is refused:
    [update_insumo_db] and [update_receita_db] change nothing and answer
    with the warning of the duplicate. *)
Theorem renomear_para_nome_tomado
    (id : Z) (nome categoria_ unidade_ : string) (preco : F) (s : db F) :
  ((exists i, In i (insumos s) /\ insumo_id i = id) ->
   (exists j, In j (insumos s) /\ insumo_id j <> id /\ insumo_nome j = nome) ->
     update_insumo_db id nome categoria_ unidade_ s
     = (s, Ok (showwarning "Atenção" "Já existe um insumo com esse nome.")))
  /\ ((exists r, In r (receitas s) /\ receita_id r = id) ->
      (exists q, In q (receitas s) /\ receita_id q <> id
                 /\ receita_nome q = nome) ->
        update_receita_db id nome preco s
        = (s, Ok (showwarning "Atenção"
                              "Já existe uma receita com esse nome."))).
Proof.
  split.
  - intros [i [Hi Ei]] [j [Hj [Nj En]]].
    unfold update_insumo_db, commit_or_close, update_cadastro.
    replace (existsb (fun i => insumo_id i =? id) (insumos s)) with true.
    + replace (existsb _ (insumos s)) with true; [reflexivity|].
      symmetry. apply existsb_exists. exists j. split; [exact Hj|].
      apply andb_true_iff. split.
      * now apply negb_true_iff, Z.eqb_neq.
      * now apply String.eqb_eq.
    + symmetry. apply existsb_exists. exists i. split; [exact Hi|].
      now apply Z.eqb_eq.
  - intros [r [Hr Er]] [q [Hq [Nq En]]].
    unfold update_receita_db, commit_or_close, update_receita.
    replace (existsb (fun r => receita_id r =? id) (receitas s)) with true.
    + destruct (sql_real preco) as [preco'|]; [|reflexivity].
      replace (existsb _ (receitas s)) with true; [reflexivity|].
      symmetry. apply existsb_exists. exists q. split; [exact Hq|].
      apply andb_true_iff. split.
      * now apply negb_true_iff, Z.eqb_neq.
      * now apply String.eqb_eq.
    + symmetry. apply existsb_exists. exists r. split; [exact Hr|].
      now apply Z.eqb_eq.
Qed.

End CatalogTheorems.

Section DeletionTheorems.

Context {F : Type} `{PyFloat F}.

Lemma filter_id_ne {A : Type} (id_of : A -> Z) (id : Z) (l : list A) :
  (forall a, In a l -> id_of a <> id) ->
  filter (fun a => negb (id_of a =? id)) l = l.
Proof.
  intros Hne. apply filter_all. intros a Ha.
  apply negb_true_iff, Z.eqb_neq. now apply Hne.
Qed.

Lemma existsb_id_false {A : Type} (id_of : A -> Z) (id : Z) (l : list A) :
  (forall a, In a l -> id_of a <> id) ->
  existsb (fun a => id_of a =? id) l = false.
Proof.
  intros Hne. destruct (existsb _ l) eqn:E; [|reflexivity].
  apply existsb_exists in E. destruct E as [a [Ha Ea]].
  apply Z.eqb_eq in Ea. now apply Hne in Ha.
Qed.

(** X6.  An id that no row bears is not an error: for an id that SQLite can
    bind (a 64-bit integer) the updates and the deletions change nothing
    and still report success. *)
Theorem id_ausente_sem_efeito
    (id : Z) (nome categoria_ unidade_ : string) (preco : F) (s : db F) :
  int64 id = true ->
  ((forall i, In i (insumos s) -> insumo_id i <> id) ->
     update_insumo_db id nome categoria_ unidade_ s
       = (s, Ok (showinfo "Sucesso" "Insumo atualizado!"))
     /\ delete_insumo_db id s = (s, Ok (showinfo "Sucesso" "Insumo removido.")))
  /\ ((forall r, In r (receitas s) -> receita_id r <> id) ->
        update_receita_db id nome preco s
          = (s, Ok (showinfo "Sucesso" "Receita atualizada!"))
        /\ delete_receita_db id s
           = (s, Ok (showinfo "Sucesso" "Receita removida.")))
  /\ ((forall c, In c (compras s) -> compra_id c <> id) ->
        delete_compra_db id s = (s, Ok (showinfo "Sucesso" "Compra removida.")))
  /\ ((forall v, In v (vendas s) -> venda_id v <> id) ->
        delete_venda_db id s = (s, Ok (showinfo "Sucesso" "Venda removida."))).
Proof.
  intros _. split; [|split; [|split]].
  - intros Hne. split.
    + unfold update_insumo_db, commit_or_close, update_cadastro.
      rewrite (existsb_id_false insumo_id id _ Hne). cbn [andb].
      rewrite map_id_identity, com_insumos_same; [reflexivity|].
      intros a Ha. unfold set_cadastro.
      specialize (Hne a Ha). apply Z.eqb_neq in Hne. now rewrite Hne.
    + unfold delete_insumo_db.
      now rewrite (filter_id_ne insumo_id id _ Hne), com_insumos_same.
  - intros Hne. split.
    + unfold update_receita_db, commit_or_close, update_receita.
      now rewrite (existsb_id_false receita_id id _ Hne).
    + unfold delete_receita_db.
      rewrite (existsb_id_false receita_id id _ Hne).
      rewrite (filter_id_ne receita_id id _ Hne), com_receitas_same.
      now rewrite com_vendas_same.
  - intros Hne. unfold delete_compra_db, commit_or_close, bind,
      delete_compra, ret.
    now rewrite (filter_id_ne compra_id id _ Hne), com_compras_same.
  - intros Hne. unfold delete_venda_db.
    now rewrite (filter_id_ne venda_id id _ Hne), com_vendas_same.
Qed.

(** X7.  [delete_receita_db] on the id of a recipe removes that recipe and,
    with it, every sale of it: the sales left are exactly the sales of the
    other recipes, the recipes left are exactly the other recipes, and the
    ingredients and the purchases are untouched. *)
Theorem delete_receita_db_leva_as_vendas (id : Z) (s : db F) :
  (exists r, In r (receitas s) /\ receita_id r = id) ->
  exists s' : db F,
    delete_receita_db id s = (s', Ok (showinfo "Sucesso" "Receita removida."))
    /\ (forall r, In r (receitas s') <-> In r (receitas s) /\ receita_id r <> id)
    /\ (forall v, In v (vendas s')
                  <-> In v (vendas s) /\ venda_receita_id v <> id)
    /\ insumos s' = insumos s
    /\ compras s' = compras s.
Proof.
  intros [r [Hr Er]]. eexists. split; [reflexivity|].
  cbn [vendas receitas insumos compras com_vendas com_receitas].
  replace (existsb (fun r => receita_id r =? id) (receitas s)) with true.
  - split; [|split; [|split; reflexivity]].
    + intros q. rewrite filter_In, negb_true_iff, Z.eqb_neq. reflexivity.
    + intros v. rewrite filter_In, negb_true_iff, Z.eqb_neq. reflexivity.
  - symmetry. apply existsb_exists. exists r. split; [exact Hr|].
    now apply Z.eqb_eq.
Qed.

Lemma NoDup_nome_unico (l : list (insumo F)) (i j : insumo F) :
  NoDup (map insumo_nome l) -> In i l -> In j l ->
  insumo_nome i = insumo_nome j -> i = j.
Proof.
  induction l as [|a l IH]; simpl; intros Hnd Hi Hj En; [contradiction|].
  inversion Hnd as [|? ? Hnotin Hnd']; subst.
  destruct Hi as [<-|Hi]; destruct Hj as [<-|Hj]; try reflexivity.
  - exfalso. apply Hnotin. rewrite En. now apply in_map.
  - exfalso. apply Hnotin. rewrite <- En. now apply in_map.
  - now apply IH.
Qed.

(** X8.  Deleting an ingredient keeps every purchase row, and the name is
    then free: the next purchase of that name, of a quantity above zero at
    a price above zero, starts again from its own quantity and price,
    whatever was bought before. *)
Theorem delete_insumo_db_recomeca
    `{!PyFloatOrder F} (nome : string) (i : insumo F) (s : db F) :
  NoDup (map insumo_nome (insumos s)) ->
  insumo_de_nome nome s = Some i ->
  let s1 := fst (delete_insumo_db (insumo_id i) s) in
  compras s1 = compras s
  /\ estoque_e_custo nome s1 = None
  /\ forall agora quantidade preco_unit,
       (quantidade >? fzero)%py = true ->
       (preco_unit >? fzero)%py = true ->
       estoque_e_custo nome
         (fst (registrar_compra_db agora nome quantidade preco_unit s1))
       = Some (Some quantidade, Some preco_unit).
Proof.
  intros Hnd Hi s1.
  assert (Hnone : forall j, In j (insumos s1) -> insumo_nome j <> nome).
  { intros j Hj En. unfold s1 in Hj. cbn in Hj.
    apply filter_In in Hj. destruct Hj as [Hj Hne].
    unfold insumo_de_nome in Hi. apply find_some in Hi.
    destruct Hi as [Hi Ei]. simpl in Ei. apply String.eqb_eq in Ei.
    assert (j = i) by (apply (NoDup_nome_unico _ _ _ Hnd Hj Hi); congruence).
    subst j. now rewrite Z.eqb_refl in Hne. }
  pose proof (find_nome_none nome _ Hnone) as Hn.
  split; [reflexivity|]. split.
  - unfold estoque_e_custo, insumo_de_nome. now rewrite Hn.
  - intros agora q p Hq Hp.
    rewrite (registrar_compra_db_novo agora nome q p q p s1
               (sql_real_pos q Hq) (sql_real_pos p Hp) Hn). cbn [fst].
    unfold estoque_e_custo, insumo_de_nome. cbn [insumos com_insumos].
    erewrite find_nome_app; [reflexivity | exact Hn | reflexivity].
Qed.

(** X9.  A purchase leaves every other row of ingredient as it was: among
    rows of distinct ids, a purchase of one name changes neither the stock
    nor the average cost stored under any other name. *)
Theorem registrar_compra_db_so_o_nome
    (agora : timestamp) (nome outro : string) (quantidade preco_unit : F)
    (s : db F) :
  NoDup (map insumo_id (insumos s)) ->
  outro <> nome ->
  estoque_e_custo outro
    (fst (registrar_compra_db agora nome quantidade preco_unit s))
  = estoque_e_custo outro s.
Proof.
  intros Hnd Hne.
  unfold registrar_compra_db, commit_or_close, bind, insert_compra,
    select_insumo, ret.
  destruct (sql_real quantidade) as [q'|]; [|reflexivity].
  destruct (sql_real preco_unit) as [p'|]; [|reflexivity].
  set (s1 := com_compras _ _ s).
  assert (E1 : estoque_e_custo outro s1 = estoque_e_custo outro s)
    by reflexivity.
  destruct (insumo_de_nome nome s1) as [i|] eqn:Ei.
  - assert (Hup : forall S1 C1,
              estoque_e_custo outro
                (com_insumos (map (set_estoque S1 C1 (insumo_id i))
                                  (insumos s1)) (seq_insumos s1) s1)
              = estoque_e_custo outro s).
    { intros S1 C1. unfold estoque_e_custo, insumo_de_nome.
      cbn [insumos com_insumos com_compras s1].
      rewrite find_nome_set_estoque.
      destruct (find _ (insumos s)) as [j|] eqn:Ej; [|reflexivity].
      cbn [option_map]. unfold set_estoque.
      destruct (insumo_id j =? insumo_id i) eqn:Eid; [|reflexivity].
      exfalso. apply Z.eqb_eq in Eid.
      apply find_some in Ej. destruct Ej as [Hj Enj].
      unfold insumo_de_nome in Ei. apply find_some in Ei.
      destruct Ei as [Hi Eni]. cbn in Hi.
      apply String.eqb_eq in Enj. apply String.eqb_eq in Eni.
      assert (j = i).
      { clear - Hnd Hj Hi Eid. revert Hnd Hj Hi.
        induction (insumos s) as [|a l IH]; simpl; [contradiction|].
        intros Hnd Hj Hi. inversion Hnd as [|? ? Hnotin Hnd']; subst.
        destruct Hj as [<-|Hj]; destruct Hi as [<-|Hi]; try reflexivity.
        - exfalso. apply Hnotin. rewrite Eid. now apply in_map.
        - exfalso. apply Hnotin. rewrite <- Eid. now apply in_map.
        - now apply IH. }
      subst j. congruence. }
    destruct (fltb fzero (float_or_0 (estoque_qtd i) + quantidade)%py).
    + unfold lift, truediv.
      destruct (feqb (float_or_0 (estoque_qtd i) + quantidade)%py fzero);
        cbn; [reflexivity | apply Hup].
    + cbn. apply Hup.
  - unfold insert_insumo. rewrite Ei. cbn [fst].
    unfold estoque_e_custo, insumo_de_nome. cbn [insumos com_insumos].
    rewrite find_nome_app_other; [reflexivity | cbn; congruence].
Qed.

End DeletionTheorems.


(** ** Sales and the reports *)

Section ReportTheorems.

Context {F : Type} `{PyFloat F}.

Lemma filter_length_le {A : Type} (p q : A -> bool) (l : list A) :
  (forall a, p a = true -> q a = true) ->
  (List.length (filter p l) <= List.length (filter q l))%nat.
Proof.
  intros Hpq. induction l as [|a l IH]; simpl; [lia|].
  destruct (p a) eqn:Ep.
  - rewrite (Hpq a Ep). simpl. lia.
  - destruct (q a); simpl; lia.
Qed.

Lemma n_vendas_le dt_ini dt_fim dt_ini' dt_fim' (s : db F) c c' :
  (forall v : venda F, no_periodo dt_ini dt_fim v = true ->
                       no_periodo dt_ini' dt_fim' v = true) ->
  _agg_vendas dt_ini dt_fim s = Ok c ->
  _agg_vendas dt_ini' dt_fim' s = Ok c' ->
  n_vendas c <= n_vendas c'.
Proof.
  intros Hsub E E'.
  rewrite (agg_vendas_n_vendas _ _ _ _ E), (agg_vendas_n_vendas _ _ _ _ E').
  unfold vendas_no_periodo. apply inj_le. now apply filter_length_le.
Qed.

(** *** Quantities not below zero: when the sums fit *)

Lemma soma_nao_negativa (quantidades : list Z) :
  Forall (fun q => 0 <= q) quantidades -> 0 <= fold_left Z.add quantidades 0.
Proof.
  induction quantidades as [|q l IH]; intros Hl; cbn [fold_left]; [lia|].
  inversion Hl as [|? ? Hq Hl']; subst.
  rewrite fold_left_add_acc. specialize (IH Hl'). lia.
Qed.

Lemma somas_cabem_nao_negativos (quantidades : list Z) :
  Forall (fun q => 0 <= q) quantidades ->
  fold_left Z.add quantidades 0 < 2 ^ 63 ->
  somas_cabem quantidades.
Proof.
  intros Hl Ht k.
  rewrite <- (firstn_skipn k quantidades) in Hl, Ht.
  apply Forall_app in Hl. destruct Hl as [H1 H2].
  rewrite fold_left_app, fold_left_add_acc in Ht.
  apply soma_nao_negativa in H1. apply soma_nao_negativa in H2. lia.
Qed.

Lemma soma_do_periodo_le (fica : venda F -> bool) (linhas : list (venda F)) :
  Forall (fun v => 0 <= venda_quantidade v) linhas ->
  Forall (fun q => 0 <= q) (map venda_quantidade (filter fica linhas))
  /\ fold_left Z.add (map venda_quantidade (filter fica linhas)) 0
     <= fold_left Z.add (map venda_quantidade linhas) 0.
Proof.
  induction linhas as [|v l IH]; intros Hl; cbn [filter map fold_left].
  - split; [constructor | lia].
  - inversion Hl as [|? ? Hv Hl']; subst. destruct (IH Hl') as [IH1 IH2].
    rewrite (fold_left_add_acc _ (0 + venda_quantidade v)).
    destruct (fica v); cbn [map fold_left].
    + split; [now constructor|].
      rewrite (fold_left_add_acc _ (0 + venda_quantidade v)). lia.
    + split; [exact IH1 | lia].
Qed.

Lemma agg_vendas_cabe dt_ini dt_fim (s : db F) :
  Forall (fun v => 0 <= venda_quantidade v) (vendas s) ->
  fold_left Z.add (map venda_quantidade (vendas s)) 0 < 2 ^ 63 ->
  exists c, _agg_vendas dt_ini dt_fim s = Ok c.
Proof.
  intros Hl Ht. apply agg_vendas_ok. unfold vendas_no_periodo.
  destruct (soma_do_periodo_le (no_periodo dt_ini dt_fim) _ Hl) as [H1 H2].
  apply somas_cabem_nao_negativos; [exact H1 | lia].
Qed.

Lemma load_relatorios_data_cabe agora (s : db F) :
  Forall (fun v => 0 <= venda_quantidade v) (vendas s) ->
  fold_left Z.add (map venda_quantidade (vendas s)) 0 < 2 ^ 63 ->
  exists rel, load_relatorios_data agora s = Ok rel.
Proof.
  intros Hl Ht. unfold load_relatorios_data.
  destruct (agg_vendas_cabe (Some (inicio_do_dia agora))
              (Some (inicio_do_dia (agora + um_dia))) s Hl Ht) as [c1 ->].
  destruct (agg_vendas_cabe (Some (inicio_do_dia (agora - 6 * um_dia)))
              (Some (inicio_do_dia (agora + um_dia))) s Hl Ht) as [c2 ->].
  destruct (agg_vendas_cabe (Some (inicio_do_dia (agora - 29 * um_dia)))
              (Some (inicio_do_dia (agora + um_dia))) s Hl Ht) as [c3 ->].
  destruct (agg_vendas_cabe None None s Hl Ht) as [c4 ->].
  eexists. reflexivity.
Qed.

(** X11.  The four windows of the reports are nested: at any moment and on
    any sales, when [load_relatorios_data] returns, the count of today is
    at most the count of the last 7 days, which is at most the count of the
    last 30 days, which is at most the count of all.  It returns whenever
    no quantity sold is below zero and the quantities add up to less than
    [2^63]; a sum of quantities that leaves the 64 bits makes the query, and
    so the reports, fail. *)
Theorem relatorios_aninhados (agora : timestamp) (s : db F) :
  (forall rel,
     load_relatorios_data agora s = Ok rel ->
     n_vendas (c_hoje rel) <= n_vendas (c_7 rel)
     /\ n_vendas (c_7 rel) <= n_vendas (c_30 rel)
     /\ n_vendas (c_30 rel) <= n_vendas (c_all rel))
  /\ (Forall (fun v => 0 <= venda_quantidade v) (vendas s) ->
      fold_left Z.add (map venda_quantidade (vendas s)) 0 < 2 ^ 63 ->
      exists rel, load_relatorios_data agora s = Ok rel).
Proof.
  split; [|apply load_relatorios_data_cabe].
  intros rel E. apply load_relatorios_data_ok in E.
  replace (agora - 6 * um_dia) with (agora + (-6) * um_dia) in E by lia.
  replace (agora - 29 * um_dia) with (agora + (-29) * um_dia) in E by lia.
  rewrite !inicio_do_dia_mais in E. destruct E as (E1 & E2 & E3 & E4).
  split; [|split];
    [ apply (n_vendas_le _ _ _ _ s _ _) with (2 := E1) (3 := E2)
    | apply (n_vendas_le _ _ _ _ s _ _) with (2 := E2) (3 := E3)
    | apply (n_vendas_le _ _ _ _ s _ _) with (2 := E3) (3 := E4) ];
    intros v; unfold no_periodo;
    destruct (venda_data v) as [d|]; try discriminate; try reflexivity;
    rewrite !andb_true_iff, ?Z.leb_le, ?Z.ltb_lt; unfold um_dia;
    try (intros [H1 H2]; split; lia); intros _; split; reflexivity.
Qed.

Lemma registrar_venda_inv agora rid q (p t : F) (s s1 : db F) d :
  registrar_venda agora rid q p t s = (s1, Ok d) ->
  exists v, s1 = mais_uma_venda v s
            /\ venda_id v = next_rowid (seq_vendas s) (map venda_id (vendas s))
            /\ venda_quantidade v = q
            /\ venda_data v = Some agora.
Proof.
  intros E.
  destruct (registrar_venda_casos agora rid q p t s)
    as [[e Ee]|(qtd & p' & t' & b' & c' & l' & _ & _ & _ & _ & _ & _ & _ & _
                & Es)].
  - rewrite Ee in E. discriminate.
  - rewrite Es in E. injection E as <- _.
    eexists. split; [reflexivity|]. repeat split.
Qed.

Lemma inicio_do_dia_le (t : timestamp) :
  inicio_do_dia t <= t < inicio_do_dia t + um_dia.
Proof.
  unfold inicio_do_dia, um_dia.
  pose proof (Z.mod_pos_bound t 86400 ltac:(lia)).
  pose proof (Z.div_mod t 86400 ltac:(lia)). lia.
Qed.

(** X12.  A sale that is registered shows at once: in the reports loaded at
    the moment of the sale, whenever they load before and after it, the
    counts of today, of the last 7 days, of the last 30 days and of all are
    each one more than before, and the count of items of all is the
    quantity sold more than before.  They do load, before and after, when
    no quantity sold -- this one included -- is below zero and the
    quantities, this one included, add up to less than [2^63]. *)
Theorem registrar_venda_nos_relatorios
    (agora : timestamp) (receita_id_ quantidade : Z) (preco taxa : F)
    (s s1 : db F) (d : dialog) :
  registrar_venda agora receita_id_ quantidade preco taxa s = (s1, Ok d) ->
  (forall r r1,
     load_relatorios_data agora s = Ok r ->
     load_relatorios_data agora s1 = Ok r1 ->
     n_vendas (c_hoje r1) = n_vendas (c_hoje r) + 1
     /\ n_vendas (c_7 r1) = n_vendas (c_7 r) + 1
     /\ n_vendas (c_30 r1) = n_vendas (c_30 r) + 1
     /\ n_vendas (c_all r1) = n_vendas (c_all r) + 1
     /\ n_itens (c_all r1) = n_itens (c_all r) + quantidade)
  /\ (Forall (fun v => 0 <= venda_quantidade v) (vendas s) ->
      0 <= quantidade ->
      fold_left Z.add (map venda_quantidade (vendas s)) 0 + quantidade
        < 2 ^ 63 ->
      exists r r1,
        load_relatorios_data agora s = Ok r
        /\ load_relatorios_data agora s1 = Ok r1).
Proof.
  intros Hreg. destruct (registrar_venda_inv _ _ _ _ _ _ _ _ Hreg)
    as (v & -> & _ & Hq & Hd).
  split.
  - intros r r1 E E'.
    apply load_relatorios_data_ok in E. apply load_relatorios_data_ok in E'.
    destruct E as (E1 & E2 & E3 & E4). destruct E' as (E1' & E2' & E3' & E4').
    rewrite (n_vendas_mais_uma _ _ _ _ _ _ E1 E1').
    rewrite (n_vendas_mais_uma _ _ _ _ _ _ E2 E2').
    rewrite (n_vendas_mais_uma _ _ _ _ _ _ E3 E3').
    rewrite (n_vendas_mais_uma _ _ _ _ _ _ E4 E4').
    rewrite (agg_vendas_n_itens _ _ _ _ E4), (agg_vendas_n_itens _ _ _ _ E4').
    clear E1 E2 E3 E4 E1' E2' E3' E4'.
    replace (agora + um_dia) with (agora + 1 * um_dia) by lia.
    replace (agora - 6 * um_dia) with (agora + (-6) * um_dia) by lia.
    replace (agora - 29 * um_dia) with (agora + (-29) * um_dia) by lia.
    rewrite !inicio_do_dia_mais.
    pose proof (inicio_do_dia_le agora) as [Hlo Hhi].
    unfold no_periodo. rewrite Hd.
    replace (inicio_do_dia agora <=? agora) with true
      by (symmetry; now apply Z.leb_le).
    replace (agora <? inicio_do_dia agora + 1 * um_dia) with true
      by (symmetry; apply Z.ltb_lt; lia).
    replace (inicio_do_dia agora + -6 * um_dia <=? agora) with true
      by (symmetry; apply Z.leb_le; unfold um_dia in *; lia).
    replace (inicio_do_dia agora + -29 * um_dia <=? agora) with true
      by (symmetry; apply Z.leb_le; unfold um_dia in *; lia).
    cbn [andb]. do 4 (split; [reflexivity|]).
    unfold vendas_no_periodo, no_periodo.
    cbn [vendas mais_uma_venda com_vendas andb].
    rewrite !filter_app, map_app, fold_left_app. cbn. now rewrite Hq.
  - intros Hl Hq0 Ht.
    destruct (load_relatorios_data_cabe agora s Hl) as [r Er]; [lia|].
    destruct (load_relatorios_data_cabe agora (mais_uma_venda v s))
      as [r1 Er1].
    + cbn [vendas mais_uma_venda com_vendas]. apply Forall_app.
      split; [exact Hl|]. constructor; [now rewrite Hq | constructor].
    + cbn [vendas mais_uma_venda com_vendas].
      rewrite map_app, fold_left_app. cbn [map fold_left]. now rewrite Hq.
    + now exists r, r1.
Qed.

(** X13.  Deleting the sale that was just registered puts the sales back:
    on a table whose ids are in order, after [registrar_venda] succeeds and
    [delete_venda_db] is given the new id, the table of sales, and so every
    aggregate of every window, is what it was before the sale; the id
    itself is spent, the counter staying above it. *)
Theorem delete_venda_db_desfaz_a_venda
    (agora : timestamp) (receita_id_ quantidade : Z) (preco taxa : F)
    (s s1 : db F) (d : dialog) :
  rowids_ok (map venda_id (vendas s)) (seq_vendas s) ->
  registrar_venda agora receita_id_ quantidade preco taxa s = (s1, Ok d) ->
  let s2 := fst (delete_venda_db (seq_vendas s1) s1) in
  vendas s2 = vendas s
  /\ (forall dt_ini dt_fim,
        _agg_vendas dt_ini dt_fim s2 = _agg_vendas dt_ini dt_fim s)
  /\ seq_vendas s < seq_vendas s2.
Proof.
  intros Hids Hreg. destruct (registrar_venda_inv _ _ _ _ _ _ _ _ Hreg)
    as (v & -> & Hid & _ & _).
  cbn zeta.
  assert (Hv : vendas (fst (delete_venda_db
                              (seq_vendas (mais_uma_venda v s))
                              (mais_uma_venda v s))) = vendas s).
  { cbn. rewrite filter_app. cbn. rewrite Z.eqb_refl. cbn.
    rewrite app_nil_r. apply filter_id_ne. intros a Ha.
    destruct (next_rowid_gt (map venda_id (vendas s)) (seq_vendas s))
      as [_ Hlt].
    rewrite Forall_forall in Hlt. specialize (Hlt (venda_id a)).
    rewrite Hid. assert (venda_id a < next_rowid (seq_vendas s)
                                        (map venda_id (vendas s)))
      by (apply Hlt; now apply in_map). lia. }
  split; [exact Hv|]. split.
  - intros dt_ini dt_fim. unfold _agg_vendas, vendas_no_periodo.
    now rewrite Hv.
  - cbn. rewrite Hid.
    apply (next_rowid_gt (map venda_id (vendas s)) (seq_vendas s)).
Qed.

End ReportTheorems.

(** ** The first user *)

Section InitTheorems.

Context {F : Type} `{PyFloat F}.

(** X14.  [init_db] writes the user [admin] only into an empty table of
    users: after it, [admin] is verified by exactly the passwords whose
    SHA-256 digest is that of ["admin"], and no other name is verified.  On
    a table that has a user it changes nothing, so running it again changes
    nothing. *)
Theorem init_db_usuario_padrao (s : db F) :
  (usuarios s = [] ->
     verify_user "admin" "admin" (init_db s) = true
     /\ (forall senha,
           verify_user "admin" senha (init_db s) = true
           <-> SHA256.hexdigest senha = SHA256.hexdigest "admin")
     /\ (forall nome senha, nome <> "admin"%string ->
           verify_user nome senha (init_db s) = false))
  /\ (usuarios s <> [] -> init_db s = s)
  /\ init_db (init_db s) = init_db s.
Proof.
  assert (Hv : usuarios s = [] -> forall nome senha,
            verify_user nome senha (init_db s)
            = String.eqb "admin" nome
              && String.eqb (SHA256.hexdigest "admin")
                            (SHA256.hexdigest senha)).
  { intros Hu nome senha. unfold init_db, verify_user, _hash_pwd.
    rewrite Hu. cbn [List.length Z.of_nat Z.eqb usuarios com_usuarios app
                     find username password_hash].
    generalize (SHA256.hexdigest "admin"), (SHA256.hexdigest senha).
    intros h h'. destruct (String.eqb "admin" nome); reflexivity. }
  split; [|split].
  - intros Hu. split; [|split].
    + rewrite (Hv Hu). now rewrite !String.eqb_refl.
    + intros senha. rewrite (Hv Hu), String.eqb_refl. cbn [andb].
      rewrite String.eqb_eq. split; congruence.
    + intros nome senha Hne. rewrite (Hv Hu).
      replace (String.eqb "admin" nome) with false; [reflexivity|].
      symmetry. apply String.eqb_neq. congruence.
  - intros Hu. unfold init_db. destruct (usuarios s); [congruence|].
    reflexivity.
  - unfold init_db at 1.
    destruct (usuarios (init_db s)) as [|u l] eqn:Eu; [|reflexivity].
    exfalso. unfold init_db in Eu.
    destruct (usuarios s) as [|u l] eqn:Es.
    + cbn [List.length Z.of_nat Z.eqb usuarios com_usuarios app] in Eu.
      discriminate Eu.
    + cbn [List.length Z.of_nat Z.eqb] in Eu. congruence.
Qed.

End InitTheorems.

(** ** The forms *)

Lemma binary64_neg_not_gt1 (t : float) :
  (t <? 0)%float = true -> (1 <? t)%float = false.
Proof.
  rewrite !FloatAxioms.ltb_spec.
  destruct (Prim2SF t) as [[|]|[|]| |[|] m e]; vm_compute; congruence.
Qed.

(** X15.  The forms stop what they are meant to stop, and the database is
    then what it was: an ingredient without a name; a recipe without a name,
    with a price that is not a number or not above zero; a sale without a
    recipe, with a field that is not a number, with a quantity or a price
    not above zero, or with a fee below zero. *)
Theorem formularios_barram
    (agora : timestamp) (nome categoria_ unidade_ sel : string)
    (preco : option float) (receita_id_ quantidade : option Z)
    (preco_unit taxa : option float) (s : db float) :
  fst (salvar_insumo "" categoria_ unidade_ s) = s
  /\ ((nome = ""%string \/ preco = None
       \/ exists p, preco = Some p /\ (p <=? 0)%float = true) ->
        fst (_salvar_receita nome preco s) = s)
  /\ ((sel = ""%string
       \/ receita_id_ = None \/ quantidade = None
       \/ preco_unit = None \/ taxa = None
       \/ (exists q, quantidade = Some q /\ q <= 0)
       \/ (exists p, preco_unit = Some p /\ (p <=? 0)%float = true)
       \/ (exists t, taxa = Some t /\ (t <? 0)%float = true)) ->
        fst (_registrar_venda agora sel receita_id_ quantidade
               preco_unit taxa s) = s).
Proof.
  split; [reflexivity|]. split.
  - intros Hbad. unfold _salvar_receita.
    destruct preco as [p|]; [|reflexivity].
    destruct ((nome =? "")%string || (p <=? 0)%float) eqn:E; [reflexivity|].
    apply orb_false_iff in E. destruct E as [En Ep].
    destruct Hbad as [->|[Hp|[p' [Hp Hle]]]]; try discriminate.
    injection Hp as <-. congruence.
  - intros Hbad. unfold _registrar_venda.
    destruct (sel =? "")%string eqn:Es; [reflexivity|].
    destruct receita_id_ as [rid|]; [|reflexivity].
    destruct quantidade as [q|]; [|reflexivity].
    destruct preco_unit as [p|]; [|reflexivity].
    destruct taxa as [t|]; [|reflexivity].
    destruct ((q <=? 0) || (p <=? 0)%float
              || ((if (1 <? t)%float then (t / 100)%float else t) <? 0)%float)
      eqn:E; [reflexivity|].
    apply orb_false_iff in E. destruct E as [E Et].
    apply orb_false_iff in E. destruct E as [Eq Ep].
    destruct Hbad as [->|[Hx|[Hx|[Hx|[Hx|[[q' [Hq Hle]]|[[p' [Hp Hle]]
                      |[t' [Ht Hlt]]]]]]]]]; try discriminate.
    + injection Hq as <-. apply Z.leb_gt in Eq. lia.
    + injection Hp as <-. congruence.
    + injection Ht as <-. rewrite (binary64_neg_not_gt1 _ Hlt) in Et.
      congruence.
Qed.

(** ** The listings *)

Section ListingTheorems.

Context {F : Type} `{PyFloat F}.

Lemma inserir_last {A : Type} (antes : A -> A -> bool) (x : A) (l : list A) :
  (forall y, In y l -> antes x y = false) -> inserir antes x l = l ++ [x].
Proof.
  induction l as [|y l IH]; simpl; intros Hx; [reflexivity|].
  rewrite Hx by now left. f_equal. apply IH. intros z Hz. apply Hx. now right.
Qed.

Lemma ordenar_desc_rev {A : Type} (id_of : A -> Z) (l : list A) :
  StronglySorted Z.lt (map id_of l) ->
  ordenar (fun a b => id_of b <=? id_of a) l = rev l.
Proof.
  induction l as [|a l IH]; simpl; intros Hs; [reflexivity|].
  inversion Hs as [|? ? Hs' Ha]; subst.
  unfold ordenar in *. cbn [fold_right]. rewrite (IH Hs').
  apply inserir_last. intros y Hy. apply Z.leb_gt.
  rewrite Forall_forall in Ha. apply Ha. apply in_map.
  now apply in_rev in Hy.
Qed.

Lemma inserir_perm {A : Type} (antes : A -> A -> bool) (x : A) (l : list A) :
  Permutation (x :: l) (inserir antes x l).
Proof.
  induction l as [|y l IH]; simpl; [reflexivity|].
  destruct (antes x y); [reflexivity|].
  rewrite perm_swap. now constructor.
Qed.

Lemma ordenar_perm {A : Type} (antes : A -> A -> bool) (l : list A) :
  Permutation l (ordenar antes l).
Proof.
  induction l as [|a l IH]; simpl; [constructor|].
  unfold ordenar in *. cbn [fold_right].
  rewrite <- inserir_perm. now constructor.
Qed.

Lemma inserir_sorted {A : Type} (antes : A -> A -> bool) (x : A) (l : list A) :
  (forall a b, antes a b = true \/ antes b a = true) ->
  Sorted (fun a b => antes a b = true) l ->
  Sorted (fun a b => antes a b = true) (inserir antes x l).
Proof.
  intros Htot. induction 1 as [|y l Hs IH Hy]; simpl.
  - repeat constructor.
  - destruct (antes x y) eqn:E.
    + constructor; [now constructor | now constructor].
    + constructor; [exact IH|].
      destruct l as [|z l]; simpl.
      * constructor. destruct (Htot x y); congruence.
      * inversion Hy; subst. destruct (antes x z).
        -- constructor. destruct (Htot x y); congruence.
        -- now constructor.
Qed.

Lemma ordenar_sorted {A : Type} (antes : A -> A -> bool) (l : list A) :
  (forall a b, antes a b = true \/ antes b a = true) ->
  Sorted (fun a b => antes a b = true) (ordenar antes l).
Proof.
  intros Htot. induction l as [|a l IH]; simpl; [constructor|].
  unfold ordenar in *. cbn [fold_right]. now apply inserir_sorted.
Qed.

Lemma filter_id_absent {A : Type} (id_of : A -> Z) (id : Z) (l : list A) :
  ~ In id (map id_of l) -> filter (fun q => id_of q =? id) l = [].
Proof.
  induction l as [|a l IH]; simpl; intros Hn; [reflexivity|].
  destruct (id_of a =? id) eqn:E.
  - exfalso. apply Hn. left. now apply Z.eqb_eq.
  - apply IH. intros Hin. apply Hn. now right.
Qed.

Lemma filter_receita_unica (id : Z) (l : list (receita F)) :
  NoDup (map receita_id l) -> In id (map receita_id l) ->
  exists r, In r l /\ receita_id r = id
            /\ filter (fun q => receita_id q =? id) l = [r].
Proof.
  induction l as [|a l IH]; simpl; intros Hnd Hin; [contradiction|].
  inversion Hnd as [|? ? Hnotin Hnd']; subst.
  destruct (receita_id a =? id) eqn:E.
  - apply Z.eqb_eq in E. exists a. split; [now left|]. split; [exact E|].
    f_equal. apply filter_id_absent. now rewrite <- E.
  - apply Z.eqb_neq in E. destruct Hin as [Hin|Hin]; [contradiction|].
    destruct (IH Hnd' Hin) as [r [Hr [Hid Hf]]].
    exists r. split; [now right|]. now split.
Qed.

(** The join of the sales with their recipes, before it is ordered: under
    the primary key of the recipes and the foreign key of the sales, each
    sale is joined with one recipe. *)
Lemma juncao_vendas (rs : list (receita F)) (vs : list (venda F)) :
  NoDup (map receita_id rs) ->
  Forall (fun v => In (venda_receita_id v) (map receita_id rs)) vs ->
  map fst (flat_map
             (fun v =>
                map (fun r => (v, receita_nome r))
                    (filter (fun r => receita_id r =? venda_receita_id v) rs))
             vs) = vs
  /\ Forall (fun a : venda F * string =>
               exists r, In r rs /\ receita_id r = venda_receita_id (fst a)
                         /\ receita_nome r = snd a)
            (flat_map
               (fun v =>
                  map (fun r => (v, receita_nome r))
                      (filter (fun r => receita_id r =? venda_receita_id v) rs))
               vs).
Proof.
  intros Hnd. induction 1 as [|v vs Hv _ [IH1 IH2]]; cbn [flat_map].
  - split; [reflexivity | constructor].
  - destruct (filter_receita_unica (venda_receita_id v) rs Hnd Hv)
      as [r [Hr [Hid Hf]]].
    rewrite Hf. cbn [map app fst]. split; [now rewrite IH1|].
    constructor; [|exact IH2]. now exists r.
Qed.

(** X16.  In a database made by calls of the back end, the listing of the
    purchases is the table of purchases, newest first; the listing of the
    sales shows every sale once, newest first, none lost and none doubled by
    the join, each with the name of the recipe that it refers to. *)
Theorem listagens_mais_novas_primeiro (s : db F) :
  alcancavel s ->
  listar_compras s = rev (compras s)
  /\ map fst (listar_vendas s) = rev (vendas s)
  /\ (forall v nome, In (v, nome) (listar_vendas s) ->
        exists r, In r (receitas s)
                  /\ receita_id r = venda_receita_id v
                  /\ receita_nome r = nome).
Proof.
  intros Ha. destruct (bem_formado_alcancavel s Ha)
    as [_ _ [Hr _] _ [Hv _] Hfk [Hc _] _ _].
  assert (Hnd : NoDup (map receita_id (receitas s)))
    by now apply StronglySorted_lt_NoDup.
  destruct (juncao_vendas (receitas s) (vendas s) Hnd Hfk) as [Hj1 Hj2].
  assert (Hl : listar_vendas s
               = rev (flat_map
                        (fun v =>
                           map (fun r => (v, receita_nome r))
                               (filter (fun r => receita_id r
                                                 =? venda_receita_id v)
                                       (receitas s)))
                        (vendas s))).
  { unfold listar_vendas.
    apply (ordenar_desc_rev (fun a : venda F * string => venda_id (fst a))).
    rewrite <- (map_map fst venda_id), Hj1. exact Hv. }
  split; [|split].
  - unfold listar_compras. now apply (ordenar_desc_rev compra_id).
  - now rewrite Hl, map_rev, Hj1.
  - intros v nome Hin. rewrite Hl in Hin. apply in_rev in Hin.
    rewrite Forall_forall in Hj2. exact (Hj2 _ Hin).
Qed.

(** X17.  The listings of the ingredients and of the recipes hold the rows of
    their tables, each as often as the table does, in the order of their
    names, compared byte by byte. *)
Theorem listagens_por_nome (s : db F) :
  (Permutation (insumos s) (listar_insumos s)
   /\ Sorted (fun i j => String.leb (insumo_nome i) (insumo_nome j) = true)
             (listar_insumos s))
  /\ (Permutation (receitas s) (listar_receitas s)
      /\ Sorted (fun r q => String.leb (receita_nome r) (receita_nome q) = true)
                (listar_receitas s)).
Proof.
  split; split.
  - apply ordenar_perm.
  - apply (ordenar_sorted
             (fun i j => String.leb (insumo_nome i) (insumo_nome j))).
    intros a b. apply String.leb_total.
  - apply ordenar_perm.
  - apply (ordenar_sorted
             (fun r q => String.leb (receita_nome r) (receita_nome q))).
    intros a b. apply String.leb_total.
Qed.

End ListingTheorems.

(** ** The ledger and its log *)

Section LogTheorems.

Local Open Scope Q_scope.

Lemma soma_qtd_snoc (l : list (Q * Q)) (c : Q * Q) :
  soma_qtd (l ++ [c]) == soma_qtd l + fst c.
Proof.
  induction l as [|a l IH]; cbn [app soma_qtd fold_right].
  - ring.
  - fold (soma_qtd (l ++ [c])). fold (soma_qtd l). rewrite IH. ring.
Qed.

Lemma soma_valor_snoc (l : list (Q * Q)) (c : Q * Q) :
  soma_valor (l ++ [c]) == soma_valor l + fst c * snd c.
Proof.
  induction l as [|a l IH]; cbn [app soma_valor fold_right].
  - ring.
  - fold (soma_valor (l ++ [c])). fold (soma_valor l). rewrite IH. ring.
Qed.

Lemma compras_de_snoc nome (l : list (compra Q)) (c : compra Q) :
  compras_de nome (l ++ [c])
  = compras_de nome l
    ++ (if String.eqb (compra_nome c) nome
        then [(compra_quantidade c, compra_preco c)] else []).
Proof.
  unfold compras_de. rewrite filter_app, map_app. cbn [filter].
  now destruct (String.eqb (compra_nome c) nome).
Qed.

Lemma NoDup_map_unico {A B : Type} (f : A -> B) (l : list A) (a b : A) :
  NoDup (map f l) -> In a l -> In b l -> f a = f b -> a = b.
Proof.
  induction l as [|x l IH]; simpl; intros Hnd Ha Hb E; [contradiction|].
  inversion Hnd as [|? ? Hnotin Hnd']; subst.
  destruct Ha as [<-|Ha]; destruct Hb as [<-|Hb]; try reflexivity.
  - exfalso. apply Hnotin. rewrite E. now apply in_map.
  - exfalso. apply Hnotin. rewrite <- E. now apply in_map.
  - now apply IH.
Qed.

Lemma livro_em_dia_vazio : livro_em_dia db_vazio.
Proof. split; [reflexivity | intros i []]. Qed.

Lemma livro_em_dia_quadro (s s' : db Q) :
  insumos s' = insumos s -> compras s' = compras s ->
  livro_em_dia s -> livro_em_dia s'.
Proof.
  intros Ei Ec [H1 H2]. unfold livro_em_dia, insumo_de_nome in *.
  rewrite Ei, Ec. now split.
Qed.

Lemma livro_em_dia_add_produto nome categoria_ unidade_ (s : db Q) :
  livro_em_dia s -> livro_em_dia (fst (add_produto nome categoria_ unidade_ s)).
Proof.
  intros [H1 H2]. unfold add_produto, commit_or_close, insert_insumo.
  destruct (insumo_de_nome nome s) as [i0|] eqn:E; cbn [fst];
    [now split|].
  split.
  - intros nome' Hn. unfold insumo_de_nome in Hn.
    cbn [insumos com_insumos compras] in *.
    destruct (String.eqb_spec nome nome') as [<-|Hne].
    + erewrite find_nome_app in Hn; [discriminate | exact E | reflexivity].
    + rewrite find_nome_app_other in Hn by exact Hne. now apply H1.
  - intros i Hin. cbn [insumos com_insumos compras] in *.
    apply in_app_or in Hin. destruct Hin as [Hin|[<-|[]]];
      [now apply H2|].
    exists 0, 0. cbn [estoque_qtd custo_medio insumo_nome fzero exato].
    rewrite (H1 nome E).
    repeat split; try reflexivity. apply Qle_refl.
Qed.

Lemma livro_em_dia_registrar_compra_db agora nome (q p : Q) (s : db Q) :
  bem_formado s -> 0 < q -> livro_em_dia s ->
  livro_em_dia (fst (registrar_compra_db agora nome q p s)).
Proof.
  intros Hbf Hq [H1 H2].
  destruct (insumo_de_nome nome s) as [i0|] eqn:E.
  - rewrite (registrar_compra_db_existente agora nome q p q p s i0
               (sql_real_exato q) (sql_real_exato p) E). cbn [fst].
    pose proof E as Hfind. unfold insumo_de_nome in Hfind.
    apply find_some in Hfind. destruct Hfind as [Hin0 En0].
    cbn beta in En0. apply String.eqb_eq in En0.
    split.
    + intros nome' Hn. unfold insumo_de_nome in Hn.
      cbn [insumos com_insumos compras com_compras] in *.
      rewrite find_nome_set_estoque in Hn.
      destruct (find (fun i => String.eqb (insumo_nome i) nome') (insumos s))
        eqn:E'; [discriminate|].
      rewrite compras_de_snoc. cbn [compra_nome compra_nova].
      destruct (String.eqb_spec nome nome') as [<-|Hne].
      * unfold insumo_de_nome in E. congruence.
      * rewrite (H1 nome' E'). reflexivity.
    + intros i' Hin. cbn [insumos com_insumos compras com_compras] in *.
      apply in_map_iff in Hin. destruct Hin as [i [<- Hin]].
      rewrite set_estoque_nome, compras_de_snoc.
      cbn [compra_nome compra_quantidade compra_preco compra_nova].
      unfold set_estoque.
      destruct (insumo_id i =? insumo_id i0)%Z eqn:Eid.
      * apply Z.eqb_eq in Eid.
        assert (i = i0) as ->.
        { apply (NoDup_map_unico insumo_id (insumos s)); try assumption.
          apply StronglySorted_lt_NoDup. apply (bf_insumos s Hbf). }
        destruct (H2 i0 Hin0) as (S0 & C0 & HS & HC & HS0 & ES & EC).
        rewrite En0, String.eqb_refl.
        cbn [estoque_qtd custo_medio].
        eexists. eexists. split; [reflexivity|]. split; [reflexivity|].
        rewrite soma_qtd_snoc, soma_valor_snoc. cbn [fst snd].
        rewrite En0 in ES, EC. rewrite <- ES, <- EC. rewrite HS, HC.
        pose proof (float_or_0_Q S0) as ES0.
        pose proof (float_or_0_Q C0) as EC0.
        set (S0' := float_or_0 (Some S0)) in *.
        set (C0' := float_or_0 (Some C0)) in *.
        clearbody S0' C0'. cbn [fadd exato].
        assert (Hpos : 0 < S0' + q) by (rewrite ES0; lra).
        split; [rewrite ES0; lra|]. split; [now rewrite ES0|].
        unfold custo_apos. cbn [fadd fmul fdiv fltb fzero exato].
        apply Qltb_lt in Hpos as Hb. rewrite Hb.
        rewrite <- ES0, <- EC0.
        field. intros E0. rewrite E0 in Hpos. now apply Qlt_irrefl in Hpos.
      * assert (Hne : insumo_nome i <> nome).
        { intros En. assert (i = i0) as ->.
          { apply (NoDup_map_unico insumo_nome (insumos s)); try assumption.
            - apply (bf_insumos_nome s Hbf).
            - congruence. }
          rewrite Z.eqb_refl in Eid. discriminate. }
        assert (Hb : String.eqb nome (insumo_nome i) = false)
          by (apply String.eqb_neq; congruence).
        rewrite Hb, app_nil_r. now apply H2.
  - rewrite (registrar_compra_db_novo agora nome q p q p s
               (sql_real_exato q) (sql_real_exato p) E). cbn [fst].
    split.
    + intros nome' Hn. unfold insumo_de_nome in Hn.
      cbn [insumos com_insumos compras com_compras] in *.
      rewrite compras_de_snoc. cbn [compra_nome compra_nova].
      destruct (String.eqb_spec nome nome') as [<-|Hne].
      * erewrite find_nome_app in Hn; [discriminate | exact E | reflexivity].
      * rewrite find_nome_app_other in Hn by exact Hne.
        rewrite (H1 nome' Hn). reflexivity.
    + intros i Hin. cbn [insumos com_insumos compras com_compras] in *.
      rewrite compras_de_snoc.
      cbn [compra_nome compra_quantidade compra_preco compra_nova].
      apply in_app_or in Hin. destruct Hin as [Hin|[<-|[]]].
      * assert (Hb : String.eqb nome (insumo_nome i) = false).
        { apply String.eqb_neq. intros En.
          apply (insumo_de_nome_none_notin nome s E).
          rewrite En. now apply in_map. }
        rewrite Hb, app_nil_r. now apply H2.
      * cbn [insumo_nome insumo_novo estoque_qtd custo_medio].
        rewrite String.eqb_refl, (H1 nome E).
        exists q, p. split; [reflexivity|]. split; [reflexivity|].
        cbn [app soma_qtd soma_valor fold_right fst snd].
        split; [now apply Qlt_le_weak|]. split; ring.
Qed.

Lemma alcancavel_pelo_livro_alcancavel (s : db Q) :
  alcancavel_pelo_livro s -> alcancavel s.
Proof. induction 1; now constructor. Qed.

Lemma livro_em_dia_alcancavel (s : db Q) :
  alcancavel_pelo_livro s -> livro_em_dia s.
Proof.
  induction 1 as [|o s Ho Hs IH]; [apply livro_em_dia_vazio|].
  pose proof (bem_formado_alcancavel s
                (alcancavel_pelo_livro_alcancavel s Hs)) as Hbf.
  destruct o; cbn [mantem_o_livro] in Ho; try discriminate Ho;
    cbn [executar].
  - apply (livro_em_dia_quadro s); [| |exact IH];
      unfold init_db; now destruct (_ =? _)%Z.
  - now apply livro_em_dia_add_produto.
  - apply livro_em_dia_registrar_compra_db; try assumption.
    now apply Qltb_lt.
  - apply (livro_em_dia_quadro s); [| |exact IH];
      unfold add_receita, commit_or_close, insert_receita;
      cbn [sql_real exato]; now destruct (existsb _ _).
  - apply (livro_em_dia_quadro s); [| |exact IH];
      unfold update_receita_db, commit_or_close, update_receita;
      cbn [sql_real exato];
      (destruct (existsb _ _); [now destruct (existsb _ _) | reflexivity]).
  - now apply (livro_em_dia_quadro s).
  - apply (livro_em_dia_quadro s); [| |exact IH];
      unfold registrar_venda, commit_or_close, bind, lift, insert_venda, ret;
      cbn [float_of_int sql_real exato];
      destruct (negb _); [reflexivity| |reflexivity|];
      now destruct (negb _).
  - now apply (livro_em_dia_quadro s).
Qed.

(** X18.  Where no operation rounds, and as long as no ingredient is dropped
    or renamed, no purchase is dropped and every purchase has a quantity
    above zero, the ledger is the log added up: every purchase row bears the
    name of an ingredient, and every ingredient holds the sum of the
    quantities bought under its name, at an average cost that makes the
    stock worth the sum of quantity times price of those purchases. *)
Theorem estoque_e_a_soma_das_compras (s : db Q) :
  alcancavel_pelo_livro s ->
  (forall c, In c (compras s) ->
     exists i, In i (insumos s) /\ insumo_nome i = compra_nome c)
  /\ (forall i, In i (insumos s) ->
        exists S C,
          estoque_qtd i = Some S /\ custo_medio i = Some C
          /\ S == soma_qtd (compras_de (insumo_nome i) (compras s))
          /\ C * S == soma_valor (compras_de (insumo_nome i) (compras s))).
Proof.
  intros Ha. destruct (livro_em_dia_alcancavel s Ha) as [H1 H2]. split.
  - intros c Hc.
    destruct (insumo_de_nome (compra_nome c) s) as [i|] eqn:E.
    + unfold insumo_de_nome in E. apply find_some in E.
      destruct E as [Hi En]. cbn beta in En. apply String.eqb_eq in En.
      now exists i.
    + exfalso. specialize (H1 _ E). unfold compras_de in H1.
      apply map_eq_nil in H1.
      assert (Hin : In c (filter (fun c0 => String.eqb (compra_nome c0)
                                              (compra_nome c)) (compras s)))
        by (apply filter_In; split; [exact Hc | apply String.eqb_refl]).
      rewrite H1 in Hin. exact Hin.
  - intros i Hi. destruct (H2 i Hi) as (S0 & C0 & HS & HC & _ & ES & EC).
    now exists S0, C0.
Qed.

End LogTheorems.

(** ** The further theorems at work on runs of the code *)

Lemma alcancavel_db_movimento : alcancavel db_movimento.
Proof.
  unfold db_movimento. do 4 apply alcancavel_passo. apply alcancavel_vazio.
Qed.

Lemma esquema_mantido_witness :
  let s := db_movimento in
  alcancavel s
  /\ ((rowids_ok (map insumo_id (insumos s)) (seq_insumos s)
       /\ rowids_ok (map receita_id (receitas s)) (seq_receitas s)
       /\ rowids_ok (map venda_id (vendas s)) (seq_vendas s)
       /\ rowids_ok (map compra_id (compras s)) (seq_compras s)
       /\ rowids_ok (map usuario_id (usuarios s)) (seq_usuarios s))
      /\ (NoDup (map insumo_nome (insumos s))
          /\ NoDup (map receita_nome (receitas s))
          /\ NoDup (map username (usuarios s)))
      /\ (forall v, In v (vendas s) ->
            exists r, In r (receitas s) /\ receita_id r = venda_receita_id v)).
Proof.
  intros s. split; [exact alcancavel_db_movimento|].
  exact (esquema_mantido s alcancavel_db_movimento).
Defined.

Lemma nome_repetido_recusado_witness :
  ((exists i, In i (insumos db_carne) /\ insumo_nome i = "carne"%string)
   /\ add_produto "carne" "" "kg" db_carne
      = (db_carne, Ok (showwarning "Atenção" "Este insumo já existe.")))
  /\ ((exists r, In r (receitas db_lanche)
                 /\ receita_nome r = "X-Burguer"%string)
      /\ add_receita "X-Burguer" 12%float db_lanche
         = (db_lanche, Ok (showwarning "Atenção"
                                       "Já existe uma receita com esse nome."))).
Proof.
  assert (Hi : exists i, In i (insumos db_carne)
                         /\ insumo_nome i = "carne"%string).
  { eexists. split; [left; reflexivity | reflexivity]. }
  assert (Hr : exists r, In r (receitas db_lanche)
                         /\ receita_nome r = "X-Burguer"%string).
  { eexists. split; [left; reflexivity | reflexivity]. }
  split; (split; [assumption|]).
  - exact (proj1 (nome_repetido_recusado "carne" "" "kg" 0%float db_carne) Hi).
  - exact (proj2 (nome_repetido_recusado "X-Burguer" "" "" 12%float db_lanche)
             Hr).
Defined.

Lemma add_produto_novo_witness :
  (forall i, In i (insumos db_carne) -> insumo_nome i <> "queijo"%string)
  /\ exists (s' : db float) (id : Z),
       add_produto "queijo" "frios" "kg" db_carne
         = (s', Ok (showinfo "Sucesso" "Insumo adicionado com sucesso!"))
       /\ insumos s' = insumos db_carne ++
            [{| insumo_id := id;
                insumo_nome := "queijo";
                categoria := Some "frios"%string;
                unidade := Some "kg"%string;
                estoque_qtd := Some 0%float;
                custo_medio := Some 0%float |}]
       /\ estoque_e_custo "queijo" s' = Some (Some 0%float, Some 0%float)
       /\ (forall outro, outro <> "queijo"%string ->
             estoque_e_custo outro s' = estoque_e_custo outro db_carne)
       /\ compras s' = compras db_carne.
Proof.
  assert (Hall : forall i, In i (insumos db_carne) ->
                           insumo_nome i <> "queijo"%string).
  { intros i [<-|[]]. discriminate. }
  split; [exact Hall|].
  exact (add_produto_novo "queijo" "frios" "kg" db_carne Hall).
Defined.

Lemma renomear_para_nome_tomado_witness :
  (exists i, In i (insumos db_dois) /\ insumo_id i = 2)
  /\ (exists j, In j (insumos db_dois) /\ insumo_id j <> 2
                /\ insumo_nome j = "carne"%string)
  /\ update_insumo_db 2 "carne" "" "un" db_dois
     = (db_dois, Ok (showwarning "Atenção"
                                 "Já existe um insumo com esse nome.")).
Proof.
  assert (Hi : exists i, In i (insumos db_dois) /\ insumo_id i = 2).
  { eexists. split; [right; left; reflexivity | reflexivity]. }
  assert (Hj : exists j, In j (insumos db_dois) /\ insumo_id j <> 2
                         /\ insumo_nome j = "carne"%string).
  { eexists. split; [left; reflexivity|]. split; [discriminate|reflexivity]. }
  split; [exact Hi|]. split; [exact Hj|].
  exact (proj1 (renomear_para_nome_tomado 2 "carne" "" "un" 0%float db_dois)
           Hi Hj).
Defined.

Lemma id_ausente_sem_efeito_witness :
  int64 7 = true
  /\ (forall i, In i (insumos db_carne) -> insumo_id i <> 7)
  /\ (forall v, In v (vendas db_vendido) -> venda_id v <> 7)
  /\ (update_insumo_db 7 "sal" "" "kg" db_carne
      = (db_carne, Ok (showinfo "Sucesso" "Insumo atualizado!"))
      /\ delete_insumo_db 7 db_carne
         = (db_carne, Ok (showinfo "Sucesso" "Insumo removido.")))
  /\ delete_venda_db 7 db_vendido
     = (db_vendido, Ok (showinfo "Sucesso" "Venda removida.")).
Proof.
  assert (Hi : forall i, In i (insumos db_carne) -> insumo_id i <> 7).
  { intros i [<-|[]]. discriminate. }
  assert (Hv : forall v, In v (vendas db_vendido) -> venda_id v <> 7).
  { intros v [<-|[]]. discriminate. }
  split; [reflexivity|]. split; [exact Hi|]. split; [exact Hv|]. split.
  - exact (proj1 (id_ausente_sem_efeito 7 "sal" "" "kg" 0%float db_carne
                    eq_refl) Hi).
  - exact (proj2 (proj2 (proj2
             (id_ausente_sem_efeito 7 "" "" "" 0%float db_vendido eq_refl)))
             Hv).
Defined.

Lemma delete_receita_db_leva_as_vendas_witness :
  (exists r, In r (receitas db_vendido) /\ receita_id r = 1)
  /\ exists s' : db float,
       delete_receita_db 1 db_vendido
         = (s', Ok (showinfo "Sucesso" "Receita removida."))
       /\ (forall r, In r (receitas s')
                     <-> In r (receitas db_vendido) /\ receita_id r <> 1)
       /\ (forall v, In v (vendas s')
                     <-> In v (vendas db_vendido) /\ venda_receita_id v <> 1)
       /\ insumos s' = insumos db_vendido
       /\ compras s' = compras db_vendido.
Proof.
  assert (Hr : exists r, In r (receitas db_vendido) /\ receita_id r = 1).
  { eexists. split; [left; reflexivity | reflexivity]. }
  split; [exact Hr|].
  exact (delete_receita_db_leva_as_vendas 1 db_vendido Hr).
Defined.

Lemma delete_insumo_db_recomeca_witness :
  let i := {| insumo_id := 1; insumo_nome := "carne";
              categoria := Some ""%string; unidade := Some "un"%string;
              estoque_qtd := Some 10%float; custo_medio := Some 5%float |} in
  let s1 := fst (delete_insumo_db (insumo_id i) db_carne) in
  NoDup (map insumo_nome (insumos db_carne))
  /\ insumo_de_nome "carne" db_carne = Some i
  /\ compras s1 = compras db_carne
  /\ estoque_e_custo "carne" s1 = None
  /\ forall agora quantidade preco_unit,
       (quantidade >? fzero)%py = true ->
       (preco_unit >? fzero)%py = true ->
       estoque_e_custo "carne"
         (fst (registrar_compra_db agora "carne" quantidade preco_unit s1))
       = Some (Some quantidade, Some preco_unit).
Proof.
  intros i s1.
  assert (Hnd : NoDup (map insumo_nome (insumos db_carne))).
  { constructor; [intros [] | constructor]. }
  assert (Hi : insumo_de_nome "carne" db_carne = Some i) by reflexivity.
  split; [exact Hnd|]. split; [exact Hi|].
  exact (delete_insumo_db_recomeca "carne" i db_carne Hnd Hi).
Defined.

Lemma registrar_compra_db_so_o_nome_witness :
  NoDup (map insumo_id (insumos db_carne))
  /\ "carne"%string <> "queijo"%string
  /\ estoque_e_custo "carne"
       (fst (registrar_compra_db 1 "queijo" 2%float 3%float db_carne))
     = estoque_e_custo "carne" db_carne.
Proof.
  assert (Hnd : NoDup (map insumo_id (insumos db_carne))).
  { constructor; [intros [] | constructor]. }
  assert (Hne : "carne"%string <> "queijo"%string) by discriminate.
  split; [exact Hnd|]. split; [exact Hne|].
  exact (registrar_compra_db_so_o_nome 1 "queijo" "carne" 2%float 3%float
           db_carne Hnd Hne).
Defined.


Lemma registrar_venda_nos_relatorios_witness :
  let d := showinfo "Sucesso" "Venda registrada com sucesso!" in
  registrar_venda 100 1 4 10%float 0.12%float db_lanche = (db_vendido, Ok d)
  /\ exists r r1,
       load_relatorios_data 100 db_lanche = Ok r
       /\ load_relatorios_data 100 db_vendido = Ok r1
       /\ n_vendas (c_hoje r1) = n_vendas (c_hoje r) + 1
       /\ n_vendas (c_7 r1) = n_vendas (c_7 r) + 1
       /\ n_vendas (c_30 r1) = n_vendas (c_30 r) + 1
       /\ n_vendas (c_all r1) = n_vendas (c_all r) + 1
       /\ n_itens (c_all r1) = n_itens (c_all r) + 4.
Proof.
  intros d.
  assert (Hv : registrar_venda 100 1 4 10%float 0.12%float db_lanche
               = (db_vendido, Ok d)) by (vm_compute; reflexivity).
  split; [exact Hv|].
  destruct (registrar_venda_nos_relatorios 100 1 4 10%float 0.12%float
              db_lanche db_vendido d Hv) as [Hconta Hcarrega].
  destruct Hcarrega as (r & r1 & E & E1);
    [constructor | lia | cbn; lia |].
  exists r, r1. split; [exact E|]. split; [exact E1|].
  exact (Hconta r r1 E E1).
Defined.

Lemma delete_venda_db_desfaz_a_venda_witness :
  let d := showinfo "Sucesso" "Venda registrada com sucesso!" in
  let s2 := fst (delete_venda_db (seq_vendas db_vendido) db_vendido) in
  rowids_ok (map venda_id (vendas db_lanche)) (seq_vendas db_lanche)
  /\ registrar_venda 100 1 4 10%float 0.12%float db_lanche = (db_vendido, Ok d)
  /\ vendas s2 = vendas db_lanche
  /\ (forall dt_ini dt_fim,
        _agg_vendas dt_ini dt_fim s2 = _agg_vendas dt_ini dt_fim db_lanche)
  /\ seq_vendas db_lanche < seq_vendas s2.
Proof.
  intros d s2.
  assert (Hok : rowids_ok (map venda_id (vendas db_lanche))
                          (seq_vendas db_lanche))
    by (split; constructor).
  assert (Hv : registrar_venda 100 1 4 10%float 0.12%float db_lanche
               = (db_vendido, Ok d)) by (vm_compute; reflexivity).
  split; [exact Hok|]. split; [exact Hv|].
  exact (delete_venda_db_desfaz_a_venda 100 1 4 10%float 0.12%float
           db_lanche db_vendido d Hok Hv).
Defined.

Lemma init_db_usuario_padrao_witness :
  usuarios (@db_vazio float) = []
  /\ verify_user "admin" "admin" (init_db (@db_vazio float)) = true
  /\ (forall senha,
        verify_user "admin" senha (init_db (@db_vazio float)) = true
        <-> SHA256.hexdigest senha = SHA256.hexdigest "admin")
  /\ (forall nome senha, nome <> "admin"%string ->
        verify_user nome senha (init_db (@db_vazio float)) = false).
Proof.
  split; [reflexivity|].
  exact (proj1 (init_db_usuario_padrao (@db_vazio float)) eq_refl).
Defined.

Lemma formularios_barram_witness :
  (exists p, Some (-5)%float = Some p /\ (p <=? 0)%float = true)
  /\ fst (_salvar_receita "X-Salada" (Some (-5)%float) db_lanche) = db_lanche
  /\ (exists t, Some (-0.5)%float = Some t /\ (t <? 0)%float = true)
  /\ fst (_registrar_venda 100 "1 - X-Burguer" (Some 1) (Some 4)
            (Some 10%float) (Some (-0.5)%float) db_lanche) = db_lanche.
Proof.
  assert (Hp : exists p, Some (-5)%float = Some p /\ (p <=? 0)%float = true)
    by (eexists; split; reflexivity).
  assert (Ht : exists t, Some (-0.5)%float = Some t /\ (t <? 0)%float = true)
    by (eexists; split; reflexivity).
  split; [exact Hp|]. split; [|split; [exact Ht|]].
  - exact (proj1 (proj2 (formularios_barram 100 "X-Salada" "" "" ""
                           (Some (-5)%float) None None None None db_lanche))
             (or_intror (or_intror Hp))).
  - exact (proj2 (proj2 (formularios_barram 100 "" "" "" "1 - X-Burguer"
                           None (Some 1) (Some 4) (Some 10%float)
                           (Some (-0.5)%float) db_lanche))
             (or_intror (or_intror (or_intror (or_intror (or_intror
                (or_intror (or_intror Ht)))))))).
Defined.

Lemma listagens_mais_novas_primeiro_witness :
  let s := db_movimento in
  alcancavel s
  /\ listar_compras s = rev (compras s)
  /\ map fst (listar_vendas s) = rev (vendas s)
  /\ (forall v nome, In (v, nome) (listar_vendas s) ->
        exists r, In r (receitas s)
                  /\ receita_id r = venda_receita_id v
                  /\ receita_nome r = nome).
Proof.
  intros s. split; [exact alcancavel_db_movimento|].
  exact (listagens_mais_novas_primeiro s alcancavel_db_movimento).
Defined.

Lemma alcancavel_pelo_livro_db_livro : alcancavel_pelo_livro db_livro.
Proof.
  unfold db_livro.
  do 3 (apply livro_passo; [reflexivity|]). apply livro_vazio.
Qed.

Lemma estoque_e_a_soma_das_compras_witness :
  let s := db_livro in
  alcancavel_pelo_livro s
  /\ (forall c, In c (compras s) ->
        exists i, In i (insumos s) /\ insumo_nome i = compra_nome c)
  /\ (forall i, In i (insumos s) ->
        exists S C,
          estoque_qtd i = Some S /\ custo_medio i = Some C
          /\ (S == soma_qtd (compras_de (insumo_nome i) (compras s)))%Q
          /\ (C * S == soma_valor (compras_de (insumo_nome i) (compras s)))%Q).
Proof.
  intros s. split; [exact alcancavel_pelo_livro_db_livro|].
  exact (estoque_e_a_soma_das_compras s alcancavel_pelo_livro_db_livro).
Defined.

(** The run of [db_livro]: 10 bought at 5 and 10 at 10 are 20 in stock at
    7.5, and the log adds up to 20 and to 150. *)
Example db_livro_carne :
  estoque_e_custo "carne" db_livro = Some (Some (20 # 1), Some (1500 # 200))%Q
  /\ compras_de "carne" (compras db_livro) = [(10, 5); (10, 10)]%Q.
Proof. vm_compute. split; reflexivity. Qed.
